(** * Yeongyanggaeng: diet tracker -- food search, translation cache,
      nutrition lookup, meal store, statistics, backup and reset.

    A shallow embedding of [app.py] (and of [data/database.py] where it
    overlaps), followed by the properties of the written specification
    that were checked against it.

    Modelling conventions.
    - Python floats are rationals [Q]; the operations used by the code
      (sum, product with a power of two, comparison with zero) are taken
      to be exact.
    - Everything the program obtains from outside (HTTP responses, the
      translation service, the outcome of [session.commit()], the clock,
      the bcrypt hash) is an explicit argument of the function that asks
      for it.
    - [try: ... except ...:] is a computation in [exn + A] followed by a
      handler; [st.error]/[st.info]/[st.success] calls are collected in a
      list of notices.
    - SQL tables are lists of rows in insertion order; the translation
      table, whose barcode column is unique, is a finite map. *)

From Stdlib Require Import String Ascii List ZArith QArith Lia Bool.
From Stdlib Require Import Permutation Sorted.
From stdpp Require Import base option list gmap strings.

Open Scope string_scope.
Set Warnings "-register-all".

(* ===================================================================== *)
(** * Part I -- the embedding                                             *)
(* ===================================================================== *)

(** ** Exceptions and notices *)

Inductive exn :=
| AttributeError | TypeError | ValueError | KeyError | OverflowError
| TranslatorError | DatabaseError.

Definition try (A : Type) : Type := (exn + A)%type.

Definition raise {A} (e : exn) : try A := inl e.
Definition ret {A} (a : A) : try A := inr a.
Definition bind {A B} (c : try A) (k : A -> try B) : try B :=
  match c with
  | inl e => inl e
  | inr a => k a
  end.

Notation "x <- c ;; k" := (bind c (fun x => k))
  (at level 62, c at next level, right associativity).

(** The texts shown to the user, without the interpolated exception. *)
Inductive message :=
| MsgTranslateFailed          (* "번역 중 오류 발생: {e}" *)
| MsgTranslateEnFailed        (* "영어로 번역 중 오류 발생: {e}" *)
| MsgQueryTranslated (q : string) (* "검색어가 영어로 번역되었습니다: {q}" *)
| MsgApiRetry (k n : nat)     (* "API 요청 중 오류 발생: {e}. 재시도 {k}/{n} 중..." *)
| MsgApiRequestError          (* "API 요청 중 오류 발생: {e}" *)
| MsgNutritionRequestError    (* "영양 정보 요청 중 오류 발생: {e}" *)
| MsgHttpError                (* "HTTP 오류 발생: {e}" *)
| MsgUnexpected               (* "예기치 않은 오류 발생: {e}" *)
| MsgSearchFailed             (* "음식 검색에 실패했습니다. 나중에 다시 시도해주세요." *)
| MsgUserCreateError          (* "사용자 생성 중 오류 발생: {e}" *)
| MsgSaveError                (* "데이터베이스에 저장 중 오류 발생: {e}" *)
| MsgDeleteError              (* "음식 삭제 중 오류 발생: {e}" *)
| MsgResetDone                (* "모든 식단 데이터가 삭제되었습니다." *)
| MsgResetError               (* "데이터 삭제 중 오류가 발생했습니다: {e}" *)
| MsgBackupError              (* "백업 중 오류 발생: {e}" *)
| MsgRestoreDone              (* "데이터 복원이 완료되었습니다." *)
| MsgRestoreBadFormat         (* "지원하지 않는 파일 형식입니다." *)
| MsgRestoreNotJson           (* "업로드한 파일이 유효한 JSON 파일이 아닙니다." *)
| MsgRestoreError             (* "복원 중 오류 발생: {e}" *)
| MsgLoadError.               (* "식단을 불러오는 중 오류 발생: {e}" *)

Inductive notice :=
| st_error (m : message)
| st_info (m : message)
| st_success (m : message).

(** ** JSON values as [response.json()] returns them *)

Inductive json :=
| JNull
| JBool (b : bool)
| JInt (z : Z)
| JFloat (q : Q)
| JStr (s : string)
| JArr (items : list json)
| JObj (fields : list (string * json)).

(** Lookup in a decoded object, whose keys are distinct. *)
Fixpoint assoc (k : string) (fields : list (string * json)) : option json :=
  match fields with
  | [] => None
  | (k', v) :: rest => if String.eqb k k' then Some v else assoc k rest
  end.

(** [d.get(k, default)]: only a dict has [.get]. *)
Definition py_get (d : json) (k : string) (dflt : json) : try json :=
  match d with
  | JObj fields => ret (default dflt (assoc k fields))
  | _ => raise AttributeError
  end.

(** [v == 1] for a JSON value [v]. *)
Definition py_eq_1 (v : json) : bool :=
  match v with
  | JInt z => Z.eqb z 1
  | JFloat q => Qeq_bool q 1
  | JBool b => b
  | _ => false
  end.

(** The outcome of [session_requests.get(...)], [raise_for_status()] and
    [response.json()] taken together. *)
Inductive transport_error := ChunkedEncodingError | ConnectionError | Timeout.

Inductive http_outcome (A : Type) :=
| TransportFailure (e : transport_error)
| HTTPError
| BodyNotJson
| Response (data : A).

Arguments TransportFailure {A} e.
Arguments HTTPError {A}.
Arguments BodyNotJson {A}.
Arguments Response {A} data.

(** ** Nutrition lookup ([get_nutrition_info]) *)

Record NutritionInfo := mkNutrition {
  n_name : json;
  n_calories : Q;
  n_proteins : Q;
  n_carbs : Q;
  n_fats : Q
}.

Definition product_url (barcode : string) : string :=
  "https://world.openfoodfacts.org/api/v0/product/" ++ barcode ++ ".json".

(** The least magnitude of an integer that [float] refuses: halfway
    between the largest double, [2^1024 - 2^971], and [2^1024]. *)
Definition float_overflow_bound : Z := (2 ^ 1024 - 2 ^ 970)%Z.

Section Nutrition.

(** [float(s)] for a string [s]: [Some q] when [s] is a numeric literal,
    [None] when Python raises [ValueError]. *)
Variable float_of_str : string -> option Q.

(** [float(v)]; an integer too large for a double raises [OverflowError]. *)
Definition py_float (v : json) : try Q :=
  match v with
  | JInt z =>
      if (Z.abs z <? float_overflow_bound)%Z then ret (inject_Z z)
      else raise OverflowError
  | JFloat q => ret q
  | JBool b => ret (if b then 1%Q else 0%Q)
  | JStr s =>
      match float_of_str s with
      | Some q => ret q
      | None => raise ValueError
      end
  | JNull | JArr _ | JObj _ => raise TypeError
  end.

(** [float(nutriments.get(k, 0))]. *)
Definition nutriment (nutriments : json) (k : string) : try Q :=
  v <- py_get nutriments k (JInt 0) ;;
  py_float v.

(** The body of the [try] block once the response has been decoded; the
    result [None] stands for falling out of the [if]. *)
Definition nutrition_of_response (data : json) : try (option NutritionInfo) :=
  status <- py_get data "status" JNull ;;
  if py_eq_1 status then
    product <- py_get data "product" (JObj []) ;;
    nutriments <- py_get product "nutriments" (JObj []) ;;
    name <- py_get product "product_name" (JStr "이름 없음") ;;
    calories <- nutriment nutriments "energy-kcal_100g" ;;
    proteins <- nutriment nutriments "proteins_100g" ;;
    carbs <- nutriment nutriments "carbohydrates_100g" ;;
    fats <- nutriment nutriments "fat_100g" ;;
    ret (Some (mkNutrition name calories proteins carbs fats))
  else ret None.

(** [get_nutrition_info(barcode)]; [None] is the empty dict [{}]. *)
Definition get_nutrition_info (net : string -> http_outcome json) (barcode : string)
  : option NutritionInfo * list notice :=
  match net (product_url barcode) with
  | Response data =>
      match nutrition_of_response data with
      | inr (Some info) => (Some info, [])
      | inr None => (None, [])
      | inl _ => (None, [st_error MsgUnexpected])
      end
  | TransportFailure _ => (None, [st_error MsgNutritionRequestError])
  | HTTPError => (None, [st_error MsgHttpError])
  | BodyNotJson => (None, [st_error MsgUnexpected])
  end.

(** What the response says about one nutriment: absent, or present with
    the value [float] gives it. *)
Definition nutriment_or_zero (nfields : list (string * json)) (k : string) : try Q :=
  match assoc k nfields with
  | None => ret 0%Q
  | Some v => py_float v
  end.

(** The response reports the product as found: [data.get('status') == 1]. *)
Definition status_found (data : json) : bool :=
  match data with
  | JObj fields => py_eq_1 (default JNull (assoc "status" fields))
  | _ => false
  end.

Definition nutriment_keys : list string :=
  ["energy-kcal_100g"; "proteins_100g"; "carbohydrates_100g"; "fat_100g"].

(** The outcomes the caller must read as "lookup unavailable": no decoded
    response, a response that does not report the product as found, or a
    response whose extraction raises. *)
Definition lookup_unavailable (outcome : http_outcome json) : Prop :=
  match outcome with
  | Response data =>
      status_found data = false \/ exists e, nutrition_of_response data = raise e
  | _ => True
  end.

End Nutrition.

(** A parser for plain decimal literals ([digits], [digits.digits], with an
    optional sign), used to run the lookup on concrete responses. *)
Definition digit_of_ascii (c : ascii) : option nat :=
  let n := nat_of_ascii c in
  if (48 <=? n)%nat && (n <=? 57)%nat then Some (n - 48)%nat else None.

Fixpoint digits_value (acc : nat) (s : string) : option (nat * string) :=
  match s with
  | EmptyString => Some (acc, EmptyString)
  | String c rest =>
      match digit_of_ascii c with
      | Some d => digits_value (10 * acc + d) rest
      | None => Some (acc, s)
      end
  end.

Definition starts_with_digit (s : string) : bool :=
  match s with
  | String c _ => match digit_of_ascii c with Some _ => true | None => false end
  | EmptyString => false
  end.

Definition unsigned_decimal (s : string) : option Q :=
  if starts_with_digit s then
    match digits_value 0 s with
    | Some (n, EmptyString) => Some (inject_Z (Z.of_nat n))
    | Some (n, String "." frac) =>
        if starts_with_digit frac then
          match digits_value 0 frac with
          | Some (f, EmptyString) =>
              Some (Qplus (inject_Z (Z.of_nat n))
                          (Qmake (Z.of_nat f) (Pos.of_nat (10 ^ String.length frac))))
          | _ => None
          end
        else None
    | _ => None
    end
  else None.

Definition decimal_of_string (s : string) : option Q :=
  match s with
  | String "-" rest => option_map Qopp (unsigned_decimal rest)
  | String "+" rest => unsigned_decimal rest
  | _ => unsigned_decimal s
  end.

(** Sample responses of the per-barcode endpoint. *)
Definition plain_nutriments : list (string * json) :=
  [("energy-kcal_100g", JInt 165);
   ("proteins_100g", JStr "31.5");
   ("fat_100g", JFloat (36 # 10))].

Definition plain_product : list (string * json) :=
  [("product_name", JStr "Chicken Breast"); ("nutriments", JObj plain_nutriments)].

Definition plain_fields : list (string * json) :=
  [("status", JInt 1); ("product", JObj plain_product)].

Definition response_plain : json := JObj plain_fields.

Definition response_non_numeric : json :=
  JObj [("status", JInt 1);
        ("product", JObj [("product_name", JStr "Chicken Breast");
                          ("nutriments", JObj [("energy-kcal_100g", JStr "abc");
                                               ("proteins_100g", JInt 31)])])].

Definition response_huge_integer : json :=
  JObj [("status", JInt 1);
        ("product", JObj [("product_name", JStr "Chicken Breast");
                          ("nutriments", JObj [("energy-kcal_100g", JInt (10 ^ 400))])])].

Definition response_not_found : json :=
  JObj [("status", JInt 0); ("status_verbose", JStr "product not found")].

Definition net_const (r : http_outcome json) : string -> http_outcome json :=
  fun _ => r.

(** ** The persistent store

    [Column(Float, default=0.0)]: the ORM replaces a missing or [None]
    attribute by the column default on INSERT, so every row the program
    writes carries a number; [Column(DateTime, default=datetime.utcnow)]
    likewise.  Ids are SQLite rowids: one more than the largest id in the
    table. *)

Record datetime := mkDatetime {
  year : Z; month : Z; day : Z;
  hour : Z; minute : Z; second : Z; microsecond : Z
}.

Record User := mkUser {
  user_id : Z;
  username : string;
  password : string
}.

Record Meal := mkMeal {
  meal_id : Z;
  meal_user_id : Z;
  meal_name : string;
  calories : Q;
  proteins : Q;
  carbs : Q;
  fats : Q;
  meal_date : datetime
}.

Record ManualMeal := mkManualMeal {
  manual_id : Z;
  manual_user_id : Z;
  manual_name : string;
  manual_date : datetime
}.

Record DB := mkDB {
  users : list User;
  meals : list Meal;
  manual_meals : list ManualMeal;
  product_translations : gmap string string   (* barcode -> translated_name *)
}.

Definition empty_db : DB := mkDB [] [] [] ∅.

Definition next_id (ids : list Z) : Z := (1 + fold_right Z.max 0 ids)%Z.

Definition set_product_translations (t : gmap string string) (d : DB) : DB :=
  mkDB (users d) (meals d) (manual_meals d) t.

(** ** Raw products and their display form *)

(** A product of the search endpoint; [None] is an absent key. *)
Record RawProduct := mkRaw {
  product_name : option string;
  product_name_KR : option string;
  code : option string;
  brands : option string;
  categories : option string
}.

(** Keys '제품 이름', '바코드', '제조사', '카테고리'. *)
Record DisplayProduct := mkDisplay {
  display_name : string;
  display_barcode : string;
  display_manufacturer : string;
  display_categories : string
}.

(** ** The process: store, in-memory result caches, and what was shown *)

(** [@st.cache_data] keeps, per argument tuple, the returned value together
    with the elements the call displayed, and replays both on a hit.  The
    key is built from the arguments as they are passed, defaults are not
    filled in: a call [translate_to_korean_cached(text, barcode=b)] (also
    with [b] being [None]) has its entry in [ko_memo], a call
    [translate_to_korean_cached(text)] has it in [ko_memo_text]. *)
Record World := mkWorld {
  db : DB;
  ko_memo : gmap (string * option string) (string * list notice);
  ko_memo_text : gmap string (string * list notice);
  en_memo : gmap string (string * list notice);
  foods_memo : gmap (nat * nat) (list DisplayProduct * list notice);
  notices : list notice;     (* everything displayed so far, oldest first *)
  live_calls : nat;          (* calls made to the translation service *)
  requests_sent : nat;       (* GET requests issued to the food service *)
  slept : list Q             (* arguments of [time.sleep], oldest first *)
}.

Definition initial_world : World := mkWorld empty_db ∅ ∅ ∅ ∅ [] 0 0 [].

Definition set_db (d : DB) (w : World) : World :=
  mkWorld d (ko_memo w) (ko_memo_text w) (en_memo w) (foods_memo w) (notices w)
          (live_calls w) (requests_sent w) (slept w).
Definition set_ko_memo m (w : World) : World :=
  mkWorld (db w) m (ko_memo_text w) (en_memo w) (foods_memo w) (notices w)
          (live_calls w) (requests_sent w) (slept w).
Definition set_ko_memo_text m (w : World) : World :=
  mkWorld (db w) (ko_memo w) m (en_memo w) (foods_memo w) (notices w)
          (live_calls w) (requests_sent w) (slept w).
Definition set_en_memo m (w : World) : World :=
  mkWorld (db w) (ko_memo w) (ko_memo_text w) m (foods_memo w) (notices w)
          (live_calls w) (requests_sent w) (slept w).
Definition set_foods_memo m (w : World) : World :=
  mkWorld (db w) (ko_memo w) (ko_memo_text w) (en_memo w) m (notices w)
          (live_calls w) (requests_sent w) (slept w).
Definition show (ns : list notice) (w : World) : World :=
  mkWorld (db w) (ko_memo w) (ko_memo_text w) (en_memo w) (foods_memo w)
          (notices w ++ ns) (live_calls w) (requests_sent w) (slept w).
Definition count_live_call (w : World) : World :=
  mkWorld (db w) (ko_memo w) (ko_memo_text w) (en_memo w) (foods_memo w) (notices w)
          (S (live_calls w)) (requests_sent w) (slept w).
Definition count_request (w : World) : World :=
  mkWorld (db w) (ko_memo w) (ko_memo_text w) (en_memo w) (foods_memo w) (notices w)
          (live_calls w) (S (requests_sent w)) (slept w).
Definition sleep (secs : Q) (w : World) : World :=
  mkWorld (db w) (ko_memo w) (ko_memo_text w) (en_memo w) (foods_memo w) (notices w)
          (live_calls w) (requests_sent w) (slept w ++ [secs]).

(** ** Translation cache ([translate_to_korean_cached],
       [translate_to_english_cached]) *)

(** What the outside answers during one call. *)
Record TranslateEnv := mkTranslateEnv {
  translator_reply : string -> option string;  (* [None]: the service call raises *)
  query_ok : bool;                             (* the SELECT on the cache table succeeds *)
  commit_ok : bool                             (* [session.commit()] succeeds *)
}.

(** [if barcode:] -- [None] and the empty string are false. *)
Definition truthy (s : option string) : option string :=
  match s with
  | Some (String c rest) => Some (String c rest)
  | _ => None
  end.

(** The [try] block of [translate_to_korean_cached]. *)
Definition translate_to_korean_try (env : TranslateEnv) (text : string)
    (barcode : option string) (w : World) : try string * World :=
  let cached : try (option string) :=
    match truthy barcode with
    | Some b =>
        if query_ok env then ret (product_translations (db w) !! b)
        else raise DatabaseError
    | None => ret None
    end in
  match cached with
  | inl e => (inl e, w)
  | inr (Some translated_name) => (ret translated_name, w)
  | inr None =>
      let w1 := count_live_call w in
      match translator_reply env text with
      | None => (raise TranslatorError, w1)
      | Some translation =>
          match truthy barcode with
          | Some b =>
              if commit_ok env then
                (ret translation,
                 set_db (set_product_translations
                           (<[b := translation]> (product_translations (db w1))) (db w1)) w1)
              else (raise DatabaseError, w1)
          | None => (ret translation, w1)
          end
      end
  end.

(** The function under the decorator: the [try] block and its handler.
    The third component is what the call displayed. *)
Definition translate_to_korean (env : TranslateEnv) (text : string)
    (barcode : option string) (w : World) : string * World * list notice :=
  match translate_to_korean_try env text barcode w with
  | (inr translation, w') => (translation, w', [])
  | (inl _, w') => (text, show [st_error MsgTranslateFailed] w', [st_error MsgTranslateFailed])
  end.

(** [@st.cache_data(ttl=86400)] around it, for a call that passes
    [barcode=...]. *)
Definition translate_to_korean_cached (env : TranslateEnv) (text : string)
    (barcode : option string) (w : World) : string * World :=
  match ko_memo w !! (text, barcode) with
  | Some (value, shown) => (value, show shown w)
  | None =>
      let '(value, w', shown) := translate_to_korean env text barcode w in
      (value, set_ko_memo (<[(text, barcode) := (value, shown)]> (ko_memo w')) w')
  end.

(** The same for the call [translate_to_korean_cached(text)]: the body
    runs with the default [barcode=None], the entry is kept under the key
    of this call form. *)
Definition translate_to_korean_cached_text (env : TranslateEnv) (text : string)
    (w : World) : string * World :=
  match ko_memo_text w !! text with
  | Some (value, shown) => (value, show shown w)
  | None =>
      let '(value, w', shown) := translate_to_korean env text None w in
      (value, set_ko_memo_text (<[text := (value, shown)]> (ko_memo_text w')) w')
  end.

Definition translate_to_english (env : TranslateEnv) (text : string)
    (w : World) : string * World * list notice :=
  let w1 := count_live_call w in
  match translator_reply env text with
  | Some translation => (translation, w1, [])
  | None => (text, show [st_error MsgTranslateEnFailed] w1, [st_error MsgTranslateEnFailed])
  end.

Definition translate_to_english_cached (env : TranslateEnv) (text : string)
    (w : World) : string * World :=
  match en_memo w !! text with
  | Some (value, shown) => (value, show shown w)
  | None =>
      let '(value, w', shown) := translate_to_english env text w in
      (value, set_en_memo (<[text := (value, shown)]> (en_memo w')) w')
  end.

(** The entries of the in-memory cache may be dropped at any time (they
    expire after 24 hours). *)
Definition expire_ko (keep : string * option string -> bool) (w : World) : World :=
  set_ko_memo (filter (fun kv => keep kv.1 = true) (ko_memo w)) w.

(** When a call to [translate_to_korean_cached] that reaches the function
    meets a failure. *)
Inductive translation_failure (env : TranslateEnv) (text : string)
    (barcode : option string) (w : World) : Prop :=
| lookup_fails b :
    truthy barcode = Some b -> query_ok env = false ->
    translation_failure env text barcode w
| service_fails :
    (forall b, truthy barcode = Some b ->
       query_ok env = true /\ product_translations (db w) !! b = None) ->
    translator_reply env text = None ->
    translation_failure env text barcode w
| persist_fails b translation :
    truthy barcode = Some b -> query_ok env = true ->
    product_translations (db w) !! b = None ->
    translator_reply env text = Some translation ->
    commit_ok env = false ->
    translation_failure env text barcode w.

(** Sample environments. *)
Definition translator_down : TranslateEnv :=
  mkTranslateEnv (fun _ => None) true true.

Definition dictionary (text : string) : option string :=
  if String.eqb text "Chicken Breast" then Some "닭가슴살"
  else if String.eqb text "Chicken breast fillet" then Some "닭가슴살 필레"
  else if String.eqb text "Milk" then Some "우유"
  else if String.eqb text "닭가슴살" then Some "chicken breast"
  else None.

Definition translator_up : TranslateEnv := mkTranslateEnv dictionary true true.
Definition commit_refused : TranslateEnv := mkTranslateEnv dictionary true false.

(** A failure memoised before the row existed: the service is down for the
    first call, a later call with another text of the same product stores
    the row. *)
Definition stale_world : World :=
  (translate_to_korean_cached translator_up "Chicken breast fillet" (Some "123")
     (translate_to_korean_cached translator_down "Chicken Breast" (Some "123")
        initial_world).2).2.

(** ** The two renderings of a product list *)

Definition no_barcode : string := "바코드 없음".
Definition no_name : string := "이름 없음".
Definition no_manufacturer : string := "제조사 없음".
Definition no_category : string := "카테고리 없음".

(** [s.split(',')]. *)
Fixpoint split_comma (s : string) : list string :=
  match s with
  | EmptyString => [EmptyString]
  | String c rest =>
      if Ascii.eqb c "," then EmptyString :: split_comma rest
      else match split_comma rest with
           | [] => [String c EmptyString]
           | piece :: pieces => String c piece :: pieces
           end
  end.

(** [", ".join(field.split(','))] after the default has been substituted. *)
Definition respace (dflt : string) (field : option string) : string :=
  String.concat ", " (split_comma (default dflt field)).

(** One turn of the loop of [get_api_foods_cached]. *)
Definition listing_record (env : TranslateEnv) (product : RawProduct) (w : World)
  : DisplayProduct * World :=
  let barcode := default no_barcode (code product) in
  let '(name, w') :=
    if negb (String.eqb barcode no_barcode) then
      match truthy (product_name_KR product) with
      | Some product_name_korean => (product_name_korean, w)
      | None =>
          match truthy (product_name product) with
          | Some name => translate_to_korean_cached env name (Some barcode) w
          | None => (no_name, w)
          end
      end
    else
      match truthy (product_name product) with
      | Some name => translate_to_korean_cached_text env name w
      | None => (no_name, w)
      end in
  (mkDisplay name barcode
             (respace no_manufacturer (brands product))
             (respace no_category (categories product)), w').

Fixpoint listing_records (env : TranslateEnv) (products : list RawProduct) (w : World)
  : list DisplayProduct * World :=
  match products with
  | [] => ([], w)
  | product :: rest =>
      let '(d, w1) := listing_record env product w in
      let '(ds, w2) := listing_records env rest w1 in
      (d :: ds, w2)
  end.

(** The decoded body of a search response: [data.get('products', [])]. *)
Record SearchData := mkSearchData { products : option (list RawProduct) }.

(** The function under the decorator of [get_api_foods_cached]. *)
Definition get_api_foods (env : TranslateEnv) (net : nat -> nat -> http_outcome SearchData)
    (page page_size : nat) (w : World) : list DisplayProduct * World :=
  let w0 := count_request w in
  match net page page_size with
  | Response data => listing_records env (default [] (products data)) w0
  | TransportFailure _ => ([], show [st_error MsgApiRequestError] w0)
  | HTTPError => ([], show [st_error MsgHttpError] w0)
  | BodyNotJson => ([], show [st_error MsgUnexpected] w0)
  end.

(** [@st.cache_data(ttl=3600)] around it: a page already fetched is
    answered from memory, with the notices of that run shown again. *)
Definition get_api_foods_cached (env : TranslateEnv)
    (net : nat -> nat -> http_outcome SearchData)
    (page page_size : nat) (w : World) : list DisplayProduct * World :=
  match foods_memo w !! (page, page_size) with
  | Some (value, shown) => (value, show shown w)
  | None =>
      let '(value, w') := get_api_foods env net page page_size w in
      let shown := skipn (length (notices w)) (notices w') in
      (value, set_foods_memo (<[(page, page_size) := (value, shown)]> (foods_memo w')) w')
  end.

(** One element of the comprehension in [manage_meals]. *)
Definition search_record (env : TranslateEnv) (product : RawProduct) (w : World)
  : DisplayProduct * World :=
  let '(name, w') :=
    match truthy (product_name_KR product) with
    | Some product_name_korean => (product_name_korean, w)
    | None =>
        translate_to_korean_cached env (default no_name (product_name product))
                                   (code product) w
    end in
  (mkDisplay name (default no_barcode (code product))
             (respace no_manufacturer (brands product))
             (respace no_category (categories product)), w').

(** [if product.get('product_name') or product.get('product_name_KR')]. *)
Definition has_name (product : RawProduct) : bool :=
  match truthy (product_name product), truthy (product_name_KR product) with
  | None, None => false
  | _, _ => true
  end.

(** The records on which the two call sites are compared: the record has a
    barcode (other than the marker text itself). *)
Definition comparable (product : RawProduct) : Prop :=
  default no_barcode (code product) <> no_barcode.

(** The records for which the two call sites translate the same text
    through different call forms: no barcode and no pre-localized name. *)
Definition codeless (product : RawProduct) : Prop :=
  code product = None /\ truthy (product_name_KR product) = None.

(** [products_filtered] of [manage_meals]. *)
Fixpoint products_filtered (env : TranslateEnv) (products : list RawProduct) (w : World)
  : list DisplayProduct * World :=
  match products with
  | [] => ([], w)
  | product :: rest =>
      if has_name product then
        let '(d, w1) := search_record env product w in
        let '(ds, w2) := products_filtered env rest w1 in
        (d :: ds, w2)
      else products_filtered env rest w
  end.

(** ** Food search with retries ([search_food]) *)

(** [backoff_factor * (2 ** attempt)]. *)
Definition backoff_delay (backoff_factor : Q) (attempt : nat) : Q :=
  (backoff_factor * inject_Z (2 ^ Z.of_nat attempt))%Q.

Inductive loop_exit :=
| Returned (found : list RawProduct)   (* [return data.get('products', [])] *)
| LeftLoop                             (* [break], or the range is used up *)
| Escaped (e : exn).                   (* raised inside a handler *)

(** [for attempt in range(max_retries): ...]; [net attempt] is the outcome
    of the request made in that turn.  [time.sleep] rejects a negative
    argument with [ValueError]; raised in a handler, it leaves the
    function. *)
Fixpoint search_attempts (net : nat -> http_outcome SearchData)
    (max_retries : nat) (backoff_factor : Q) (attempts : list nat) (w : World)
  : loop_exit * World :=
  match attempts with
  | [] => (LeftLoop, w)
  | attempt :: rest =>
      let w0 := count_request w in
      match net attempt with
      | Response data => (Returned (default [] (products data)), w0)
      | TransportFailure _ =>
          let w1 := show [st_error (MsgApiRetry (attempt + 1) max_retries)] w0 in
          let secs := backoff_delay backoff_factor attempt in
          if Qle_bool 0 secs then
            search_attempts net max_retries backoff_factor rest (sleep secs w1)
          else (Escaped ValueError, w1)
      | HTTPError => (LeftLoop, show [st_error MsgHttpError] w0)
      | BodyNotJson => (LeftLoop, show [st_error MsgUnexpected] w0)
      end
  end.

(** The first two statements of [search_food]. *)
Definition translate_query (env : TranslateEnv) (query : string) (w : World)
  : string * World :=
  let '(translated_query, w1) := translate_to_english_cached env query w in
  (translated_query,
   if String.eqb translated_query query then w1
   else show [st_info (MsgQueryTranslated translated_query)] w1).

(** The world after every attempt in [attempts] has met a transport
    failure: one request, one notice and one sleep per attempt. *)
Definition after_failed_attempts (max_retries : nat) (backoff_factor : Q)
    (attempts : list nat) (w : World) : World :=
  fold_left (fun w attempt =>
               sleep (backoff_delay backoff_factor attempt)
                     (show [st_error (MsgApiRetry (attempt + 1) max_retries)]
                           (count_request w)))
            attempts w.

Definition search_food (env : TranslateEnv) (net : nat -> http_outcome SearchData)
    (query : string) (max_retries : nat) (backoff_factor : Q) (w : World)
  : try (list RawProduct) * World :=
  let '(translated_query, w2) := translate_query env query w in
  match search_attempts net max_retries backoff_factor (seq 0 max_retries) w2 with
  | (Returned found, w3) => (ret found, w3)
  | (Escaped e, w3) => (raise e, w3)
  | (LeftLoop, w3) => (ret [], show [st_error MsgSearchFailed] w3)
  end.


Definition default_max_retries : nat := 3.
Definition default_backoff_factor : Q := 3 # 10.

(** Sample inputs. *)
Definition always_reset : nat -> http_outcome SearchData :=
  fun _ => TransportFailure ConnectionError.

Definition nameless_product : RawProduct :=
  mkRaw None None (Some "123") (Some "Acme,Foods") None.

Definition localized_without_code : RawProduct :=
  mkRaw (Some "Milk") (Some "서울우유") None None None.

Definition chicken_breast : RawProduct :=
  mkRaw (Some "Chicken Breast") None (Some "123") (Some "Acme,Foods") (Some "meat, poultry").

Definition milk_without_code : RawProduct :=
  mkRaw (Some "Milk") None None None None.

(** The listing has shown [milk_without_code] while the translation
    service was down. *)
Definition listed_while_down : World :=
  (listing_record translator_down milk_without_code initial_world).2.

(** ** Timestamps and their 'YYYY-MM-DD HH:MM:SS' form *)

Definition digit_char (d : Z) : ascii := ascii_of_nat (48 + Z.to_nat d).

Definition pad2 (n : Z) : string :=
  String (digit_char (n / 10)) (String (digit_char (n mod 10)) EmptyString).

Definition pad4 (n : Z) : string := pad2 (n / 100) ++ pad2 (n mod 100).

(** [%Y] as the C library writes it on Linux: the decimal digits of the
    year without padding, so fewer than four below the year 1000. *)
Definition year_text (y : Z) : string :=
  if (y <? 10)%Z then String (digit_char y) EmptyString
  else if (y <? 100)%Z then pad2 y
  else if (y <? 1000)%Z then String (digit_char (y / 100)) (pad2 (y mod 100))
  else pad4 y.

(** [d.strftime('%Y-%m-%d %H:%M:%S')]. *)
Definition strftime (d : datetime) : string :=
  year_text (year d) ++ "-" ++ pad2 (month d) ++ "-" ++ pad2 (day d) ++ " " ++
  pad2 (hour d) ++ ":" ++ pad2 (minute d) ++ ":" ++ pad2 (second d).

Definition is_leap (y : Z) : bool :=
  (y mod 4 =? 0)%Z && (negb (y mod 100 =? 0)%Z || (y mod 400 =? 0)%Z).

Definition days_in_month (y m : Z) : Z :=
  if (m =? 2)%Z then (if is_leap y then 29 else 28)%Z
  else if (m =? 4)%Z || (m =? 6)%Z || (m =? 9)%Z || (m =? 11)%Z then 30%Z
  else 31%Z.

(** The values a [datetime] object can hold. *)
Definition datetime_ok (d : datetime) : bool :=
  (1 <=? year d)%Z && (year d <=? 9999)%Z &&
  (1 <=? month d)%Z && (month d <=? 12)%Z &&
  (1 <=? day d)%Z && (day d <=? days_in_month (year d) (month d))%Z &&
  (0 <=? hour d)%Z && (hour d <? 24)%Z &&
  (0 <=? minute d)%Z && (minute d <? 60)%Z &&
  (0 <=? second d)%Z && (second d <? 60)%Z &&
  (0 <=? microsecond d)%Z && (microsecond d <? 1000000)%Z.

(** From the year 1000 on the text of the year has four digits. *)
Definition four_digit_year (d : datetime) : bool := (1000 <=? year d)%Z.

Definition two_digits (c1 c2 : ascii) : option Z :=
  d1 ← digit_of_ascii c1; d2 ← digit_of_ascii c2;
  Some (10 * Z.of_nat d1 + Z.of_nat d2)%Z.

(** [datetime.strptime(s, '%Y-%m-%d %H:%M:%S')] on the fixed-width text
    that [strftime] writes for a four-digit year; any other text is
    refused (Python also accepts the fields after the year without their
    leading zero; the year must have four digits). *)
Definition strptime (s : string) : option datetime :=
  match s with
  | String y1 (String y2 (String y3 (String y4 (String p1
    (String m1 (String m2 (String p2
    (String d1 (String d2 (String p3
    (String h1 (String h2 (String p4
    (String i1 (String i2 (String p5
    (String s1 (String s2 EmptyString)))))))))))))))))) =>
      if Ascii.eqb p1 "-" && Ascii.eqb p2 "-" && Ascii.eqb p3 " " &&
         Ascii.eqb p4 ":" && Ascii.eqb p5 ":" then
        yh ← two_digits y1 y2; yl ← two_digits y3 y4;
        mo ← two_digits m1 m2; dd ← two_digits d1 d2;
        hh ← two_digits h1 h2; mi ← two_digits i1 i2; ss ← two_digits s1 s2;
        let d := mkDatetime (100 * yh + yl) mo dd hh mi ss 0 in
        if datetime_ok d then Some d else None
      else None
  | _ => None
  end.

(** A timestamp whose text form has the fixed width [strptime] asks for. *)
Definition portable (d : datetime) : bool := datetime_ok d && four_digit_year d.

(** [strptime] gives back the timestamp without its microseconds. *)
Definition whole_seconds (d : datetime) : datetime :=
  mkDatetime (year d) (month d) (day d) (hour d) (minute d) (second d) 0.

(** ** Accounts ([create_user]) *)

(** What the outside answers during one call on the store. *)
Record StoreEnv := mkStoreEnv {
  store_ok : bool;                 (* the statements and the commit succeed *)
  utcnow : datetime;               (* [datetime.utcnow()] at INSERT *)
  bcrypt_hash : string -> string   (* [bcrypt.hashpw(password, bcrypt.gensalt())] *)
}.

Definition has_username (name : string) (u : User) : bool :=
  String.eqb (username u) name.

Definition insert_user (name hashed : string) (d : DB) : DB :=
  mkDB (users d ++ [mkUser (next_id (map user_id (users d))) name hashed])
       (meals d) (manual_meals d) (product_translations d).

(** [create_user] of [app.py]. *)
Definition create_user (env : StoreEnv) (name pw : string) (w : World)
  : bool * World :=
  if store_ok env then
    match List.find (has_username name) (users (db w)) with
    | Some _ => (false, w)
    | None => (true, set_db (insert_user name (bcrypt_hash env pw) (db w)) w)
    end
  else (false, show [st_error MsgUserCreateError] w).

(** [create_user] of [data/database.py]: the same steps, the error printed
    instead of displayed. *)
Module DataDatabase.
Definition create_user (env : StoreEnv) (name pw : string) (d : DB) : bool * DB :=
  if store_ok env then
    match List.find (has_username name) (users d) with
    | Some _ => (false, d)
    | None => (true, insert_user name (bcrypt_hash env pw) d)
    end
  else (false, d).
End DataDatabase.

(** ** Meal store *)

(** The dict handed to [add_diet]; [None] is an absent key (or [None]). *)
Record MealInput := mkMealInput {
  in_name : option string;
  in_calories : option Q;
  in_proteins : option Q;
  in_carbs : option Q;
  in_fats : option Q
}.

Definition owned_meal (uid : Z) (m : Meal) : bool := Z.eqb (meal_user_id m) uid.
Definition owned_manual (uid : Z) (m : ManualMeal) : bool := Z.eqb (manual_user_id m) uid.

Definition set_meals (ms : list Meal) (d : DB) : DB :=
  mkDB (users d) ms (manual_meals d) (product_translations d).
Definition set_manual_meals (ms : list ManualMeal) (d : DB) : DB :=
  mkDB (users d) (meals d) ms (product_translations d).

Definition insert_meal (uid : Z) (name : string) (cal pro car fat : Q)
    (date : datetime) (d : DB) : DB :=
  set_meals (meals d ++ [mkMeal (next_id (map meal_id (meals d))) uid name
                                cal pro car fat date]) d.

Definition insert_manual_meal (uid : Z) (name : string) (date : datetime) (d : DB) : DB :=
  set_manual_meals
    (manual_meals d ++ [mkManualMeal (next_id (map manual_id (manual_meals d)))
                                     uid name date]) d.

Definition add_diet (env : StoreEnv) (uid : Z) (meal : MealInput) (w : World)
  : bool * World :=
  match in_name meal with
  | Some name =>
      if store_ok env then
        (true, set_db (insert_meal uid name
                         (default 0%Q (in_calories meal)) (default 0%Q (in_proteins meal))
                         (default 0%Q (in_carbs meal)) (default 0%Q (in_fats meal))
                         (utcnow env) (db w)) w)
      else (false, show [st_error MsgSaveError] w)
  | None => (false, show [st_error MsgSaveError] w)
  end.

Definition add_manual_meal (env : StoreEnv) (uid : Z) (name : option string) (w : World)
  : bool * World :=
  match name with
  | Some name =>
      if store_ok env then
        (true, set_db (insert_manual_meal uid name (utcnow env) (db w)) w)
      else (false, show [st_error MsgSaveError] w)
  | None => (false, show [st_error MsgSaveError] w)
  end.

Definition get_diets (env : StoreEnv) (uid : Z) (w : World) : list Meal * World :=
  if store_ok env then (List.filter (owned_meal uid) (meals (db w)), w)
  else ([], show [st_error MsgLoadError] w).

Definition get_manual_meals (env : StoreEnv) (uid : Z) (w : World)
  : list ManualMeal * World :=
  if store_ok env then (List.filter (owned_manual uid) (manual_meals (db w)), w)
  else ([], show [st_error MsgLoadError] w).

Definition delete_meal (env : StoreEnv) (uid mid : Z) (w : World) : bool * World :=
  if store_ok env then
    match List.find (fun m => Z.eqb (meal_id m) mid && owned_meal uid m) (meals (db w)) with
    | Some meal =>
        (true, set_db (set_meals
                         (List.filter (fun m => negb (Z.eqb (meal_id m) (meal_id meal)))
                                      (meals (db w))) (db w)) w)
    | None => (false, w)
    end
  else (false, show [st_error MsgDeleteError] w).

Definition delete_manual_meal (env : StoreEnv) (uid mid : Z) (w : World) : bool * World :=
  if store_ok env then
    match List.find (fun m => Z.eqb (manual_id m) mid && owned_manual uid m)
                    (manual_meals (db w)) with
    | Some meal =>
        (true, set_db (set_manual_meals
                         (List.filter (fun m => negb (Z.eqb (manual_id m) (manual_id meal)))
                                      (manual_meals (db w))) (db w)) w)
    | None => (false, w)
    end
  else (false, show [st_error MsgDeleteError] w).

(** ** Bulk reset ([reset_database_tables]) *)

(** How a handler that may call [st.rerun()] ends: the call raises a
    control exception that no [except Exception] catches. *)
Inductive script_exit (A : Type) :=
| Rerun
| Result (a : A).

Arguments Rerun {A}.
Arguments Result {A} a.

Definition reset_database_tables (env : StoreEnv) (uid : Z) (w : World)
  : script_exit unit * World :=
  if store_ok env then
    let d := db w in
    let d' := mkDB (users d)
                   (List.filter (fun m => negb (owned_meal uid m)) (meals d))
                   (List.filter (fun m => negb (owned_manual uid m)) (manual_meals d))
                   ∅ in
    (Rerun, show [st_success MsgResetDone] (set_db d' w))
  else (Result tt, show [st_error MsgResetError] w).

(** ** Backup and restore ([backup_data], [restore_data])

    The file is the JSON document itself: [json.dumps] followed by
    [json.load] gives back the same lists, strings and numbers. *)

(** One element of ['meals']; [None] is an absent key (or [null]). *)
Record MealEntry := mkMealEntry {
  entry_id : option Z;
  entry_name : option string;
  entry_calories : option Q;
  entry_proteins : option Q;
  entry_carbs : option Q;
  entry_fats : option Q;
  entry_date : option string
}.

Record ManualEntry := mkManualEntry {
  manual_entry_id : option Z;
  manual_entry_name : option string;
  manual_entry_date : option string
}.

Record BackupDoc := mkBackupDoc {
  doc_meals : option (list MealEntry);
  doc_manual_meals : option (list ManualEntry)
}.

Inductive Upload :=
| NotJson
| JsonDoc (doc : BackupDoc).

Definition meal_entry (meal : Meal) : MealEntry :=
  mkMealEntry (Some (meal_id meal)) (Some (meal_name meal))
              (Some (calories meal)) (Some (proteins meal))
              (Some (carbs meal)) (Some (fats meal))
              (Some (strftime (meal_date meal))).

Definition manual_entry (m : ManualMeal) : ManualEntry :=
  mkManualEntry (Some (manual_id m)) (Some (manual_name m))
                (Some (strftime (manual_date m))).

(** [backup_data(user_id, format)]; [None] when nothing is returned. *)
Definition backup_data (env : StoreEnv) (uid : Z) (format : string) (w : World)
  : option BackupDoc * World :=
  if store_ok env then
    let backup :=
      mkBackupDoc
        (Some (map meal_entry (List.filter (owned_meal uid) (meals (db w)))))
        (Some (map manual_entry (List.filter (owned_manual uid) (manual_meals (db w))))) in
    if String.eqb format "json" then (Some backup, w) else (None, w)
  else (None, show [st_error MsgBackupError] w).

(** The two [for] loops of [restore_data]: every entry becomes a pending
    row; a missing name or date, or a date that does not parse, raises. *)
Fixpoint add_meal_entries (uid : Z) (entries : list MealEntry) (d : DB) : try DB :=
  match entries with
  | [] => ret d
  | meal :: rest =>
      match entry_name meal, entry_date meal with
      | Some name, Some text =>
          match strptime text with
          | Some date =>
              add_meal_entries uid rest
                (insert_meal uid name
                   (default 0%Q (entry_calories meal)) (default 0%Q (entry_proteins meal))
                   (default 0%Q (entry_carbs meal)) (default 0%Q (entry_fats meal))
                   date d)
          | None => raise ValueError
          end
      | _, _ => raise KeyError
      end
  end.

Fixpoint add_manual_entries (uid : Z) (entries : list ManualEntry) (d : DB) : try DB :=
  match entries with
  | [] => ret d
  | manual_meal :: rest =>
      match manual_entry_name manual_meal, manual_entry_date manual_meal with
      | Some name, Some text =>
          match strptime text with
          | Some date => add_manual_entries uid rest (insert_manual_meal uid name date d)
          | None => raise ValueError
          end
      | _, _ => raise KeyError
      end
  end.

Definition restore_data (env : StoreEnv) (uid : Z) (file : Upload) (format : string)
    (w : World) : script_exit bool * World :=
  if String.eqb format "json" then
    match file with
    | NotJson => (Result false, show [st_error MsgRestoreNotJson] w)
    | JsonDoc data =>
        let pending :=
          d1 <- add_meal_entries uid (default [] (doc_meals data)) (db w) ;;
          d2 <- add_manual_entries uid (default [] (doc_manual_meals data)) d1 ;;
          if store_ok env then ret d2 else raise DatabaseError in
        match pending with
        | inr d' => (Rerun, show [st_success MsgRestoreDone] (set_db d' w))
        | inl _ => (Result false, show [st_error MsgRestoreError] w)
        end
    end
  else (Result false, show [st_error MsgRestoreBadFormat] w).

(** What a backup is meant to carry of a row. *)
Definition meal_content (m : Meal) : string * Q * Q * Q * Q * string :=
  (meal_name m, calories m, proteins m, carbs m, fats m, strftime (meal_date m)).

Definition manual_content (m : ManualMeal) : string * string :=
  (manual_name m, strftime (manual_date m)).

(** ** Statistics ([show_statistics_with_chatbot]) *)

(** [x or 0] for a float [x]. *)
Definition or_zero (x : Q) : Q := if Qeq_bool x 0 then 0%Q else x.

(** [sum(xs)]. *)
Definition py_sum (xs : list Q) : Q := fold_left Qplus xs 0%Q.

(** The four totals computed at the head of [show_statistics_with_chatbot]. *)
Record Summary := mkSummary {
  current_calories : Q;
  current_proteins : Q;
  current_carbs : Q;
  current_fats : Q
}.

(** The part of [show_statistics_with_chatbot] that reads the store and
    adds up; the display and the chatbot call follow it. *)
Definition show_statistics_with_chatbot (env : StoreEnv) (uid : Z) (w : World) : Summary * World :=
  let '(meals, w') := get_diets env uid w in
  (mkSummary (py_sum (map (fun meal => or_zero (calories meal)) meals))
             (py_sum (map (fun meal => or_zero (proteins meal)) meals))
             (py_sum (map (fun meal => or_zero (carbs meal)) meals))
             (py_sum (map (fun meal => or_zero (fats meal)) meals)), w').

(** ** Sequences of operations on the store *)

Inductive operation :=
| CreateUser (env : StoreEnv) (name pw : string)
| CreateUserData (env : StoreEnv) (name pw : string)   (* [data/database.py] *)
| AddDiet (env : StoreEnv) (uid : Z) (meal : MealInput)
| AddManualMeal (env : StoreEnv) (uid : Z) (name : option string)
| DeleteMeal (env : StoreEnv) (uid mid : Z)
| DeleteManualMeal (env : StoreEnv) (uid mid : Z)
| ResetTables (env : StoreEnv) (uid : Z)
| RestoreData (env : StoreEnv) (uid : Z) (file : Upload) (format : string)
| BackupData (env : StoreEnv) (uid : Z) (format : string)
| Statistics (env : StoreEnv) (uid : Z)
| TranslateKorean (env : TranslateEnv) (text : string) (barcode : option string)
| ListFoods (env : TranslateEnv) (net : nat -> nat -> http_outcome SearchData)
            (page page_size : nat)
| SearchFood (env : TranslateEnv) (net : nat -> http_outcome SearchData)
             (query : string) (max_retries : nat) (backoff_factor : Q).

Definition perform (w : World) (op : operation) : World :=
  match op with
  | CreateUser env name pw => (create_user env name pw w).2
  | CreateUserData env name pw => set_db (DataDatabase.create_user env name pw (db w)).2 w
  | AddDiet env uid meal => (add_diet env uid meal w).2
  | AddManualMeal env uid name => (add_manual_meal env uid name w).2
  | DeleteMeal env uid mid => (delete_meal env uid mid w).2
  | DeleteManualMeal env uid mid => (delete_manual_meal env uid mid w).2
  | ResetTables env uid => (reset_database_tables env uid w).2
  | RestoreData env uid file format => (restore_data env uid file format w).2
  | BackupData env uid format => (backup_data env uid format w).2
  | Statistics env uid => (show_statistics_with_chatbot env uid w).2
  | TranslateKorean env text barcode => (translate_to_korean_cached env text barcode w).2
  | ListFoods env net page page_size =>
      (get_api_foods_cached env net page page_size w).2
  | SearchFood env net query max_retries backoff_factor =>
      (search_food env net query max_retries backoff_factor w).2
  end.

Definition run (ops : list operation) (w : World) : World := fold_left perform ops w.

(** Sample stores. *)
Definition noon : datetime := mkDatetime 2024 5 17 12 30 45 123456.
Definition store_up : StoreEnv := mkStoreEnv true noon (fun pw => "$2b$12$" ++ pw).

(** A backup file with a meal of the year 999, and the store after user 1
    has restored it. *)
Definition old_entry : MealEntry :=
  mkMealEntry None (Some "Barley") (Some 100%Q) None None None
              (Some "0999-01-02 03:04:05").

Definition old_store : World :=
  run [CreateUser store_up "mina" "pw1"; CreateUser store_up "jun" "pw2";
       RestoreData store_up 1 (JsonDoc (mkBackupDoc (Some [old_entry]) None)) "json"]
      initial_world.

Definition two_users : World :=
  run [CreateUser store_up "mina" "pw1"; CreateUser store_up "jun" "pw2";
       AddDiet store_up 1 (mkMealInput (Some "Chicken Breast") (Some 165%Q)
                                        (Some (315 # 10)) None (Some (36 # 10)));
       AddDiet store_up 2 (mkMealInput (Some "Milk") (Some 42%Q) None None None);
       AddManualMeal store_up 1 (Some "Kimchi stew");
       AddManualMeal store_up 2 (Some "Bibimbap");
       TranslateKorean translator_up "Milk" (Some "880")]
      initial_world.

(* ===================================================================== *)
(** * Part I, continued -- the rest of the program                        *)
(* ===================================================================== *)

(** What the functions below display: the level and the text, without the
    interpolated exception. *)
Inductive level := LvError | LvInfo | LvSuccess.

Definition display : Type := (level * string)%type.

(** ** Logging in ([login_user], [get_user], [verify_password]) *)

Record LoginEnv := mkLoginEnv {
  login_store_ok : bool;                            (* the SELECT succeeds *)
  bcrypt_checkpw : string -> string -> option bool  (* password, stored hash;
                                                       [None]: raises (invalid salt) *)
}.

Definition login_success : string := "로그인 성공".
Definition login_invalid : string := "사용자 이름 또는 비밀번호가 올바르지 않습니다.".
Definition login_failed : string := "로그인 중 오류가 발생했습니다.".

(** [login_user] of [app.py]: success, message, user id. *)
Definition login_user (env : LoginEnv) (name pw : string) (d : DB)
  : (bool * string * option Z) * list display :=
  if login_store_ok env then
    match List.find (has_username name) (users d) with
    | Some user =>
        match bcrypt_checkpw env pw (password user) with
        | Some true => ((true, login_success, Some (user_id user)), [])
        | Some false => ((false, login_invalid, None), [])
        | None => ((false, login_failed, None), [(LvError, "로그인 중 오류 발생")])
        end
    | None => ((false, login_invalid, None), [])
    end
  else ((false, login_failed, None), [(LvError, "로그인 중 오류 발생")]).

Definition has_user_id (uid : Z) (u : User) : bool := Z.eqb (user_id u) uid.

Definition get_user (ok : bool) (uid : Z) (d : DB) : option User * list display :=
  if ok then (List.find (has_user_id uid) (users d), [])
  else (None, [(LvError, "사용자를 가져오는 중 오류 발생")]).

Definition verify_password (env : LoginEnv) (stored_password provided_password : string)
  : option bool :=
  bcrypt_checkpw env provided_password stored_password.

(** [login_user] of [data/database.py] and its caller in [auth/login.py]. *)
Module DataLogin.

Definition no_such_user : string := "사용자가 존재하지 않습니다.".
Definition wrong_password : string := "비밀번호가 올바르지 않습니다.".
Definition logged_in_text : string := "로그인 성공!".

Definition login_user (env : LoginEnv) (name pw : string) (d : DB)
  : bool * string * option Z :=
  if login_store_ok env then
    match List.find (has_username name) (users d) with
    | None => (false, no_such_user, None)
    | Some user =>
        match bcrypt_checkpw env pw (password user) with
        | Some true => (true, logged_in_text, Some (user_id user))
        | Some false => (false, wrong_password, None)
        | None => (false, login_failed, None)
        end
    end
  else (false, login_failed, None).

(** [auth/login.py]. *)
Definition login (env : LoginEnv) (name pw : string) (d : DB) : bool * string * option Z :=
  let '(success, message, uid) := login_user env name pw d in
  (success, message, uid).

End DataLogin.

(** ** Session state ([st.session_state]) and the pages *)

Record chat_message := mkChatMessage { role : string; content : string }.

(** An element of a stored list: a search result or a chat message. *)
Inductive list_item :=
| Product (found : DisplayProduct)
| ChatMessage (msg : chat_message).

Inductive session_value :=
| SBool (b : bool)
| SStr (s : string)
| SInt (z : Z)
| SNone
| SNutrition (info : NutritionInfo)
| SList (items : list list_item).

(** A list of chat messages as a stored value. *)
Definition SMessages (messages : list chat_message) : session_value :=
  SList (map ChatMessage messages).

(** Truth value of a stored value in an [if]. *)
Definition py_truthy (v : session_value) : bool :=
  match v with
  | SBool b => b
  | SStr s => negb (String.eqb s "")
  | SInt z => negb (Z.eqb z 0)
  | SNone => false
  | SNutrition _ => true
  | SList items => match items with [] => false | _ => true end
  end.

(** [v == text] for a stored value and a string literal. *)
Definition is_text (v : option session_value) (text : string) : bool :=
  match v with
  | Some (SStr s) => String.eqb s text
  | _ => false
  end.

(** [if key not in st.session_state: st.session_state[key] = v]. *)
Definition set_if_absent (key : string) (v : session_value)
    (s : gmap string session_value) : gmap string session_value :=
  match s !! key with
  | Some _ => s
  | None => <[key := v]> s
  end.

Definition app_defaults : list (string * session_value) :=
  [("logged_in", SBool false); ("page", SStr "start"); ("username", SStr "");
   ("user_id", SNone); ("selected_nutrition_manage", SNone);
   ("selected_nutrition_input", SNone); ("search_results_manage", SList []);
   ("api_foods_page", SInt 1); ("api_foods_page_size", SInt 10);
   ("chatbot_messages", SList [])].

(** [initialize_app]: the ten [if ... not in ...] statements, in order. *)
Definition initialize_app (s : gmap string session_value) : gmap string session_value :=
  fold_left (fun s kv => set_if_absent kv.1 kv.2 s) app_defaults s.

Definition kept_keys : list string := ["logged_in"; "username"; "user_id"; "page"].

(** [reset_session_state]: collect the keys to remove, then delete them. *)
Definition reset_session_state (s : gmap string session_value)
  : gmap string session_value :=
  let keys_to_remove :=
    List.filter (fun key => negb (bool_decide (key ∈ kept_keys)))
                (map fst (map_to_list s)) in
  fold_left (fun s key => delete key s) keys_to_remove s.

(** How a handler ends: it returns, or [st.rerun()] or [st.stop()] ends the
    run. *)
Inductive handler_exit := Continues | Reruns | Stops.

Definition logout (s : gmap string session_value)
  : handler_exit * gmap string session_value * list display :=
  (Reruns,
   <["chatbot_messages" := SList []]>
     (<["page" := SStr "start"]>
        (<["user_id" := SNone]>
           (<["username" := SStr ""]>
              (<["logged_in" := SBool false]> s)))),
   [(LvSuccess, "로그아웃 되었습니다.")]).

Definition handle_login (env : LoginEnv) (name pw : string) (d : DB)
    (s : gmap string session_value)
  : handler_exit * gmap string session_value * list display :=
  let '((success, message, uid), shown) := login_user env name pw d in
  if success then
    (Stops,
     <["page" := SStr "main"]>
       (<["user_id" := match uid with Some id => SInt id | None => SNone end]>
          (<["username" := SStr name]>
             (<["logged_in" := SBool true]> s))),
     (shown ++ [(LvSuccess, message)])%list)
  else (Continues, s, (shown ++ [(LvError, message)])%list).

Definition signup_done : string := "회원가입이 완료되었습니다. 로그인 해주세요.".
Definition username_taken : string := "이미 존재하는 사용자 이름입니다.".

Definition handle_signup (env : StoreEnv) (name pw : string) (w : World)
    (s : gmap string session_value)
  : handler_exit * World * gmap string session_value * list display :=
  let '(success, w') := create_user env name pw w in
  if success then (Reruns, w', <["page" := SStr "login"]> s, [(LvSuccess, signup_done)])
  else (Continues, w', s, [(LvError, username_taken)]).

Inductive screen := LoginForm | SignupPage | StartPage | MainApp | NoScreen.

(** [main]: which page a run of the script draws. *)
Definition main (s : gmap string session_value) : screen * gmap string session_value :=
  let s := initialize_app s in
  if negb (py_truthy (default (SBool false) (s !! "logged_in"))) then
    if is_text (Some (default (SStr "start") (s !! "page"))) "login" then (LoginForm, s)
    else if is_text (s !! "page") "signup" then (SignupPage, s)
    else if is_text (s !! "page") "start" then (StartPage, s)
    else (NoScreen, s)
  else (MainApp, s).

(** ** Chatbot *)

Record Chatbot := mkChatbot {
  counseling_data : list string;
  current_session : list chat_message;
  initial_question : string;
  model : string
}.

(** [Chatbot(counseling_data)]. *)
Definition new_chatbot (data : list string) : Chatbot :=
  mkChatbot data [mkChatMessage "system" "You are a helpful counseling assistant."]
            "Hello! I am a Chatbot." "gpt-3.5-turbo".

(** The outcome of [openai.ChatCompletion.create]. *)
Inductive completion :=
| Completed (text : string)
| RateLimitError
| OpenAIError (e : string)
| Uncaught (e : exn).

Definition rate_limited : string :=
  "현재 서비스 이용량이 초과되었습니다. 잠시 후 다시 시도해주세요.".

Definition get_openai_response (provider : string -> list chat_message -> completion)
    (self : Chatbot) (conversation : list chat_message) : try string :=
  match provider (model self) conversation with
  | Completed text => ret text
  | RateLimitError => ret rate_limited
  | OpenAIError e => ret ("오류가 발생했습니다: " ++ e)
  | Uncaught e => raise e
  end.

Definition set_session (messages : list chat_message) (self : Chatbot) : Chatbot :=
  mkChatbot (counseling_data self) messages (initial_question self) (model self).

(** [chat(user_input)]; the transcript is updated in place, so what was
    appended stays when the provider call raises. *)
Definition chat (provider : string -> list chat_message -> completion)
    (user_input : option string) (self : Chatbot) : try string * Chatbot :=
  let self1 :=
    match truthy user_input with
    | Some text =>
        set_session (current_session self ++ [mkChatMessage "user" text]) self
    | None => self
    end in
  match get_openai_response provider self1 (current_session self1) with
  | inr response =>
      (ret response,
       set_session (current_session self1 ++ [mkChatMessage "assistant" response]) self1)
  | inl e => (raise e, self1)
  end.

Definition feedback_question : string := "오늘 섭취량에 대해 어떻게 생각하나요?".

Definition provide_feedback (provider : string -> list chat_message -> completion)
    (statistics_summary : string) (self : Chatbot) : try string * Chatbot :=
  let self1 :=
    set_session
      (current_session self ++
       [mkChatMessage "system" ("Here is today's nutrition summary: " ++ statistics_summary);
        mkChatMessage "user" feedback_question]) self in
  match get_openai_response provider self1 (current_session self1) with
  | inr response =>
      (ret response,
       set_session (current_session self1 ++ [mkChatMessage "assistant" response]) self1)
  | inl e => (raise e, self1)
  end.

Definition greeting : chat_message :=
  mkChatMessage "assistant" "안녕하세요! 저는 영양 상담 챗봇입니다. 무엇을 도와드릴까요?".

(** The loop [for msg in ...: st.chat_message(msg["role"]).write(msg["content"])]
    over a stored list: the messages written, or the [KeyError] at the
    first element without a ['role']. *)
Fixpoint shown_messages (items : list list_item) : try (list chat_message) :=
  match items with
  | [] => ret []
  | ChatMessage msg :: rest => written <- shown_messages rest ;; ret (msg :: written)
  | Product _ :: _ => raise KeyError
  end.

(** [chatbot_tab(chatbot)]; [user_input] is what [st.chat_input] returns.
    A value under ['chatbot_messages'] that is not a list cannot be
    iterated (or, for a dict or a string, yields strings that cannot be
    indexed by ['role']); the empty string passes the loop and fails at
    [append]. *)
Definition chatbot_tab (provider : string -> list chat_message -> completion)
    (user_input : option string) (s : gmap string session_value) (chatbot : Chatbot)
  : try unit * gmap string session_value * Chatbot :=
  let s1 := set_if_absent "chatbot_messages" (SList [ChatMessage greeting]) s in
  match s1 !! "chatbot_messages" with
  | Some (SList items) =>
      match shown_messages items with
      | inl e => (raise e, s1, chatbot)
      | inr _ =>
          match truthy user_input with
          | None => (ret tt, s1, chatbot)
          | Some text =>
              let items1 := (items ++ [ChatMessage (mkChatMessage "user" text)])%list in
              let s2 := <["chatbot_messages" := SList items1]> s1 in
              match chat provider (Some text) chatbot with
              | (inr response, chatbot') =>
                  (ret tt,
                   <["chatbot_messages" :=
                       SList (items1 ++ [ChatMessage (mkChatMessage "assistant" response)])%list]>
                     s2,
                   chatbot')
              | (inl e, chatbot') => (raise e, s2, chatbot')
              end
          end
      end
  | Some (SStr EmptyString) =>
      match truthy user_input with
      | None => (ret tt, s1, chatbot)
      | Some _ => (raise AttributeError, s1, chatbot)
      end
  | Some _ => (raise TypeError, s1, chatbot)
  | None => (raise AttributeError, s1, chatbot)
  end.

(** One run of the script for a logged-in user with the menu on the
    chatbot page and no sidebar button pressed: [main] sets the defaults
    and builds the [Chatbot], [main_app] sets ['confirm_reset'], then
    [chatbot_tab] runs. *)
Definition chatbot_page_run (provider : string -> list chat_message -> completion)
    (user_input : option string) (s : gmap string session_value)
  : try unit * gmap string session_value * Chatbot :=
  let s1 := set_if_absent "confirm_reset" (SBool false) (initialize_app s) in
  chatbot_tab provider user_input s1 (new_chatbot []).

(** ** Statements about the store *)

(** Primary keys are distinct in each table. *)
Definition keys_unique (d : DB) : Prop :=
  List.NoDup (map user_id (users d)) /\
  List.NoDup (map meal_id (meals d)) /\
  List.NoDup (map manual_id (manual_meals d)).

(** The calls that touch only the translation table. *)
Definition same_rows (d d' : DB) : Prop :=
  users d' = users d /\ meals d' = meals d /\ manual_meals d' = manual_meals d.

(** The row [add_diet] inserts. *)
Definition stored_meal (env : StoreEnv) (uid : Z) (name : string) (meal : MealInput)
    (w : World) : Meal :=
  mkMeal (next_id (map meal_id (meals (db w)))) uid name
         (default 0%Q (in_calories meal)) (default 0%Q (in_proteins meal))
         (default 0%Q (in_carbs meal)) (default 0%Q (in_fats meal)) (utcnow env).

(** The one operation that clears the translation table. *)
Definition is_reset (op : operation) : bool :=
  match op with
  | ResetTables _ _ => true
  | _ => false
  end.

(** Sample values. *)
Definition bcrypt_like : LoginEnv :=
  mkLoginEnv true (fun pw stored => Some (String.eqb stored ("$2b$12$" ++ pw))).

Definition echo_provider : string -> list chat_message -> completion :=
  fun _ conversation => Completed (content (List.last conversation greeting)).

Definition tofu : MealInput := mkMealInput (Some "Tofu") (Some 76%Q) (Some 8%Q) None None.

Definition answers_third_time : nat -> http_outcome SearchData :=
  fun attempt => if Nat.ltb attempt 2 then TransportFailure Timeout
                 else Response (mkSearchData (Some [chicken_breast])).

Definition refuses_second_time : nat -> http_outcome SearchData :=
  fun attempt => if Nat.ltb attempt 1 then TransportFailure Timeout else HTTPError.

Definition seoul_milk : RawProduct :=
  mkRaw (Some "Milk") (Some "서울우유") (Some "880") (Some "Seoul Milk") (Some "dairy,milk").

Definition one_page (listed : list RawProduct) : nat -> nat -> http_outcome SearchData :=
  fun _ _ => Response (mkSearchData (Some listed)).

Definition listing_refused : nat -> nat -> http_outcome SearchData :=
  fun _ _ => HTTPError.

(* ===================================================================== *)
(** * Part II -- properties                                               *)
(* ===================================================================== *)

(** ** The embedding on concrete inputs *)

Example split_comma_pieces :
  split_comma "Acme,Foods,,Co" = ["Acme"; "Foods"; ""; "Co"] /\
  split_comma "" = [""] /\
  respace no_manufacturer (Some "Acme,Foods") = "Acme, Foods" /\
  respace no_manufacturer None = "제조사 없음".
Proof. repeat split; reflexivity. Qed.

Example strftime_noon :
  strftime noon = "2024-05-17 12:30:45" /\
  strptime "2024-05-17 12:30:45" = Some (whole_seconds noon) /\
  strptime "2024-02-30 12:30:45" = None /\
  strptime "yesterday" = None.
Proof. repeat split; vm_compute; reflexivity. Qed.

Example decimal_literals :
  decimal_of_string "31.5" = Some (315 # 10) /\
  decimal_of_string "-7" = Some (- (7))%Q /\
  decimal_of_string "abc" = None /\
  decimal_of_string "" = None.
Proof. repeat split; vm_compute; reflexivity. Qed.

Example http_error_is_not_retried :
  let r := search_food translator_up (fun _ => HTTPError) "닭가슴살" 3 (3 # 10)
                       initial_world in
  r.1 = ret [] /\ requests_sent r.2 = 1 /\ slept r.2 = [] /\
  notices r.2 = [st_info (MsgQueryTranslated "chicken breast"); st_error MsgHttpError;
                 st_error MsgSearchFailed].
Proof. repeat split; vm_compute; reflexivity. Qed.

Example second_attempt_succeeds :
  let net := fun attempt =>
               match attempt with
               | 0 => TransportFailure Timeout
               | _ => Response (mkSearchData (Some [chicken_breast]))
               end in
  let r := search_food translator_down net "chicken" 3 (3 # 10) initial_world in
  r.1 = ret [chicken_breast] /\ requests_sent r.2 = 2 /\ length (slept r.2) = 1.
Proof. repeat split; vm_compute; reflexivity. Qed.

Example two_users_store :
  map username (users (db two_users)) = ["mina"; "jun"] /\
  map meal_name (meals (db two_users)) = ["Chicken Breast"; "Milk"] /\
  map manual_name (manual_meals (db two_users)) = ["Kimchi stew"; "Bibimbap"] /\
  product_translations (db two_users) !! "880" = Some "우유".
Proof. repeat split; vm_compute; reflexivity. Qed.

(** ** Nutrition lookup *)

Section NutritionFacts.

Variable float_of_str : string -> option Q.
Variable net : string -> http_outcome json.

Lemma nutriment_of_object nfields k :
  nutriment float_of_str (JObj nfields) k = nutriment_or_zero float_of_str nfields k.
Proof.
  unfold nutriment, nutriment_or_zero; simpl.
  destruct (assoc k nfields); reflexivity.
Qed.

Lemma nutrition_of_found_response fields pfields nfields :
  status_found (JObj fields) = true ->
  default (JObj []) (assoc "product" fields) = JObj pfields ->
  default (JObj []) (assoc "nutriments" pfields) = JObj nfields ->
  nutrition_of_response float_of_str (JObj fields) =
    (calories <- nutriment_or_zero float_of_str nfields "energy-kcal_100g" ;;
     proteins <- nutriment_or_zero float_of_str nfields "proteins_100g" ;;
     carbs <- nutriment_or_zero float_of_str nfields "carbohydrates_100g" ;;
     fats <- nutriment_or_zero float_of_str nfields "fat_100g" ;;
     ret (Some (mkNutrition (default (JStr "이름 없음") (assoc "product_name" pfields))
                            calories proteins carbs fats))).
Proof.
  intros Hstatus Hproduct Hnutriments.
  unfold nutrition_of_response, status_found in *; simpl.
  rewrite Hstatus, Hproduct; simpl.
  rewrite Hnutriments; simpl.
  rewrite !nutriment_of_object. reflexivity.
Qed.

(** C3 (as amended).  When the response for the barcode reports the
    product as found, and its [product] entry and the [nutriments] entry
    of that are objects (an absent one counts as the empty object), each
    of calories, proteins, carbs and fats is the [float] of its per-100g
    field, and 0.0 when the field is absent; but a field that is present
    and that [float] rejects -- a text that is no number, [null], a list,
    an object, an integer beyond the range of a double -- makes the whole
    lookup come back empty, with an error notice. *)
Theorem nutrition_fields_when_found barcode fields pfields nfields :
  net (product_url barcode) = Response (JObj fields) ->
  status_found (JObj fields) = true ->
  default (JObj []) (assoc "product" fields) = JObj pfields ->
  default (JObj []) (assoc "nutriments" pfields) = JObj nfields ->
  (forall cal pro car fat,
      nutriment_or_zero float_of_str nfields "energy-kcal_100g" = ret cal ->
      nutriment_or_zero float_of_str nfields "proteins_100g" = ret pro ->
      nutriment_or_zero float_of_str nfields "carbohydrates_100g" = ret car ->
      nutriment_or_zero float_of_str nfields "fat_100g" = ret fat ->
      get_nutrition_info float_of_str net barcode =
        (Some (mkNutrition (default (JStr "이름 없음") (assoc "product_name" pfields))
                           cal pro car fat), []))
  /\ ((exists k e, In k nutriment_keys /\
                   nutriment_or_zero float_of_str nfields k = raise e) ->
      get_nutrition_info float_of_str net barcode = (None, [st_error MsgUnexpected])).
Proof.
  intros Hnet Hstatus Hproduct Hnutriments.
  pose proof (nutrition_of_found_response _ _ _ Hstatus Hproduct Hnutriments) as Hbody.
  unfold get_nutrition_info; rewrite Hnet, Hbody; clear Hbody.
  split.
  - intros cal pro car fat -> -> -> ->. reflexivity.
  - intros (k & e & Hin & Hk).
    destruct (nutriment_or_zero float_of_str nfields "energy-kcal_100g") eqn:E1;
      [reflexivity|].
    destruct (nutriment_or_zero float_of_str nfields "proteins_100g") eqn:E2;
      [reflexivity|].
    destruct (nutriment_or_zero float_of_str nfields "carbohydrates_100g") eqn:E3;
      [reflexivity|].
    destruct (nutriment_or_zero float_of_str nfields "fat_100g") eqn:E4;
      [reflexivity|].
    exfalso. unfold raise in Hk.
    simpl in Hin; destruct Hin as [<-|[<-|[<-|[<-|[]]]]]; congruence.
Qed.

(** C6.  When the lookup is unavailable -- the request fails, the answer
    is an HTTP error or is not JSON, the response does not carry
    [status == 1], or the extraction raises -- the result is the empty
    one, never a record; and every failure shows a notice. *)
Theorem nutrition_empty_when_unavailable barcode :
  lookup_unavailable float_of_str (net (product_url barcode)) ->
  (get_nutrition_info float_of_str net barcode).1 = None /\
  ((forall data, net (product_url barcode) = Response data ->
                 exists e, nutrition_of_response float_of_str data = raise e) ->
   (get_nutrition_info float_of_str net barcode).2 <> []).
Proof.
  unfold lookup_unavailable, get_nutrition_info.
  destruct (net (product_url barcode)) as [e| | |data]; simpl; intros H.
  - split; [reflexivity|discriminate].
  - split; [reflexivity|discriminate].
  - split; [reflexivity|discriminate].
  - split.
    + destruct H as [H|[e H]].
      * unfold nutrition_of_response, status_found in *.
        destruct data; simpl in *; try reflexivity.
        rewrite H. reflexivity.
      * rewrite H. reflexivity.
    + intros Hraise. destruct (Hraise data eq_refl) as [e He].
      rewrite He. discriminate.
Qed.

End NutritionFacts.

(** The claim C3 as written fails: a response that reports the product as
    found, with a non-numeric energy field, gives the empty result instead
    of a record with 0.0 for that field. *)
Lemma non_numeric_field_fails_lookup :
  status_found response_non_numeric = true /\
  assoc "energy-kcal_100g"
        [("energy-kcal_100g", JStr "abc"); ("proteins_100g", JInt 31)] = Some (JStr "abc") /\
  decimal_of_string "abc" = None /\
  get_nutrition_info decimal_of_string (net_const (Response response_non_numeric)) "123"
    = (None, [st_error MsgUnexpected]).
Proof. repeat split; reflexivity. Qed.

(** An integer field beyond the range of a double is rejected by [float]
    like a non-numeric one, and so is a [product] entry that is [null]. *)
Example huge_integer_fails_lookup :
  status_found response_huge_integer = true /\
  py_float decimal_of_string (JInt (10 ^ 400)) = raise OverflowError /\
  py_float decimal_of_string (JInt (float_overflow_bound - 1)) =
    ret (inject_Z (float_overflow_bound - 1)) /\
  get_nutrition_info decimal_of_string (net_const (Response response_huge_integer)) "123"
    = (None, [st_error MsgUnexpected]) /\
  get_nutrition_info decimal_of_string
    (net_const (Response (JObj [("status", JInt 1); ("product", JNull)]))) "123"
    = (None, [st_error MsgUnexpected]).
Proof. repeat split; vm_compute; reflexivity. Qed.

Lemma nutrition_fields_when_found_witness :
  net_const (Response response_plain) (product_url "123") = Response (JObj plain_fields) /\
  status_found (JObj plain_fields) = true /\
  get_nutrition_info decimal_of_string (net_const (Response response_plain)) "123"
  = (Some (mkNutrition (JStr "Chicken Breast") 165 (315 # 10) 0 (36 # 10)), []).
Proof.
  split; [reflexivity|]. split; [reflexivity|].
  exact (proj1 (nutrition_fields_when_found decimal_of_string
                  (net_const (Response response_plain)) "123"
                  plain_fields plain_product plain_nutriments
                  eq_refl eq_refl eq_refl eq_refl)
               165%Q (315 # 10)%Q 0%Q (36 # 10)%Q eq_refl eq_refl eq_refl eq_refl).
Defined.

Lemma nutrition_empty_when_unavailable_witness :
  lookup_unavailable decimal_of_string
    (net_const (Response response_not_found) (product_url "999")) /\
  (get_nutrition_info decimal_of_string (net_const (Response response_not_found)) "999").1
  = None.
Proof.
  assert (H : lookup_unavailable decimal_of_string
                (net_const (Response response_not_found) (product_url "999")))
    by (left; reflexivity).
  split; [exact H|].
  exact (proj1 (nutrition_empty_when_unavailable decimal_of_string
                  (net_const (Response response_not_found)) "999" H)).
Defined.

(** ** Translation cache *)

Lemma truthy_nonempty (b : string) : b <> "" -> truthy (Some b) = Some b.
Proof. destruct b; [congruence|reflexivity]. Qed.

Lemma translate_try_row_hit env text b w name :
  b <> "" -> query_ok env = true ->
  product_translations (db w) !! b = Some name ->
  translate_to_korean_try env text (Some b) w = (ret name, w).
Proof.
  intros Hb Hq Hrow. unfold translate_to_korean_try.
  rewrite (truthy_nonempty b Hb), Hq; simpl. rewrite Hrow. reflexivity.
Qed.

Lemma translate_try_lookup_fails env text b w :
  b <> "" -> query_ok env = false ->
  translate_to_korean_try env text (Some b) w = (raise DatabaseError, w).
Proof.
  intros Hb Hq. unfold translate_to_korean_try.
  rewrite (truthy_nonempty b Hb), Hq. reflexivity.
Qed.

(** With a row for the barcode the function never reaches the service and
    never writes. *)
Lemma translate_with_row env text b w name :
  b <> "" -> product_translations (db w) !! b = Some name ->
  let r := translate_to_korean env text (Some b) w in
  db r.1.2 = db w /\ live_calls r.1.2 = live_calls w /\ ko_memo r.1.2 = ko_memo w /\
  (query_ok env = true -> r.1.1 = name).
Proof.
  intros Hb Hrow. unfold translate_to_korean.
  destruct (query_ok env) eqn:Hq.
  - rewrite (translate_try_row_hit env text b w name Hb Hq Hrow). simpl. auto.
  - rewrite (translate_try_lookup_fails env text b w Hb Hq). simpl.
    repeat split; try reflexivity. discriminate.
Qed.

Lemma cached_call_is_memoised env text barcode w :
  exists shown,
    ko_memo (translate_to_korean_cached env text barcode w).2 !! (text, barcode)
    = Some ((translate_to_korean_cached env text barcode w).1, shown).
Proof.
  unfold translate_to_korean_cached.
  destruct (ko_memo w !! (text, barcode)) as [[value shown]|] eqn:Hmemo.
  - exists shown. simpl. exact Hmemo.
  - destruct (translate_to_korean env text barcode w) as [[value w'] shown].
    exists shown. simpl. apply lookup_insert_eq.
Qed.

(** The first call for a barcode that finds no row, obtains a translation
    and commits it creates the row with the value it returns. *)
Lemma first_persist_creates_row env text b w translation :
  b <> "" -> ko_memo w !! (text, Some b) = None ->
  query_ok env = true -> product_translations (db w) !! b = None ->
  translator_reply env text = Some translation -> commit_ok env = true ->
  let r := translate_to_korean_cached env text (Some b) w in
  r.1 = translation /\ product_translations (db r.2) !! b = Some translation /\
  live_calls r.2 = S (live_calls w).
Proof.
  intros Hb Hmemo Hq Hrow Hreply Hcommit.
  unfold translate_to_korean_cached, translate_to_korean, translate_to_korean_try.
  rewrite Hmemo, (truthy_nonempty b Hb), Hq; simpl.
  rewrite Hrow, Hreply, Hcommit; simpl.
  repeat split. apply lookup_insert_eq.
Qed.

(** Dropping entries of the in-memory cache does not touch the store. *)
Lemma expiry_keeps_store keep w : db (expire_ko keep w) = db w.
Proof. reflexivity. Qed.

Lemma expired_entry_is_gone keep w key :
  keep key = false -> ko_memo (expire_ko keep w) !! key = None.
Proof.
  intros Hkeep. unfold expire_ko; simpl.
  apply map_lookup_filter_None. right. intros value _. simpl. congruence.
Qed.

(** C4 (as amended).  When a cache row exists for barcode [b], a call
    [translate(text, b)] never reaches the translation service and leaves
    the store as it is.  If the in-memory result cache has no entry for
    [(text, b)] and the row can be read, the call returns the row's stored
    name; if it has one, the call returns the memoised value.  Either way
    an immediate second call returns the same value, again without a
    service call. *)
Theorem cached_row_is_served env text b w name :
  b <> "" ->
  product_translations (db w) !! b = Some name ->
  let r := translate_to_korean_cached env text (Some b) w in
  live_calls r.2 = live_calls w /\
  db r.2 = db w /\
  (ko_memo w !! (text, Some b) = None -> query_ok env = true -> r.1 = name) /\
  (forall value shown, ko_memo w !! (text, Some b) = Some (value, shown) -> r.1 = value) /\
  (forall env',
     let r' := translate_to_korean_cached env' text (Some b) r.2 in
     r'.1 = r.1 /\ live_calls r'.2 = live_calls r.2 /\ db r'.2 = db r.2).
Proof.
  intros Hb Hrow r.
  assert (Hfirst : live_calls r.2 = live_calls w /\ db r.2 = db w /\
            (ko_memo w !! (text, Some b) = None -> query_ok env = true -> r.1 = name) /\
            (forall value shown,
                ko_memo w !! (text, Some b) = Some (value, shown) -> r.1 = value)).
  { subst r. unfold translate_to_korean_cached.
    destruct (ko_memo w !! (text, Some b)) as [[value shown]|] eqn:Hmemo.
    - simpl. repeat split; try discriminate. intros v s [= -> _]. reflexivity.
    - pose proof (translate_with_row env text b w name Hb Hrow) as H.
      destruct (translate_to_korean env text (Some b) w) as [[value w'] shown].
      simpl in *. destruct H as (Hdb & Hlive & _ & Hvalue).
      repeat split; auto. discriminate. }
  destruct Hfirst as (Hlive & Hdb & Hmiss & Hhit).
  repeat split; auto.
  all: destruct (cached_call_is_memoised env text (Some b) w) as [shown Hmemo];
    fold r in Hmemo; unfold translate_to_korean_cached at 1; rewrite Hmemo; reflexivity.
Qed.

(** The claim C4 as written fails: a row exists for barcode 123, yet the
    call returns the text memoised while the service was down. *)
Lemma memoised_failure_outlives_row :
  product_translations (db stale_world) !! "123" = Some "닭가슴살 필레" /\
  (translate_to_korean_cached translator_up "Chicken Breast" (Some "123") stale_world).1
  = "Chicken Breast".
Proof. split; vm_compute; reflexivity. Qed.

Lemma cached_row_is_served_witness :
  "123" <> "" /\
  product_translations (db stale_world) !! "123" = Some "닭가슴살 필레" /\
  (translate_to_korean_cached translator_up "Milk" (Some "123") stale_world).1
  = "닭가슴살 필레".
Proof.
  assert (Hb : "123" <> "") by discriminate.
  assert (Hrow : product_translations (db stale_world) !! "123" = Some "닭가슴살 필레")
    by (vm_compute; reflexivity).
  split; [exact Hb|]. split; [exact Hrow|].
  refine (proj1 (proj2 (proj2 (cached_row_is_served translator_up "Milk" "123"
                                 stale_world "닭가슴살 필레" Hb Hrow))) _ _).
  - vm_compute; reflexivity.
  - reflexivity.
Defined.

Lemma translate_failure_returns_text env text barcode w :
  translation_failure env text barcode w ->
  exists w', translate_to_korean_try env text barcode w = (inl DatabaseError, w') /\ db w' = db w
          \/ translate_to_korean_try env text barcode w = (inl TranslatorError, w') /\ db w' = db w.
Proof.
  intros [b Hb Hq | Hreach Hreply | b translation Hb Hq Hrow Hreply Hcommit];
    unfold translate_to_korean_try.
  - rewrite Hb, Hq. exists w. left. split; reflexivity.
  - destruct (truthy barcode) as [b|] eqn:Hb.
    + destruct (Hreach b eq_refl) as [Hq Hrow]. rewrite Hq; simpl. rewrite Hrow, Hreply.
      exists (count_live_call w). right. split; reflexivity.
    + simpl. rewrite Hreply. exists (count_live_call w). right. split; reflexivity.
  - rewrite Hb, Hq; simpl. rewrite Hrow, Hreply, Hcommit.
    exists (count_live_call w). left. split; reflexivity.
Qed.

(** C5.  Whatever fails while translating into Korean -- reading the cache
    row, the translation service, or committing the new row -- the call
    returns the original text, shows an error and leaves the store
    untouched; the decorated function does so whenever it runs the body.
    The query-direction function returns its input when the service fails. *)
Theorem translation_fails_open env text barcode w :
  (translation_failure env text barcode w ->
     let r := translate_to_korean env text barcode w in
     r.1.1 = text /\ r.2 = [st_error MsgTranslateFailed] /\ db r.1.2 = db w /\
     (ko_memo w !! (text, barcode) = None ->
      let c := translate_to_korean_cached env text barcode w in
      c.1 = text /\ db c.2 = db w /\ In (st_error MsgTranslateFailed) (notices c.2)))
  /\
  (translator_reply env text = None ->
     let r := translate_to_english env text w in
     r.1.1 = text /\ r.2 = [st_error MsgTranslateEnFailed] /\
     (en_memo w !! text = None ->
      let c := translate_to_english_cached env text w in
      c.1 = text /\ In (st_error MsgTranslateEnFailed) (notices c.2))).
Proof.
  split.
  - intros Hfail.
    destruct (translate_failure_returns_text env text barcode w Hfail)
      as [w' [[Htry Hdb]|[Htry Hdb]]].
    all: unfold translate_to_korean_cached, translate_to_korean; rewrite Htry; simpl.
    all: repeat split; auto.
    all: match goal with H : ko_memo _ !! _ = None |- _ => rewrite H end; simpl; auto.
    all: apply in_or_app; right; left; reflexivity.
  - intros Hreply.
    unfold translate_to_english_cached, translate_to_english; rewrite Hreply; simpl.
    repeat split; auto.
    all: match goal with H : en_memo _ !! _ = None |- _ => rewrite H end; simpl; auto.
    apply in_or_app; right; left; reflexivity.
Qed.

Lemma translation_fails_open_witness :
  translation_failure commit_refused "Chicken Breast" (Some "123") initial_world /\
  (translate_to_korean commit_refused "Chicken Breast" (Some "123") initial_world).1.1
  = "Chicken Breast" /\
  translator_reply translator_down "닭가슴살" = None /\
  (translate_to_english translator_down "닭가슴살" initial_world).1.1 = "닭가슴살".
Proof.
  assert (Hfail : translation_failure commit_refused "Chicken Breast" (Some "123")
                                      initial_world).
  { apply (persist_fails _ _ _ _ "123" "닭가슴살"); reflexivity. }
  split; [exact Hfail|].
  split.
  - exact (proj1 (proj1 (translation_fails_open commit_refused "Chicken Breast"
                           (Some "123") initial_world) Hfail)).
  - split; [reflexivity|].
    exact (proj1 (proj2 (translation_fails_open translator_down "닭가슴살" None
                           initial_world) eq_refl)).
Defined.

(** ** Result projector *)

Lemma truthy_some o s : truthy o = Some s -> o = Some s.
Proof. destruct o as [[|c rest]|]; simpl; congruence. Qed.

Lemma has_name_without_localized product :
  has_name product = true -> truthy (product_name_KR product) = None ->
  exists name, truthy (product_name product) = Some name /\
               product_name product = Some name.
Proof.
  unfold has_name. intros Hname Hkr. rewrite Hkr in Hname.
  destruct (truthy (product_name product)) as [name|] eqn:Hn; [|discriminate].
  exists name. split; [reflexivity|]. apply truthy_some, Hn.
Qed.

Lemma search_record_matches_listing env product w :
  has_name product = true -> comparable product ->
  search_record env product w = listing_record env product w /\
  display_name (listing_record env product w).1 =
    match truthy (product_name_KR product) with
    | Some localized => localized
    | None =>
        (translate_to_korean_cached env (default no_name (product_name product))
                                    (code product) w).1
    end.
Proof.
  intros Hname Hcode. unfold comparable in Hcode. unfold search_record, listing_record.
  destruct (code product) as [c|] eqn:Ec; simpl in *; [|congruence].
  apply String.eqb_neq in Hcode. rewrite Hcode; simpl.
  destruct (truthy (product_name_KR product)) as [localized|] eqn:Hkr.
  - split; reflexivity.
  - destruct (has_name_without_localized product Hname Hkr) as (name & Hn & Heq).
    rewrite Hn, Heq; simpl.
    destruct (translate_to_korean_cached env name (Some c) w). split; reflexivity.
Qed.

(** Without a barcode and without a pre-localized name both call sites
    translate the original name with no barcode, the listing by the call
    [translate_to_korean_cached(name)] and the search rendering by
    [translate_to_korean_cached(name, barcode=None)]; when neither call
    form has an entry in the result cache both run the body in the same
    state and obtain the same name. *)
Lemma codeless_records_agree_when_not_memoised env product w :
  has_name product = true -> codeless product ->
  ko_memo w !! (default no_name (product_name product), None) = None ->
  ko_memo_text w !! default no_name (product_name product) = None ->
  (search_record env product w).1 = (listing_record env product w).1 /\
  display_name (listing_record env product w).1 =
    (translate_to_korean env (default no_name (product_name product)) None w).1.1.
Proof.
  intros Hname [Hcode Hkr] Hmemo Hmemo_text. unfold search_record, listing_record.
  rewrite Hcode, Hkr; simpl.
  destruct (has_name_without_localized product Hname Hkr) as (name & Hn & Heq).
  rewrite Heq in Hmemo, Hmemo_text. simpl in Hmemo, Hmemo_text.
  rewrite Hn, Heq; simpl.
  unfold translate_to_korean_cached, translate_to_korean_cached_text.
  rewrite Hmemo, Hmemo_text.
  destruct (translate_to_korean env name None w) as [[value w'] shown].
  split; reflexivity.
Qed.

Lemma nameless_record_in_listing env product w :
  has_name product = false ->
  display_name (listing_record env product w).1 = no_name /\
  (listing_record env product w).2 = w /\
  products_filtered env [product] w = ([], w).
Proof.
  intros Hname. simpl. rewrite Hname.
  unfold has_name in Hname. unfold listing_record.
  destruct (truthy (product_name product)) eqn:Hn;
    destruct (truthy (product_name_KR product)) eqn:Hkr; try discriminate.
  destruct (negb (default no_barcode (code product) =? no_barcode)%string);
    repeat split; reflexivity.
Qed.

(** C2 (as amended).  For a record that has a name and a barcode, the
    listing and the search rendering build the same display record and
    leave the same state behind; the name is the pre-localized name if
    present, else the translation of the original name with the record's
    barcode.  For a record that has a name but neither a barcode nor a
    pre-localized name, both translate the original name with no barcode,
    through two call forms that the result cache keeps apart: the two
    display records are the same when neither form has an entry for that
    name.  A record with no name at all gets the "no name" marker in the
    listing and is left out of the search results. *)
Theorem projection_agrees env product w :
  (has_name product = true -> comparable product ->
     search_record env product w = listing_record env product w /\
     display_name (listing_record env product w).1 =
       match truthy (product_name_KR product) with
       | Some localized => localized
       | None =>
           (translate_to_korean_cached env (default no_name (product_name product))
                                       (code product) w).1
       end)
  /\
  (has_name product = true -> codeless product ->
     ko_memo w !! (default no_name (product_name product), None) = None ->
     ko_memo_text w !! default no_name (product_name product) = None ->
     (search_record env product w).1 = (listing_record env product w).1 /\
     display_name (listing_record env product w).1 =
       (translate_to_korean env (default no_name (product_name product)) None w).1.1)
  /\
  (has_name product = false ->
     display_name (listing_record env product w).1 = no_name /\
     (listing_record env product w).2 = w /\
     products_filtered env [product] w = ([], w)).
Proof.
  split; [|split].
  - apply search_record_matches_listing.
  - apply codeless_records_agree_when_not_memoised.
  - apply nameless_record_in_listing.
Qed.

(** Over a whole result list of such records the two renderings coincide. *)
Lemma projections_agree_on_lists env products :
  Forall (fun product => has_name product = true /\ comparable product) products ->
  forall w, products_filtered env products w = listing_records env products w.
Proof.
  induction 1 as [|product rest [Hname Hcmp] _ IH]; intros w; simpl; [reflexivity|].
  rewrite Hname.
  rewrite (proj1 (search_record_matches_listing env product w Hname Hcmp)).
  destruct (listing_record env product w) as [d w1]. rewrite IH. reflexivity.
Qed.

(** The claim C2 as written fails: a record without any name is shown by
    the listing, under the "no name" marker, and does not appear in the
    search results. *)
Lemma nameless_record_listed_not_searched :
  (listing_records translator_up [nameless_product] initial_world).1
  = [mkDisplay no_name "123" "Acme, Foods" no_category] /\
  (products_filtered translator_up [nameless_product] initial_world).1 = [].
Proof. split; vm_compute; reflexivity. Qed.

(** Outside the records compared above: without a barcode the listing
    does not look at the pre-localized name, the search rendering does. *)
Remark listing_skips_localized_name_without_code :
  display_name (listing_record translator_up localized_without_code initial_world).1
  = "우유" /\
  display_name (search_record translator_up localized_without_code initial_world).1
  = "서울우유".
Proof. split; vm_compute; reflexivity. Qed.

(** Outside the records compared above: once the listing has memoised a
    failed translation of a name under its call form, the search rendering
    of the same record, whose call form has no entry, obtains the
    translation, and the two call sites show different names. *)
Remark codeless_record_depends_on_call_form :
  has_name milk_without_code = true /\ codeless milk_without_code /\
  ko_memo_text listed_while_down !! "Milk" = Some ("Milk", [st_error MsgTranslateFailed]) /\
  ko_memo listed_while_down !! ("Milk", None) = None /\
  display_name (listing_record translator_up milk_without_code listed_while_down).1
  = "Milk" /\
  display_name (search_record translator_up milk_without_code listed_while_down).1
  = "우유".
Proof. repeat split; vm_compute; reflexivity. Qed.

Lemma projection_agrees_witness :
  has_name chicken_breast = true /\ comparable chicken_breast /\
  search_record translator_up chicken_breast initial_world
  = listing_record translator_up chicken_breast initial_world /\
  codeless milk_without_code /\
  (search_record translator_up milk_without_code initial_world).1
  = (listing_record translator_up milk_without_code initial_world).1.
Proof.
  assert (Hcmp : comparable chicken_breast) by discriminate.
  assert (Hcodeless : codeless milk_without_code) by (split; reflexivity).
  split; [reflexivity|]. split; [exact Hcmp|]. split.
  - exact (proj1 (proj1 (projection_agrees translator_up chicken_breast initial_world)
                        eq_refl Hcmp)).
  - split; [exact Hcodeless|].
    exact (proj1 (proj1 (proj2 (projection_agrees translator_up milk_without_code
                                  initial_world))
                        eq_refl Hcodeless eq_refl eq_refl)).
Defined.

(** ** Food search with retries *)





Lemma after_failed_attempts_effects max_retries (b : Q) attempts w :
  let w' := after_failed_attempts max_retries b attempts w in
  requests_sent w' = requests_sent w + length attempts /\
  slept w' = (slept w ++ map (backoff_delay b) attempts)%list /\
  notices w' = (notices w ++
    map (fun attempt => st_error (MsgApiRetry (attempt + 1) max_retries)) attempts)%list /\
  db w' = db w /\ live_calls w' = live_calls w.
Proof.
  revert w. induction attempts as [|attempt rest IH]; intros w; simpl.
  - rewrite !app_nil_r. repeat split; lia.
  - destruct (IH (sleep (backoff_delay b attempt)
                    (show [st_error (MsgApiRetry (attempt + 1) max_retries)]
                          (count_request w)))) as (Hreq & Hslept & Hnotes & Hdb & Hlive).
    unfold after_failed_attempts in *. simpl in *.
    rewrite Hreq, Hslept, Hnotes, Hdb, Hlive, <- !app_assoc. simpl.
    repeat split; lia.
Qed.

Lemma translate_query_effects env query w :
  requests_sent (translate_query env query w).2 = requests_sent w /\
  slept (translate_query env query w).2 = slept w /\
  db (translate_query env query w).2 = db w.
Proof.
  unfold translate_query, translate_to_english_cached, translate_to_english.
  destruct (en_memo w !! query) as [[value shown]|]; simpl.
  - destruct (value =? query)%string; repeat split; reflexivity.
  - destruct (translator_reply env query) as [translation|]; simpl.
    + destruct (translation =? query)%string; repeat split; reflexivity.
    + destruct (query =? query)%string; repeat split; reflexivity.
Qed.




(** ** Statistics *)

Lemma or_zero_eq (x : Q) : (or_zero x == x)%Q.
Proof.
  unfold or_zero. destruct (Qeq_bool x 0) eqn:E; [|reflexivity].
  apply Qeq_bool_iff in E. symmetry. exact E.
Qed.

Lemma fold_or_zero {A} (f : A -> Q) (rows : list A) (acc acc' : Q) :
  (acc == acc')%Q ->
  (fold_left Qplus (map (fun row => or_zero (f row)) rows) acc ==
   fold_left Qplus (map f rows) acc')%Q.
Proof.
  revert acc acc'. induction rows as [|row rest IH]; intros acc acc' Hacc; simpl.
  - exact Hacc.
  - apply IH. rewrite Hacc, or_zero_eq. reflexivity.
Qed.

Lemma sum_or_zero {A} (f : A -> Q) (rows : list A) :
  (py_sum (map (fun row => or_zero (f row)) rows) == py_sum (map f rows))%Q.
Proof. unfold py_sum. apply fold_or_zero. reflexivity. Qed.

(** C7.  Each total of the statistics summary is the sum of that field
    over the rows [get_diets] lists for the user -- which, when the store
    answers, are exactly the user's rows of the Meal table -- and the
    summary is the same whatever the ManualMeal table holds. *)
Theorem summary_is_sum_of_meals env uid w :
  let s := (show_statistics_with_chatbot env uid w).1 in
  let rows := (get_diets env uid w).1 in
  (current_calories s == py_sum (map calories rows))%Q /\
  (current_proteins s == py_sum (map proteins rows))%Q /\
  (current_carbs s == py_sum (map carbs rows))%Q /\
  (current_fats s == py_sum (map fats rows))%Q /\
  (store_ok env = true -> rows = List.filter (owned_meal uid) (meals (db w))) /\
  (forall manual,
      (show_statistics_with_chatbot env uid (set_db (set_manual_meals manual (db w)) w)).1 = s).
Proof.
  unfold show_statistics_with_chatbot, get_diets.
  destruct (store_ok env); simpl;
    repeat split; try apply sum_or_zero; try reflexivity; discriminate.
Qed.

Lemma summary_is_sum_of_meals_witness :
  store_ok store_up = true /\
  (get_diets store_up 1 two_users).1 = List.filter (owned_meal 1) (meals (db two_users)) /\
  (current_calories (show_statistics_with_chatbot store_up 1 two_users).1
   == py_sum (map calories (get_diets store_up 1 two_users).1))%Q.
Proof.
  pose proof (summary_is_sum_of_meals store_up 1 two_users)
    as (Hcal & _ & _ & _ & Hrows & _).
  split; [reflexivity|]. split; [exact (Hrows eq_refl)|exact Hcal].
Defined.

(** ** Bulk reset *)

Lemma filter_other_owner {A} (owner : A -> Z) (uid other : Z) (rows : list A) :
  other <> uid ->
  List.filter (fun row => Z.eqb (owner row) other)
              (List.filter (fun row => negb (Z.eqb (owner row) uid)) rows)
  = List.filter (fun row => Z.eqb (owner row) other) rows.
Proof.
  intros Hne. induction rows as [|row rest IH]; simpl; [reflexivity|].
  destruct (Z.eqb_spec (owner row) uid) as [Hu|Hu]; simpl.
  - destruct (Z.eqb_spec (owner row) other) as [Ho|Ho]; [congruence|exact IH].
  - destruct (Z.eqb (owner row) other); [f_equal|]; exact IH.
Qed.

Lemma in_filter_not_owner {A} (owner : A -> Z) (uid : Z) (rows : list A) row :
  In row (List.filter (fun row => negb (Z.eqb (owner row) uid)) rows)
  <-> In row rows /\ owner row <> uid.
Proof.
  rewrite List.filter_In. split; intros [Hin Ho]; split; auto.
  - intros Heq. apply Z.eqb_eq in Heq. rewrite Heq in Ho. discriminate.
  - apply Z.eqb_neq in Ho. rewrite Ho. reflexivity.
Qed.

(** C9.  A reset by user [uid] that commits removes every Meal and
    ManualMeal row of [uid] and nothing else from those tables, empties the
    translation table whoever caused its entries, and leaves the users
    table as it was. *)
Theorem reset_scope env uid w :
  store_ok env = true ->
  let w' := (reset_database_tables env uid w).2 in
  users (db w') = users (db w) /\
  (forall m, In m (meals (db w')) <-> In m (meals (db w)) /\ meal_user_id m <> uid) /\
  (forall m, In m (manual_meals (db w')) <->
             In m (manual_meals (db w)) /\ manual_user_id m <> uid) /\
  product_translations (db w') = ∅ /\
  (forall other, other <> uid ->
     List.filter (owned_meal other) (meals (db w'))
       = List.filter (owned_meal other) (meals (db w)) /\
     List.filter (owned_manual other) (manual_meals (db w'))
       = List.filter (owned_manual other) (manual_meals (db w))).
Proof.
  intros Hok. unfold reset_database_tables. rewrite Hok. simpl.
  split; [reflexivity|]. split; [|split; [|split; [reflexivity|]]].
  - intros m. apply (in_filter_not_owner meal_user_id).
  - intros m. apply (in_filter_not_owner manual_user_id).
  - intros other Hne. split.
    + apply (filter_other_owner meal_user_id); exact Hne.
    + apply (filter_other_owner manual_user_id); exact Hne.
Qed.

Lemma reset_scope_witness :
  store_ok store_up = true /\
  meals (db (reset_database_tables store_up 1 two_users).2)
  = List.filter (owned_meal 2) (meals (db two_users)) /\
  product_translations (db (reset_database_tables store_up 1 two_users).2) = ∅.
Proof.
  split; [reflexivity|].
  pose proof (reset_scope store_up 1 two_users eq_refl) as (_ & _ & _ & Htr & _).
  split; [vm_compute; reflexivity|exact Htr].
Defined.

(** ** Accounts *)

(** Every operation other than [create_user] leaves the users table alone. *)

Ltac split_cases :=
  repeat (match goal with
          | |- context [match ?x with _ => _ end] => destruct x eqn:?; simpl
          | |- context [if ?x then _ else _] => destruct x eqn:?; simpl
          end);
  try reflexivity.

Lemma translate_try_users env text barcode w :
  users (db (translate_to_korean_try env text barcode w).2) = users (db w).
Proof.
  unfold translate_to_korean_try.
  destruct (truthy barcode) as [b|]; simpl.
  - destruct (query_ok env); simpl; [|reflexivity].
    destruct (product_translations (db w) !! b); simpl; [reflexivity|].
    destruct (translator_reply env text); simpl; [|reflexivity].
    destruct (commit_ok env); reflexivity.
  - destruct (translator_reply env text); reflexivity.
Qed.

Lemma translate_cached_users env text barcode w :
  users (db (translate_to_korean_cached env text barcode w).2) = users (db w).
Proof.
  unfold translate_to_korean_cached, translate_to_korean.
  destruct (ko_memo w !! (text, barcode)) as [[value shown]|]; [reflexivity|].
  pose proof (translate_try_users env text barcode w) as H.
  destruct (translate_to_korean_try env text barcode w) as [[e|translation] w'];
    simpl in *; exact H.
Qed.

(** The call form without a barcode never writes the store and sends no
    request. *)
Lemma translate_cached_text_effects env text w :
  db (translate_to_korean_cached_text env text w).2 = db w /\
  requests_sent (translate_to_korean_cached_text env text w).2 = requests_sent w.
Proof.
  unfold translate_to_korean_cached_text, translate_to_korean, translate_to_korean_try.
  destruct (ko_memo_text w !! text) as [[value shown]|]; [split; reflexivity|].
  cbn [truthy]. destruct (translator_reply env text); split; reflexivity.
Qed.

Lemma listing_record_users env product w :
  users (db (listing_record env product w).2) = users (db w).
Proof.
  unfold listing_record.
  destruct (negb (default no_barcode (code product) =? no_barcode)%string);
    destruct (truthy (product_name_KR product));
    destruct (truthy (product_name product)); simpl; try reflexivity.
  all: match goal with
       | |- context [translate_to_korean_cached ?e ?t ?b ?w] =>
           pose proof (translate_cached_users e t b w);
           destruct (translate_to_korean_cached e t b w)
       | |- context [translate_to_korean_cached_text ?e ?t ?w] =>
           pose proof (f_equal users (proj1 (translate_cached_text_effects e t w)));
           destruct (translate_to_korean_cached_text e t w)
       end; assumption.
Qed.

Lemma listing_records_users env products w :
  users (db (listing_records env products w).2) = users (db w).
Proof.
  revert w. induction products as [|product rest IH]; intros w; simpl; [reflexivity|].
  pose proof (listing_record_users env product w) as H1.
  destruct (listing_record env product w) as [d w1].
  pose proof (IH w1) as H2.
  destruct (listing_records env rest w1) as [ds w2]. simpl in *. congruence.
Qed.

Lemma get_api_foods_cached_users env net page page_size w :
  users (db (get_api_foods_cached env net page page_size w).2) = users (db w).
Proof.
  unfold get_api_foods_cached.
  destruct (foods_memo w !! (page, page_size)) as [[value shown]|]; [reflexivity|].
  assert (H : users (db (get_api_foods env net page page_size w).2) = users (db w)).
  { unfold get_api_foods. destruct (net page page_size); simpl; try reflexivity.
    rewrite listing_records_users. reflexivity. }
  destruct (get_api_foods env net page page_size w) as [value w']. exact H.
Qed.

Lemma search_attempts_db net max_retries (b : Q) attempts w :
  db (search_attempts net max_retries b attempts w).2 = db w.
Proof.
  revert w. induction attempts as [|attempt rest IH]; intros w; simpl; [reflexivity|].
  destruct (net attempt); simpl; try reflexivity.
  destruct (Qle_bool 0 (backoff_delay b attempt)); [rewrite IH|]; reflexivity.
Qed.

Lemma search_food_db env net query max_retries (b : Q) w :
  db (search_food env net query max_retries b w).2 = db w.
Proof.
  unfold search_food.
  pose proof (translate_query_effects env query w) as (_ & _ & Hdb).
  destruct (translate_query env query w) as [translated_query w2]. simpl in Hdb.
  pose proof (search_attempts_db net max_retries b (seq 0 max_retries) w2) as Hloop.
  destruct (search_attempts net max_retries b (seq 0 max_retries) w2) as [[found| |e] w3];
    simpl in *; congruence.
Qed.

Lemma add_meal_entries_users uid entries d d' :
  add_meal_entries uid entries d = inr d' -> users d' = users d.
Proof.
  revert d. induction entries as [|meal rest IH]; intros d; simpl.
  - intros [= <-]. reflexivity.
  - destruct (entry_name meal); [|discriminate].
    destruct (entry_date meal) as [text|]; [|discriminate].
    destruct (strptime text); [|discriminate].
    intros H. rewrite (IH _ H). reflexivity.
Qed.

Lemma add_manual_entries_users uid entries d d' :
  add_manual_entries uid entries d = inr d' -> users d' = users d.
Proof.
  revert d. induction entries as [|meal rest IH]; intros d; simpl.
  - intros [= <-]. reflexivity.
  - destruct (manual_entry_name meal); [|discriminate].
    destruct (manual_entry_date meal) as [text|]; [|discriminate].
    destruct (strptime text); [|discriminate].
    intros H. rewrite (IH _ H). reflexivity.
Qed.

Lemma restore_data_users env uid file format w :
  users (db (restore_data env uid file format w).2) = users (db w).
Proof.
  unfold restore_data.
  destruct (format =? "json")%string; [|reflexivity].
  destruct file as [|data]; [reflexivity|].
  destruct (add_meal_entries uid (default [] (doc_meals data)) (db w)) as [e|d1] eqn:E1;
    simpl; [reflexivity|].
  destruct (add_manual_entries uid (default [] (doc_manual_meals data)) d1)
    as [e|d2] eqn:E2; simpl; [reflexivity|].
  destruct (store_ok env); simpl; [|reflexivity].
  rewrite (add_manual_entries_users _ _ _ _ E2). apply (add_meal_entries_users _ _ _ _ E1).
Qed.

Lemma create_user_users env name pw w :
  users (db (create_user env name pw w).2) = users (db w) \/
  (List.find (has_username name) (users (db w)) = None /\
   exists id hashed,
     users (db (create_user env name pw w).2) = (users (db w) ++ [mkUser id name hashed])%list).
Proof.
  unfold create_user. destruct (store_ok env); [|left; reflexivity].
  destruct (List.find (has_username name) (users (db w))) eqn:E; [left; reflexivity|].
  right. split; [reflexivity|]. simpl. eauto.
Qed.

Lemma perform_users w op :
  users (db (perform w op)) = users (db w) \/
  exists name id hashed,
    List.find (has_username name) (users (db w)) = None /\
    users (db (perform w op)) = (users (db w) ++ [mkUser id name hashed])%list.
Proof.
  destruct op; simpl.
  - destruct (create_user_users env name pw w) as [H|(Hfind & id & hashed & H)];
      [left; exact H|right; eauto 6].
  - unfold DataDatabase.create_user. destruct (store_ok env); [|left; reflexivity].
    destruct (List.find (has_username name) (users (db w))) eqn:E; [left; reflexivity|].
    right. simpl. eauto 6.
  - left. unfold add_diet. split_cases.
  - left. unfold add_manual_meal. split_cases.
  - left. unfold delete_meal. split_cases.
  - left. unfold delete_manual_meal. split_cases.
  - left. unfold reset_database_tables. split_cases.
  - left. apply restore_data_users.
  - left. unfold backup_data. split_cases.
  - left. unfold show_statistics_with_chatbot, get_diets. destruct (store_ok env); reflexivity.
  - left. apply translate_cached_users.
  - left. apply get_api_foods_cached_users.
  - left. rewrite search_food_db. reflexivity.
Qed.

Lemma find_username_none name us :
  List.find (has_username name) us = None -> ~ In name (map username us).
Proof.
  intros Hfind Hin. apply List.in_map_iff in Hin. destruct Hin as (u & Hu & Hin).
  pose proof (List.find_none _ _ Hfind u Hin) as H.
  unfold has_username in H. rewrite Hu, String.eqb_refl in H. discriminate.
Qed.

Lemma NoDup_snoc {A} (l : list A) x :
  List.NoDup l -> ~ In x l -> List.NoDup (l ++ [x]).
Proof.
  induction 1 as [|y l Hy Hl IH]; intros Hx; simpl.
  - constructor; [intros []|constructor].
  - constructor.
    + intros Hin. apply List.in_app_or in Hin. destruct Hin as [Hin|[->|[]]].
      * exact (Hy Hin).
      * apply Hx. left. reflexivity.
    + apply IH. intros Hin. apply Hx. right. exact Hin.
Qed.

Lemma perform_keeps_usernames_distinct w op :
  List.NoDup (map username (users (db w))) ->
  List.NoDup (map username (users (db (perform w op)))).
Proof.
  intros Hnd.
  destruct (perform_users w op) as [->|(name & id & hashed & Hfind & ->)]; [exact Hnd|].
  rewrite List.map_app. simpl. apply NoDup_snoc; [exact Hnd|].
  apply find_username_none, Hfind.
Qed.

Lemma run_keeps_usernames_distinct ops w :
  List.NoDup (map username (users (db w))) ->
  List.NoDup (map username (users (db (run ops w)))).
Proof.
  revert w. induction ops as [|op rest IH]; intros w Hnd; simpl; [exact Hnd|].
  apply IH, perform_keeps_usernames_distinct, Hnd.
Qed.

Lemma distinct_usernames_at_most_one name us :
  List.NoDup (map username us) ->
  length (List.filter (has_username name) us) <= 1.
Proof.
  induction us as [|u rest IH]; simpl; intros Hnd; [lia|].
  inversion Hnd as [|? ? Hnotin Hrest]; subst.
  unfold has_username at 1. destruct (String.eqb_spec (username u) name) as [Heq|Hne].
  - assert (Hnone : List.filter (has_username name) rest = []).
    { destruct (List.filter (has_username name) rest) as [|v vs] eqn:E; [reflexivity|].
      exfalso. apply Hnotin.
      assert (Hv : In v (List.filter (has_username name) rest)) by (rewrite E; left; reflexivity).
      apply List.filter_In in Hv. destruct Hv as [Hin Hv].
      apply String.eqb_eq in Hv. rewrite Heq, <- Hv. apply List.in_map, Hin. }
    rewrite Hnone. simpl. lia.
  - apply IH, Hrest.
Qed.

(** C10.  Starting from the empty store, after any sequence of operations
    no username is carried by more than one row of the users table; and
    [create_user] (in [app.py] and in [data/database.py] alike) called
    with a username that is already present returns [False] and leaves
    the users table exactly as it was. *)
Theorem usernames_stay_unique :
  (forall ops name,
      length (List.filter (has_username name) (users (db (run ops initial_world)))) <= 1)
  /\
  (forall env name pw w,
      (exists u, In u (users (db w)) /\ username u = name) ->
      (create_user env name pw w).1 = false /\
      users (db (create_user env name pw w).2) = users (db w) /\
      DataDatabase.create_user env name pw (db w) = (false, db w)).
Proof.
  split.
  - intros ops name. apply distinct_usernames_at_most_one.
    apply run_keeps_usernames_distinct. constructor.
  - intros env name pw w (u & Hin & Hname).
    unfold create_user, DataDatabase.create_user.
    destruct (store_ok env); [|repeat split; reflexivity].
    destruct (List.find (has_username name) (users (db w))) as [found|] eqn:Hfind;
      [repeat split; reflexivity|].
    exfalso. pose proof (List.find_none _ _ Hfind u Hin) as H.
    unfold has_username in H. rewrite Hname, String.eqb_refl in H. discriminate.
Qed.

Lemma usernames_stay_unique_witness :
  (exists u, In u (users (db two_users)) /\ username u = "mina") /\
  (create_user store_up "mina" "other" two_users).1 = false /\
  users (db (create_user store_up "mina" "other" two_users).2) = users (db two_users).
Proof.
  assert (H : exists u, In u (users (db two_users)) /\ username u = "mina").
  { exists (mkUser 1 "mina" "$2b$12$pw1"). split; [left; reflexivity|reflexivity]. }
  split; [exact H|].
  pose proof (proj2 usernames_stay_unique store_up "mina" "other" two_users H)
    as (Hres & Husers & _).
  split; [exact Hres|exact Husers].
Defined.

(** ** Backup and restore *)

Lemma digit_round_trip (d : Z) :
  (0 <= d < 10)%Z -> digit_of_ascii (digit_char d) = Some (Z.to_nat d).
Proof.
  intros Hd.
  assert (H : (d = 0 \/ d = 1 \/ d = 2 \/ d = 3 \/ d = 4 \/ d = 5 \/ d = 6 \/
               d = 7 \/ d = 8 \/ d = 9)%Z) by lia.
  repeat (destruct H as [->|H]; [reflexivity|]). subst d. reflexivity.
Qed.

Lemma two_digits_pad (n : Z) :
  (0 <= n < 100)%Z ->
  two_digits (digit_char (n / 10)) (digit_char (n mod 10)) = Some n.
Proof.
  intros Hn.
  assert (Hq : (0 <= n / 10 < 10)%Z).
  { split; [apply Z.div_pos; lia|apply Z.div_lt_upper_bound; lia]. }
  assert (Hr : (0 <= n mod 10 < 10)%Z) by (apply Z.mod_pos_bound; lia).
  unfold two_digits. rewrite !digit_round_trip by assumption. simpl.
  rewrite !Z2Nat.id by lia. f_equal.
  rewrite (Z.div_mod n 10) at 3 by lia. reflexivity.
Qed.

Lemma year_text_four_digits y : (1000 <= y)%Z -> year_text y = pad4 y.
Proof.
  intros Hy. unfold year_text.
  destruct (Z.ltb_spec y 10); [lia|]. destruct (Z.ltb_spec y 100); [lia|].
  destruct (Z.ltb_spec y 1000); [lia|]. reflexivity.
Qed.

Lemma strftime_characters d :
  (1000 <= year d)%Z ->
  strftime d =
  String (digit_char (year d / 100 / 10)) (String (digit_char ((year d / 100) mod 10))
  (String (digit_char ((year d mod 100) / 10)) (String (digit_char ((year d mod 100) mod 10))
  (String "-"
  (String (digit_char (month d / 10)) (String (digit_char (month d mod 10))
  (String "-"
  (String (digit_char (day d / 10)) (String (digit_char (day d mod 10))
  (String " "
  (String (digit_char (hour d / 10)) (String (digit_char (hour d mod 10))
  (String ":"
  (String (digit_char (minute d / 10)) (String (digit_char (minute d mod 10))
  (String ":"
  (String (digit_char (second d / 10)) (String (digit_char (second d mod 10))
  EmptyString)))))))))))))))))).
Proof. intros Hy. unfold strftime. rewrite (year_text_four_digits _ Hy). reflexivity. Qed.

Lemma datetime_ok_bounds d :
  datetime_ok d = true ->
  (1 <= year d <= 9999 /\ 1 <= month d <= 12 /\
   1 <= day d <= days_in_month (year d) (month d) /\
   0 <= hour d < 24 /\ 0 <= minute d < 60 /\ 0 <= second d < 60)%Z.
Proof.
  unfold datetime_ok. rewrite !andb_true_iff, !Z.leb_le, !Z.ltb_lt. tauto.
Qed.

Lemma days_in_month_bound y m : (days_in_month y m <= 31)%Z.
Proof.
  unfold days_in_month.
  destruct (m =? 2)%Z; [destruct (is_leap y); lia|].
  destruct ((m =? 4)%Z || (m =? 6)%Z || (m =? 9)%Z || (m =? 11)%Z); lia.
Qed.

Lemma datetime_ok_whole_seconds d :
  datetime_ok d = true -> datetime_ok (whole_seconds d) = true.
Proof.
  unfold datetime_ok, whole_seconds; simpl.
  rewrite !andb_true_iff. intros H. repeat split; try tauto.
Qed.

Arguments digit_char : simpl never.

(** Parsing the text written for a timestamp gives the timestamp back,
    microseconds dropped. *)
Lemma strptime_strftime d :
  portable d = true -> strptime (strftime d) = Some (whole_seconds d).
Proof.
  intros Hportable. unfold portable, four_digit_year in Hportable.
  apply andb_true_iff in Hportable. destruct Hportable as [Hok Hfour].
  apply Z.leb_le in Hfour.
  pose proof (datetime_ok_whole_seconds d Hok) as Hok'.
  pose proof (datetime_ok_bounds d Hok) as (Hy & Hm & Hd & Hh & Hi & Hs).
  pose proof (days_in_month_bound (year d) (month d)) as Hdim.
  assert (Hyh : (0 <= year d / 100 < 100)%Z).
  { split; [apply Z.div_pos; lia|apply Z.div_lt_upper_bound; lia]. }
  assert (Hyl : (0 <= year d mod 100 < 100)%Z) by (apply Z.mod_pos_bound; lia).
  rewrite (strftime_characters d Hfour). unfold strptime. cbv beta iota.
  rewrite !Ascii.eqb_refl. cbn [andb].
  rewrite !two_digits_pad by lia. cbn [mbind option_bind].
  replace (100 * (year d / 100) + year d mod 100)%Z with (year d)
    by (rewrite <- Z.div_mod; lia).
  fold (whole_seconds d). rewrite Hok'. reflexivity.
Qed.

Lemma strftime_whole_seconds d : strftime (whole_seconds d) = strftime d.
Proof. reflexivity. Qed.

Arguments strftime : simpl never.
Arguments strptime : simpl never.

Lemma set_meals_same d : set_meals (meals d ++ []) d = d.
Proof. rewrite app_nil_r. destruct d; reflexivity. Qed.

Lemma set_manual_meals_same d : set_manual_meals (manual_meals d ++ []) d = d.
Proof. rewrite app_nil_r. destruct d; reflexivity. Qed.

Lemma add_meal_entries_step uid meal rest d name text date :
  entry_name meal = Some name -> entry_date meal = Some text ->
  strptime text = Some date ->
  add_meal_entries uid (meal :: rest) d =
  add_meal_entries uid rest
    (insert_meal uid name
       (default 0%Q (entry_calories meal)) (default 0%Q (entry_proteins meal))
       (default 0%Q (entry_carbs meal)) (default 0%Q (entry_fats meal)) date d).
Proof.
  intros Hname Htext Hdate. cbn [add_meal_entries]. rewrite Hname, Htext, Hdate.
  reflexivity.
Qed.

Lemma add_manual_entries_step uid meal rest d name text date :
  manual_entry_name meal = Some name -> manual_entry_date meal = Some text ->
  strptime text = Some date ->
  add_manual_entries uid (meal :: rest) d =
  add_manual_entries uid rest (insert_manual_meal uid name date d).
Proof.
  intros Hname Htext Hdate. cbn [add_manual_entries]. rewrite Hname, Htext, Hdate.
  reflexivity.
Qed.

(** Restoring the entries written for [rows] appends one row per entry,
    with the same content, under the restoring user. *)
Lemma add_meal_entries_of_backup uid rows :
  (forall m, In m rows -> portable (meal_date m) = true) ->
  forall d, exists added,
    add_meal_entries uid (map meal_entry rows) d
      = ret (set_meals (meals d ++ added) d) /\
    map meal_content added = map meal_content rows /\
    Forall (fun m => meal_user_id m = uid) added.
Proof.
  induction rows as [|m rest IH]; intros Hok d.
  - exists []. cbn [map add_meal_entries]. rewrite set_meals_same.
    repeat split. constructor.
  - cbn [map].
    rewrite (add_meal_entries_step uid (meal_entry m) (map meal_entry rest) d
               (meal_name m) (strftime (meal_date m)) (whole_seconds (meal_date m))
               eq_refl eq_refl (strptime_strftime _ (Hok m (or_introl eq_refl)))).
    destruct (IH (fun m' H => Hok m' (or_intror H))
                 (insert_meal uid (meal_name m)
                    (default 0%Q (entry_calories (meal_entry m)))
                    (default 0%Q (entry_proteins (meal_entry m)))
                    (default 0%Q (entry_carbs (meal_entry m)))
                    (default 0%Q (entry_fats (meal_entry m)))
                    (whole_seconds (meal_date m)) d))
      as (added & Hrun & Hcontent & Howner).
    eexists (_ :: added). split; [|split].
    + rewrite Hrun. unfold insert_meal, set_meals. cbn [meals users manual_meals
        product_translations]. rewrite <- app_assoc. reflexivity.
    + cbn [map]. rewrite Hcontent. reflexivity.
    + constructor; [reflexivity|exact Howner].
Qed.

Lemma add_manual_entries_of_backup uid rows :
  (forall m, In m rows -> portable (manual_date m) = true) ->
  forall d, exists added,
    add_manual_entries uid (map manual_entry rows) d
      = ret (set_manual_meals (manual_meals d ++ added) d) /\
    map manual_content added = map manual_content rows /\
    Forall (fun m => manual_user_id m = uid) added.
Proof.
  induction rows as [|m rest IH]; intros Hok d.
  - exists []. cbn [map add_manual_entries]. rewrite set_manual_meals_same.
    repeat split. constructor.
  - cbn [map].
    rewrite (add_manual_entries_step uid (manual_entry m) (map manual_entry rest) d
               (manual_name m) (strftime (manual_date m)) (whole_seconds (manual_date m))
               eq_refl eq_refl (strptime_strftime _ (Hok m (or_introl eq_refl)))).
    destruct (IH (fun m' H => Hok m' (or_intror H))
                 (insert_manual_meal uid (manual_name m) (whole_seconds (manual_date m)) d))
      as (added & Hrun & Hcontent & Howner).
    eexists (_ :: added). split; [|split].
    + rewrite Hrun. unfold insert_manual_meal, set_manual_meals. cbn [meals users
        manual_meals product_translations]. rewrite <- app_assoc. reflexivity.
    + cbn [map]. rewrite Hcontent. reflexivity.
    + constructor; [reflexivity|exact Howner].
Qed.

Lemma filter_fresh_then_added {A} (owner : A -> Z) (uid : Z) (old added : list A) :
  (forall row, In row old -> owner row <> uid) ->
  Forall (fun row => owner row = uid) added ->
  List.filter (fun row => Z.eqb (owner row) uid) (old ++ added) = added.
Proof.
  intros Hold Hadded. rewrite List.filter_app.
  replace (List.filter (fun row => Z.eqb (owner row) uid) old) with (@nil A).
  - simpl. induction Hadded as [|row rest Hrow _ IH]; simpl; [reflexivity|].
    rewrite Hrow, Z.eqb_refl, IH. reflexivity.
  - symmetry. induction old as [|row rest IH]; simpl; [reflexivity|].
    destruct (Z.eqb_spec (owner row) uid) as [Heq|Hne].
    + exfalso. exact (Hold row (or_introl eq_refl) Heq).
    + apply IH. intros r Hr. apply Hold. right. exact Hr.
Qed.

(** C8 (as amended).  When the store answers and the rows of [uid] carry
    valid timestamps with a four-digit year, a backup taken of [uid] and restored
    for a user [uid'] who has no rows yet gives [uid'] meals with the same
    names, calories, proteins, carbs, fats and 'YYYY-MM-DD HH:MM:SS'
    timestamps as [uid] had, and manual meals with the same names and
    timestamps; the ids are assigned anew. *)
Theorem backup_restore_round_trip env_b env_r uid uid' w w' :
  store_ok env_b = true -> store_ok env_r = true ->
  (forall m, In m (meals (db w)) -> meal_user_id m = uid ->
             portable (meal_date m) = true) ->
  (forall m, In m (manual_meals (db w)) -> manual_user_id m = uid ->
             portable (manual_date m) = true) ->
  (forall m, In m (meals (db w')) -> meal_user_id m <> uid') ->
  (forall m, In m (manual_meals (db w')) -> manual_user_id m <> uid') ->
  exists backup,
    (backup_data env_b uid "json" w).1 = Some backup /\
    let r := restore_data env_r uid' (JsonDoc backup) "json" w' in
    r.1 = Rerun /\
    Permutation (map meal_content (get_diets env_r uid' r.2).1)
                (map meal_content (get_diets env_b uid w).1) /\
    Permutation (map manual_content (get_manual_meals env_r uid' r.2).1)
                (map manual_content (get_manual_meals env_b uid w).1).
Proof.
  intros Hb Hr Hdates Hmdates Hfresh Hmfresh.
  unfold backup_data, get_diets, get_manual_meals. rewrite Hb, Hr. simpl.
  eexists. split; [reflexivity|].
  unfold restore_data. simpl.
  set (rows := List.filter (owned_meal uid) (meals (db w))).
  set (mrows := List.filter (owned_manual uid) (manual_meals (db w))).
  assert (Hrows : forall m, In m rows -> portable (meal_date m) = true).
  { intros m Hin. apply List.filter_In in Hin. destruct Hin as [Hin Hown].
    apply Z.eqb_eq in Hown. exact (Hdates m Hin Hown). }
  assert (Hmrows : forall m, In m mrows -> portable (manual_date m) = true).
  { intros m Hin. apply List.filter_In in Hin. destruct Hin as [Hin Hown].
    apply Z.eqb_eq in Hown. exact (Hmdates m Hin Hown). }
  destruct (add_meal_entries_of_backup uid' rows Hrows (db w'))
    as (added & Hrun & Hcontent & Howner).
  rewrite Hrun. simpl.
  destruct (add_manual_entries_of_backup uid' mrows Hmrows
              (set_meals (meals (db w') ++ added) (db w')))
    as (madded & Hmrun & Hmcontent & Hmowner).
  rewrite Hmrun. simpl. rewrite Hr. simpl.
  split; [reflexivity|]. split.
  - unfold owned_meal.
    rewrite (filter_fresh_then_added meal_user_id uid' _ added Hfresh Howner).
    rewrite Hcontent. apply Permutation_refl.
  - unfold owned_manual.
    rewrite (filter_fresh_then_added manual_user_id uid' _ madded Hmfresh Hmowner).
    rewrite Hmcontent. apply Permutation_refl.
Qed.

(** The claim C8 as written fails: user 1 holds a meal of the year 999
    (restored from a file, where the year is written [0999]); the backup
    writes that year as [999], the restore refuses the text, and the user
    it was meant for receives nothing. *)
Lemma old_timestamp_breaks_round_trip :
  map meal_content (get_diets store_up 1 old_store).1
  = [("Barley", 100%Q, 0%Q, 0%Q, 0%Q, "999-01-02 03:04:05")] /\
  (backup_data store_up 1 "json" old_store).1
  = Some (mkBackupDoc
            (Some [mkMealEntry (Some 1%Z) (Some "Barley") (Some 100%Q) (Some 0%Q)
                               (Some 0%Q) (Some 0%Q) (Some "999-01-02 03:04:05")])
            (Some [])) /\
  strptime "999-01-02 03:04:05" = None /\
  (restore_data store_up 2
     (JsonDoc (default (mkBackupDoc None None)
                       (backup_data store_up 1 "json" old_store).1))
     "json" old_store).1 = Result false /\
  (get_diets store_up 2
     (restore_data store_up 2
        (JsonDoc (default (mkBackupDoc None None)
                          (backup_data store_up 1 "json" old_store).1))
        "json" old_store).2).1 = [].
Proof. repeat split; vm_compute; reflexivity. Qed.

Lemma backup_restore_round_trip_witness :
  store_ok store_up = true /\
  forallb (fun m => portable (meal_date m)) (meals (db two_users)) = true /\
  forallb (fun m => negb (owned_meal 3 m)) (meals (db two_users)) = true /\
  exists backup,
    (backup_data store_up 1 "json" two_users).1 = Some backup /\
    (restore_data store_up 3 (JsonDoc backup) "json" two_users).1 = Rerun /\
    Permutation
      (map meal_content
           (get_diets store_up 3
              (restore_data store_up 3 (JsonDoc backup) "json" two_users).2).1)
      (map meal_content (get_diets store_up 1 two_users).1).
Proof.
  assert (Hdates : forallb (fun m => portable (meal_date m)) (meals (db two_users)) = true)
    by (vm_compute; reflexivity).
  assert (Hmdates : forallb (fun m => portable (manual_date m))
                            (manual_meals (db two_users)) = true)
    by (vm_compute; reflexivity).
  assert (Hfresh : forallb (fun m => negb (owned_meal 3 m)) (meals (db two_users)) = true)
    by (vm_compute; reflexivity).
  assert (Hmfresh : forallb (fun m => negb (owned_manual 3 m))
                            (manual_meals (db two_users)) = true)
    by (vm_compute; reflexivity).
  split; [reflexivity|]. split; [exact Hdates|]. split; [exact Hfresh|].
  destruct (backup_restore_round_trip store_up store_up 1 3 two_users two_users
              eq_refl eq_refl) as (backup & Hbackup & Hexit & Hmeals & _).
  - intros m Hin _. exact (proj1 (List.forallb_forall _ _) Hdates m Hin).
  - intros m Hin _. exact (proj1 (List.forallb_forall _ _) Hmdates m Hin).
  - intros m Hin Heq. pose proof (proj1 (List.forallb_forall _ _) Hfresh m Hin) as H.
    unfold owned_meal in H. rewrite Heq, Z.eqb_refl in H. discriminate.
  - intros m Hin Heq. pose proof (proj1 (List.forallb_forall _ _) Hmfresh m Hin) as H.
    unfold owned_manual in H. rewrite Heq, Z.eqb_refl in H. discriminate.
  - exists backup. split; [exact Hbackup|]. split; [exact Hexit|exact Hmeals].
Defined.

(* ===================================================================== *)
(** * Part III -- further properties of the program                       *)
(* ===================================================================== *)

(** ** Primary keys *)

Lemma below_next_id ids i : In i ids -> (i < next_id ids)%Z.
Proof.
  unfold next_id. induction ids as [|j rest IH]; simpl; [intros []|].
  intros [->|Hin]; [lia|]. specialize (IH Hin). lia.
Qed.

Lemma next_id_is_fresh ids : ~ In (next_id ids) ids.
Proof. intros Hin. apply below_next_id in Hin. lia. Qed.

Lemma NoDup_map_filter {A B} (f : A -> B) (p : A -> bool) (l : list A) :
  List.NoDup (map f l) -> List.NoDup (map f (List.filter p l)).
Proof.
  induction l as [|a rest IH]; simpl; intros Hnd; [constructor|].
  inversion Hnd as [|? ? Hnotin Hrest]; subst.
  destruct (p a); simpl; [|apply IH, Hrest].
  constructor; [|apply IH, Hrest].
  intros Hin. apply Hnotin. apply List.in_map_iff in Hin.
  destruct Hin as (x & Hx & Hin). apply List.filter_In in Hin.
  rewrite <- Hx. apply List.in_map. tauto.
Qed.

Lemma insert_meal_keys uid name cal pro car fat date d :
  keys_unique d -> keys_unique (insert_meal uid name cal pro car fat date d).
Proof.
  intros (Hu & Hm & Hmm). unfold keys_unique, insert_meal, set_meals; simpl.
  repeat split; auto. rewrite List.map_app. simpl.
  apply NoDup_snoc; [exact Hm|apply next_id_is_fresh].
Qed.

Lemma insert_manual_meal_keys uid name date d :
  keys_unique d -> keys_unique (insert_manual_meal uid name date d).
Proof.
  intros (Hu & Hm & Hmm). unfold keys_unique, insert_manual_meal, set_manual_meals; simpl.
  repeat split; auto. rewrite List.map_app. simpl.
  apply NoDup_snoc; [exact Hmm|apply next_id_is_fresh].
Qed.

Lemma insert_user_keys name hashed d :
  keys_unique d -> keys_unique (insert_user name hashed d).
Proof.
  intros (Hu & Hm & Hmm). unfold keys_unique, insert_user; simpl.
  repeat split; auto. rewrite List.map_app. simpl.
  apply NoDup_snoc; [exact Hu|apply next_id_is_fresh].
Qed.

Lemma add_meal_entries_keys uid entries d d' :
  add_meal_entries uid entries d = inr d' -> keys_unique d -> keys_unique d'.
Proof.
  revert d. induction entries as [|meal rest IH]; intros d; cbn [add_meal_entries].
  - intros [= <-]. auto.
  - destruct (entry_name meal); [|discriminate].
    destruct (entry_date meal) as [text|]; [|discriminate].
    destruct (strptime text); [|discriminate].
    intros H Hk. apply (IH _ H). apply insert_meal_keys, Hk.
Qed.

Lemma add_manual_entries_keys uid entries d d' :
  add_manual_entries uid entries d = inr d' -> keys_unique d -> keys_unique d'.
Proof.
  revert d. induction entries as [|meal rest IH]; intros d; cbn [add_manual_entries].
  - intros [= <-]. auto.
  - destruct (manual_entry_name meal); [|discriminate].
    destruct (manual_entry_date meal) as [text|]; [|discriminate].
    destruct (strptime text); [|discriminate].
    intros H Hk. apply (IH _ H). apply insert_manual_meal_keys, Hk.
Qed.

Lemma same_rows_refl d : same_rows d d.
Proof. repeat split. Qed.

Lemma same_rows_trans d1 d2 d3 : same_rows d1 d2 -> same_rows d2 d3 -> same_rows d1 d3.
Proof. unfold same_rows. intros (A & B & C) (A' & B' & C'). repeat split; congruence. Qed.

Lemma same_rows_keys d d' : same_rows d d' -> keys_unique d -> keys_unique d'.
Proof. unfold same_rows, keys_unique. intros (-> & -> & ->). auto. Qed.

Lemma translate_try_rows env text barcode w :
  same_rows (db w) (db (translate_to_korean_try env text barcode w).2).
Proof.
  unfold translate_to_korean_try.
  destruct (truthy barcode) as [b|]; simpl.
  - destruct (query_ok env); simpl; [|apply same_rows_refl].
    destruct (product_translations (db w) !! b); simpl; [apply same_rows_refl|].
    destruct (translator_reply env text); simpl; [|apply same_rows_refl].
    destruct (commit_ok env); repeat split.
  - destruct (translator_reply env text); apply same_rows_refl.
Qed.

Lemma translate_cached_rows env text barcode w :
  same_rows (db w) (db (translate_to_korean_cached env text barcode w).2).
Proof.
  unfold translate_to_korean_cached, translate_to_korean.
  destruct (ko_memo w !! (text, barcode)) as [[value shown]|]; [apply same_rows_refl|].
  pose proof (translate_try_rows env text barcode w) as H.
  destruct (translate_to_korean_try env text barcode w) as [[e|translation] w'];
    simpl in *; exact H.
Qed.

Lemma listing_record_rows env product w :
  same_rows (db w) (db (listing_record env product w).2).
Proof.
  unfold listing_record.
  destruct (negb (default no_barcode (code product) =? no_barcode)%string);
    destruct (truthy (product_name_KR product));
    destruct (truthy (product_name product)); simpl; try apply same_rows_refl.
  all: match goal with
       | |- context [translate_to_korean_cached ?e ?t ?b ?w] =>
           pose proof (translate_cached_rows e t b w);
           destruct (translate_to_korean_cached e t b w)
       | |- context [translate_to_korean_cached_text ?e ?t ?w] =>
           pose proof (proj1 (translate_cached_text_effects e t w)) as Hdb;
           destruct (translate_to_korean_cached_text e t w); cbn [snd] in *;
           rewrite Hdb; apply same_rows_refl
       end; assumption.
Qed.

Lemma listing_records_rows env products w :
  same_rows (db w) (db (listing_records env products w).2).
Proof.
  revert w. induction products as [|product rest IH]; intros w; simpl;
    [apply same_rows_refl|].
  pose proof (listing_record_rows env product w) as H1.
  destruct (listing_record env product w) as [d w1].
  pose proof (IH w1) as H2.
  destruct (listing_records env rest w1) as [ds w2]. simpl in *.
  eapply same_rows_trans; eassumption.
Qed.

Lemma get_api_foods_rows env net page page_size w :
  same_rows (db w) (db (get_api_foods env net page page_size w).2).
Proof.
  unfold get_api_foods. destruct (net page page_size); simpl; try apply same_rows_refl.
  apply (listing_records_rows env _ (count_request w)).
Qed.

Lemma get_api_foods_cached_rows env net page page_size w :
  same_rows (db w) (db (get_api_foods_cached env net page page_size w).2).
Proof.
  unfold get_api_foods_cached.
  destruct (foods_memo w !! (page, page_size)) as [[value shown]|];
    [apply same_rows_refl|].
  pose proof (get_api_foods_rows env net page page_size w) as H.
  destruct (get_api_foods env net page page_size w) as [value w']. exact H.
Qed.

Lemma perform_keeps_keys w op :
  keys_unique (db w) -> keys_unique (db (perform w op)).
Proof.
  intros Hk. destruct op; cbn [perform].
  - unfold create_user. destruct (store_ok env); [|exact Hk].
    destruct (List.find (has_username name) (users (db w))); [exact Hk|].
    apply insert_user_keys, Hk.
  - unfold DataDatabase.create_user. destruct (store_ok env); [|exact Hk].
    destruct (List.find (has_username name) (users (db w))); [exact Hk|].
    apply insert_user_keys, Hk.
  - unfold add_diet. destruct (in_name meal); [|exact Hk].
    destruct (store_ok env); [|exact Hk]. apply insert_meal_keys, Hk.
  - unfold add_manual_meal. destruct name; [|exact Hk].
    destruct (store_ok env); [|exact Hk]. apply insert_manual_meal_keys, Hk.
  - unfold delete_meal. destruct (store_ok env); [|exact Hk].
    destruct (List.find _ (meals (db w))); [|exact Hk].
    destruct Hk as (Hu & Hm & Hmm). repeat split; auto.
    apply NoDup_map_filter, Hm.
  - unfold delete_manual_meal. destruct (store_ok env); [|exact Hk].
    destruct (List.find _ (manual_meals (db w))); [|exact Hk].
    destruct Hk as (Hu & Hm & Hmm). repeat split; auto.
    apply NoDup_map_filter, Hmm.
  - unfold reset_database_tables. destruct (store_ok env); [|exact Hk].
    destruct Hk as (Hu & Hm & Hmm). repeat split; auto; apply NoDup_map_filter; auto.
  - unfold restore_data. destruct (format =? "json")%string; [|exact Hk].
    destruct file as [|data]; [exact Hk|].
    destruct (add_meal_entries uid (default [] (doc_meals data)) (db w)) as [e|d1] eqn:E1;
      [exact Hk|].
    cbn [bind].
    destruct (add_manual_entries uid (default [] (doc_manual_meals data)) d1)
      as [e|d2] eqn:E2; [exact Hk|].
    cbn [bind]. destruct (store_ok env); [|exact Hk].
    apply (add_manual_entries_keys _ _ _ _ E2), (add_meal_entries_keys _ _ _ _ E1), Hk.
  - unfold backup_data. destruct (store_ok env); [|exact Hk].
    destruct (format =? "json")%string; exact Hk.
  - unfold show_statistics_with_chatbot, get_diets. destruct (store_ok env); exact Hk.
  - apply (same_rows_keys _ _ (translate_cached_rows env text barcode w)), Hk.
  - apply (same_rows_keys _ _ (get_api_foods_cached_rows env net page page_size w)), Hk.
  - rewrite search_food_db. exact Hk.
Qed.

(** X1.  From the empty store, after any sequence of operations (sign-up,
    adding, deleting, resetting, restoring, translating, listing,
    searching), no two rows of a table share an id. *)
Theorem primary_keys_stay_unique ops :
  keys_unique (db (run ops initial_world)).
Proof.
  assert (H : forall w, keys_unique (db w) -> keys_unique (db (run ops w))).
  { induction ops as [|op rest IH]; intros w Hk; simpl; [exact Hk|].
    apply IH, perform_keeps_keys, Hk. }
  apply H. repeat split; constructor.
Qed.

(** ** Meal store *)

Lemma filter_snoc {A} (p : A -> bool) (l : list A) (x : A) :
  List.filter p (l ++ [x]) = (List.filter p l ++ if p x then [x] else [])%list.
Proof. rewrite List.filter_app. simpl. destruct (p x); reflexivity. Qed.

(** X2.  [add_diet] returns [True] exactly when the dict has a name and the
    store accepts the insert.  Then the user's meal list grows by one row
    at its end, carrying the name, the given nutrition values (0.0 for the
    missing ones), the insertion time and an id no other row has; every
    other user's list and the other tables are as before.  Otherwise the
    store is unchanged and an error is shown. *)
Theorem add_diet_effect env uid meal w :
  let r := add_diet env uid meal w in
  let row name :=
    mkMeal (next_id (map meal_id (meals (db w)))) uid name
           (default 0%Q (in_calories meal)) (default 0%Q (in_proteins meal))
           (default 0%Q (in_carbs meal)) (default 0%Q (in_fats meal)) (utcnow env) in
  (forall name, in_name meal = Some name -> store_ok env = true ->
     r.1 = true /\
     (get_diets env uid r.2).1 = ((get_diets env uid w).1 ++ [row name])%list /\
     ~ In (meal_id (row name)) (map meal_id (meals (db w))) /\
     (forall other, other <> uid ->
        (get_diets env other r.2).1 = (get_diets env other w).1) /\
     users (db r.2) = users (db w) /\ manual_meals (db r.2) = manual_meals (db w) /\
     product_translations (db r.2) = product_translations (db w)) /\
  (in_name meal = None \/ store_ok env = false ->
     r.1 = false /\ db r.2 = db w /\ notices r.2 = (notices w ++ [st_error MsgSaveError])%list).
Proof.
  cbv zeta. split.
  - intros name Hname Hok. unfold add_diet, get_diets. rewrite Hname, Hok. cbn.
    split; [reflexivity|]. split.
    { rewrite filter_snoc. unfold owned_meal at 2. cbn. rewrite Z.eqb_refl. reflexivity. }
    split; [apply next_id_is_fresh|]. split; [|repeat split].
    intros other Hne. rewrite filter_snoc. unfold owned_meal at 2. cbn.
    apply Z.eqb_neq in Hne. rewrite Z.eqb_sym, Hne, app_nil_r. reflexivity.
  - intros H. unfold add_diet. destruct (in_name meal) as [name|].
    + destruct H as [H|H]; [discriminate|]. rewrite H. repeat split.
    + repeat split.
Qed.

Lemma add_diet_effect_witness :
  in_name tofu = Some "Tofu" /\ store_ok store_up = true /\
  (add_diet store_up 1 tofu two_users).1 = true /\
  (get_diets store_up 2 (add_diet store_up 1 tofu two_users).2).1
  = (get_diets store_up 2 two_users).1.
Proof.
  split; [reflexivity|]. split; [reflexivity|].
  pose proof (proj1 (add_diet_effect store_up 1 tofu two_users) "Tofu" eq_refl eq_refl)
    as (Hok & _ & _ & Hothers & _).
  split; [exact Hok|]. apply Hothers. discriminate.
Defined.

Lemma find_none_when_not_owned (uid mid : Z) rows :
  (forall m, In m rows -> meal_id m = mid -> meal_user_id m <> uid) ->
  List.find (fun m => Z.eqb (meal_id m) mid && owned_meal uid m) rows = None.
Proof.
  intros H. destruct (List.find _ rows) as [m|] eqn:E; [|reflexivity].
  apply List.find_some in E. destruct E as [Hin Hm].
  apply andb_true_iff in Hm. destruct Hm as [Hid Hown].
  apply Z.eqb_eq in Hid. apply Z.eqb_eq in Hown. exfalso. exact (H m Hin Hid Hown).
Qed.

(** X3.  [delete_meal(user_id, meal_id)] for an id that no row of the user
    carries -- an unknown id or another user's meal -- returns [False] and
    changes nothing, neither the user's rows nor anybody else's. *)
Theorem delete_meal_not_owned env uid mid w :
  (forall m, In m (meals (db w)) -> meal_id m = mid -> meal_user_id m <> uid) ->
  (delete_meal env uid mid w).1 = false /\
  db (delete_meal env uid mid w).2 = db w /\
  (store_ok env = true -> (delete_meal env uid mid w).2 = w).
Proof.
  intros H. unfold delete_meal. destruct (store_ok env); [|repeat split; discriminate].
  rewrite (find_none_when_not_owned uid mid _ H). repeat split.
Qed.

Lemma delete_meal_not_owned_witness :
  (forall m, In m (meals (db two_users)) -> meal_id m = 2%Z -> meal_user_id m <> 1%Z) /\
  (delete_meal store_up 1 2 two_users).1 = false /\
  db (delete_meal store_up 1 2 two_users).2 = db two_users.
Proof.
  assert (H : forall m, In m (meals (db two_users)) -> meal_id m = 2%Z ->
                        meal_user_id m <> 1%Z).
  { intros m Hin Hid. vm_compute in Hin. destruct Hin as [<-|[<-|[]]];
      [discriminate Hid|discriminate]. }
  split; [exact H|].
  pose proof (delete_meal_not_owned store_up 1 2 two_users H) as (Hr & Hdb & _).
  split; [exact Hr|exact Hdb].
Defined.

Lemma filter_out_unique_id (rows : list Meal) (m : Meal) :
  List.NoDup (map meal_id rows) -> In m rows ->
  forall m', In m' (List.filter (fun r => negb (Z.eqb (meal_id r) (meal_id m))) rows)
             <-> In m' rows /\ m' <> m.
Proof.
  intros Hnd Hin m'. rewrite List.filter_In. split.
  - intros [Hin' Hne]. split; [exact Hin'|]. intros ->.
    rewrite Z.eqb_refl in Hne. discriminate.
  - intros [Hin' Hne]. split; [exact Hin'|].
    destruct (Z.eqb_spec (meal_id m') (meal_id m)) as [Heq|]; [|reflexivity].
    exfalso. apply Hne. clear Hne.
    induction rows as [|r rest IH]; [destruct Hin|].
    simpl in Hnd. inversion Hnd as [|? ? Hnotin Hrest]; subst.
    destruct Hin as [->|Hin], Hin' as [->|Hin']; auto.
    + exfalso. apply Hnotin. rewrite <- Heq. apply List.in_map, Hin'.
    + exfalso. apply Hnotin. rewrite Heq. apply List.in_map, Hin.
Qed.

Lemma find_owned_row (uid : Z) (rows : list Meal) (m : Meal) :
  List.NoDup (map meal_id rows) -> In m rows -> meal_user_id m = uid ->
  List.find (fun r => Z.eqb (meal_id r) (meal_id m) && owned_meal uid r) rows = Some m.
Proof.
  intros Hnd Hin Hown.
  destruct (List.find _ rows) as [r|] eqn:E.
  - apply List.find_some in E. destruct E as [Hr Hm].
    apply andb_true_iff in Hm. destruct Hm as [Hid _]. apply Z.eqb_eq in Hid.
    f_equal. clear Hown.
    induction rows as [|x rest IH]; [destruct Hin|].
    simpl in Hnd. inversion Hnd as [|? ? Hnotin Hrest]; subst.
    destruct Hin as [->|Hin], Hr as [->|Hr]; auto.
    + exfalso. apply Hnotin. rewrite <- Hid. apply List.in_map, Hr.
    + exfalso. apply Hnotin. rewrite Hid. apply List.in_map, Hin.
  - exfalso. pose proof (List.find_none _ _ E m Hin) as H.
    unfold owned_meal in H. rewrite Hown, !Z.eqb_refl in H. discriminate.
Qed.

Lemma filter_keeps_other_ids (rows : list Meal) (id : Z) :
  ~ In id (map meal_id rows) ->
  List.filter (fun r => negb (Z.eqb (meal_id r) id)) rows = rows.
Proof.
  induction rows as [|r rest IH]; intros Hfresh; [reflexivity|]. simpl.
  destruct (Z.eqb_spec (meal_id r) id) as [Heq|Hne].
  - exfalso. apply Hfresh. left. exact Heq.
  - simpl. f_equal. apply IH. intros H. apply Hfresh. right. exact H.
Qed.

Lemma filter_out_one_row (rows : list Meal) (m : Meal) :
  List.NoDup (map meal_id rows) -> In m rows ->
  S (length (List.filter (fun r => negb (Z.eqb (meal_id r) (meal_id m))) rows))
  = length rows.
Proof.
  induction rows as [|x rest IH]; intros Hnd Hin; [destruct Hin|].
  simpl in Hnd. inversion Hnd as [|? ? Hnotin Hrest]; subst. simpl.
  destruct (Z.eqb_spec (meal_id x) (meal_id m)) as [Heq|Hne]; simpl.
  - rewrite filter_keeps_other_ids; [reflexivity|]. rewrite <- Heq. exact Hnotin.
  - f_equal. apply IH; [exact Hrest|]. destruct Hin as [->|Hin]; [congruence|exact Hin].
Qed.

(** X4.  With distinct ids, [delete_meal] on a meal of the user returns
    [True] and removes that row and no other: one row fewer, every other
    row still there, and the other tables untouched. *)
Theorem delete_meal_owned env uid w m :
  store_ok env = true ->
  List.NoDup (map meal_id (meals (db w))) ->
  In m (meals (db w)) -> meal_user_id m = uid ->
  let r := delete_meal env uid (meal_id m) w in
  r.1 = true /\
  (forall m', In m' (meals (db r.2)) <-> In m' (meals (db w)) /\ m' <> m) /\
  S (length (meals (db r.2))) = length (meals (db w)) /\
  users (db r.2) = users (db w) /\ manual_meals (db r.2) = manual_meals (db w) /\
  product_translations (db r.2) = product_translations (db w).
Proof.
  intros Hok Hnd Hin Hown. unfold delete_meal. rewrite Hok.
  rewrite (find_owned_row uid _ m Hnd Hin Hown). cbn.
  split; [reflexivity|]. split; [apply filter_out_unique_id; assumption|].
  split; [apply filter_out_one_row; assumption|repeat split].
Qed.

Lemma delete_meal_owned_witness :
  store_ok store_up = true /\
  List.NoDup (map meal_id (meals (db two_users))) /\
  (delete_meal store_up 1 1 two_users).1 = true /\
  S (length (meals (db (delete_meal store_up 1 1 two_users).2)))
  = length (meals (db two_users)).
Proof.
  assert (Hnd : List.NoDup (map meal_id (meals (db two_users)))).
  { vm_compute. constructor; [intros [H|[]]; discriminate H|].
    constructor; [intros []|constructor]. }
  split; [reflexivity|]. split; [exact Hnd|].
  pose proof (delete_meal_owned store_up 1 two_users
                (mkMeal 1 1 "Chicken Breast" 165 (315 # 10) 0 (36 # 10) noon)
                eq_refl Hnd (or_introl eq_refl) eq_refl) as (Hr & _ & Hlen & _).
  split; [exact Hr|exact Hlen].
Defined.

Lemma filter_out_fresh_id (rows : list Meal) (new : Meal) :
  ~ In (meal_id new) (map meal_id rows) ->
  List.filter (fun r => negb (Z.eqb (meal_id r) (meal_id new))) (rows ++ [new]) = rows.
Proof.
  intros Hfresh. rewrite filter_snoc, Z.eqb_refl. simpl. rewrite app_nil_r.
  apply filter_keeps_other_ids, Hfresh.
Qed.

Lemma find_after_none {A} (p : A -> bool) (l l' : list A) :
  List.find p l = None -> List.find p (l ++ l') = List.find p l'.
Proof.
  induction l as [|a rest IH]; simpl; [reflexivity|].
  destruct (p a); [discriminate|exact IH].
Qed.

(** X5.  Deleting the meal that [add_diet] has just stored, under the id
    it was given, returns [True] and gives back the store as it was before
    the insertion. *)
Theorem add_then_delete_meal env env' uid meal name w :
  in_name meal = Some name -> store_ok env = true -> store_ok env' = true ->
  let added := (add_diet env uid meal w).2 in
  let r := delete_meal env' uid (next_id (map meal_id (meals (db w)))) added in
  r.1 = true /\ db r.2 = db w.
Proof.
  intros Hname Hok Hok'. unfold add_diet, delete_meal. rewrite Hname, Hok, Hok'. cbn.
  set (new := mkMeal (next_id (map meal_id (meals (db w)))) uid name
                     (default 0%Q (in_calories meal)) (default 0%Q (in_proteins meal))
                     (default 0%Q (in_carbs meal)) (default 0%Q (in_fats meal))
                     (utcnow env)).
  assert (Hfind : List.find
            (fun m => Z.eqb (meal_id m) (next_id (map meal_id (meals (db w))))
                      && owned_meal uid m) (meals (db w) ++ [new]) = Some new).
  { rewrite find_after_none.
    - simpl. unfold owned_meal. simpl. rewrite !Z.eqb_refl. reflexivity.
    - destruct (List.find _ (meals (db w))) as [m|] eqn:E; [|reflexivity].
      apply List.find_some in E. destruct E as [Hin Hm].
      apply andb_true_iff in Hm. destruct Hm as [Hid _]. apply Z.eqb_eq in Hid.
      exfalso. apply (next_id_is_fresh (map meal_id (meals (db w)))).
      rewrite <- Hid. apply List.in_map, Hin. }
  rewrite Hfind. cbn. split; [reflexivity|].
  match goal with
  | |- context [List.filter ?p ?l] => replace (List.filter p l) with (meals (db w))
  end.
  - destruct (db w); reflexivity.
  - symmetry. apply (filter_out_fresh_id (meals (db w)) new), next_id_is_fresh.
Qed.

Lemma add_then_delete_meal_witness :
  in_name tofu = Some "Tofu" /\ store_ok store_up = true /\
  db (delete_meal store_up 1 3 (add_diet store_up 1 tofu two_users).2).2 = db two_users.
Proof.
  split; [reflexivity|]. split; [reflexivity|].
  exact (proj2 (add_then_delete_meal store_up store_up 1 tofu "Tofu" two_users
                  eq_refl eq_refl eq_refl)).
Defined.

Lemma manual_filter_keeps_other_ids (rows : list ManualMeal) (id : Z) :
  ~ In id (map manual_id rows) ->
  List.filter (fun r => negb (Z.eqb (manual_id r) id)) rows = rows.
Proof.
  induction rows as [|r rest IH]; intros Hfresh; [reflexivity|]. simpl.
  destruct (Z.eqb_spec (manual_id r) id) as [Heq|Hne].
  - exfalso. apply Hfresh. left. exact Heq.
  - simpl. f_equal. apply IH. intros H. apply Hfresh. right. exact H.
Qed.

(** X6.  A manual meal added with [add_manual_meal] appears at the end of
    the user's list with the given name and the insertion time, and
    [delete_manual_meal] under its id removes it again, giving back the
    store as it was. *)
Theorem add_then_delete_manual_meal env env' uid name w :
  store_ok env = true -> store_ok env' = true ->
  let id := next_id (map manual_id (manual_meals (db w))) in
  let added := add_manual_meal env uid (Some name) w in
  let r := delete_manual_meal env' uid id added.2 in
  added.1 = true /\
  (get_manual_meals env uid added.2).1
    = ((get_manual_meals env uid w).1 ++ [mkManualMeal id uid name (utcnow env)])%list /\
  r.1 = true /\ db r.2 = db w.
Proof.
  intros Hok Hok'. cbv zeta.
  unfold add_manual_meal, delete_manual_meal, get_manual_meals. rewrite Hok, Hok'. cbn.
  set (new := mkManualMeal (next_id (map manual_id (manual_meals (db w)))) uid name
                           (utcnow env)).
  split; [reflexivity|]. split.
  { rewrite filter_snoc. unfold owned_manual at 2. cbn. rewrite Z.eqb_refl. reflexivity. }
  assert (Hfind : List.find
            (fun m => Z.eqb (manual_id m) (next_id (map manual_id (manual_meals (db w))))
                      && owned_manual uid m) (manual_meals (db w) ++ [new]) = Some new).
  { rewrite find_after_none.
    - simpl. unfold owned_manual. simpl. rewrite !Z.eqb_refl. reflexivity.
    - destruct (List.find _ (manual_meals (db w))) as [m|] eqn:E; [|reflexivity].
      apply List.find_some in E. destruct E as [Hin Hm].
      apply andb_true_iff in Hm. destruct Hm as [Hid _]. apply Z.eqb_eq in Hid.
      exfalso. apply (next_id_is_fresh (map manual_id (manual_meals (db w)))).
      rewrite <- Hid. apply List.in_map, Hin. }
  rewrite Hfind. cbn. split; [reflexivity|].
  match goal with
  | |- context [List.filter ?p ?l] => replace (List.filter p l) with (manual_meals (db w))
  end.
  - destruct (db w); reflexivity.
  - symmetry. rewrite filter_snoc. cbn. rewrite Z.eqb_refl. cbn. rewrite app_nil_r.
    apply manual_filter_keeps_other_ids, next_id_is_fresh.
Qed.

Lemma add_then_delete_manual_meal_witness :
  store_ok store_up = true /\
  (add_manual_meal store_up 1 (Some "Ramen") two_users).1 = true /\
  db (delete_manual_meal store_up 1 3
        (add_manual_meal store_up 1 (Some "Ramen") two_users).2).2 = db two_users.
Proof.
  split; [reflexivity|].
  pose proof (add_then_delete_manual_meal store_up store_up 1 "Ramen" two_users
                eq_refl eq_refl) as (Hadded & _ & _ & Hdb).
  split; [exact Hadded|exact Hdb].
Defined.

(** ** Statistics after a change of the store *)

Lemma py_sum_snoc (xs : list Q) (x : Q) : py_sum (xs ++ [x]) = (py_sum xs + x)%Q.
Proof. unfold py_sum. rewrite fold_left_app. reflexivity. Qed.

Lemma meals_after_add_diet env uid meal name w :
  in_name meal = Some name -> store_ok env = true ->
  meals (db (add_diet env uid meal w).2)
  = (meals (db w) ++ [stored_meal env uid name meal w])%list.
Proof. intros Hname Hok. unfold add_diet. rewrite Hname, Hok. reflexivity. Qed.

Lemma summary_of_rows env uid w :
  store_ok env = true ->
  (show_statistics_with_chatbot env uid w).1
  = let rows := List.filter (owned_meal uid) (meals (db w)) in
    mkSummary (py_sum (map (fun meal => or_zero (calories meal)) rows))
              (py_sum (map (fun meal => or_zero (proteins meal)) rows))
              (py_sum (map (fun meal => or_zero (carbs meal)) rows))
              (py_sum (map (fun meal => or_zero (fats meal)) rows)).
Proof.
  intros Hok. unfold show_statistics_with_chatbot, get_diets. rewrite Hok. reflexivity.
Qed.

Arguments py_sum : simpl never.

(** X7.  After a successful [add_diet] each total of the user's summary is
    the former total plus the value stored for the new meal (0 for a
    missing one), and the summary of every other user is as before. *)
Theorem add_diet_adds_to_summary env env_s uid meal name w :
  in_name meal = Some name -> store_ok env = true -> store_ok env_s = true ->
  let s := (show_statistics_with_chatbot env_s uid w).1 in
  let w' := (add_diet env uid meal w).2 in
  let s' := (show_statistics_with_chatbot env_s uid w').1 in
  (current_calories s' == current_calories s + default 0 (in_calories meal))%Q /\
  (current_proteins s' == current_proteins s + default 0 (in_proteins meal))%Q /\
  (current_carbs s' == current_carbs s + default 0 (in_carbs meal))%Q /\
  (current_fats s' == current_fats s + default 0 (in_fats meal))%Q /\
  (forall other, other <> uid ->
     (show_statistics_with_chatbot env_s other w').1
     = (show_statistics_with_chatbot env_s other w).1).
Proof.
  intros Hname Hok Hoks. cbv zeta.
  rewrite !(summary_of_rows env_s) by exact Hoks. cbv zeta.
  rewrite (meals_after_add_diet env uid meal name w Hname Hok).
  split; [|split; [|split; [|split]]].
  1-4: cbn [current_calories current_proteins current_carbs current_fats];
       rewrite filter_snoc; unfold owned_meal at 2, stored_meal; cbn [meal_user_id];
       rewrite Z.eqb_refl, List.map_app; cbn [map calories proteins carbs fats];
       rewrite py_sum_snoc, or_zero_eq; reflexivity.
  intros other Hne. rewrite !(summary_of_rows env_s) by exact Hoks. cbv zeta.
  rewrite (meals_after_add_diet env uid meal name w Hname Hok).
  assert (Hnot : owned_meal other (stored_meal env uid name meal w) = false).
  { unfold owned_meal, stored_meal. cbn [meal_user_id]. apply Z.eqb_neq. congruence. }
  rewrite filter_snoc, Hnot, app_nil_r. reflexivity.
Qed.

Lemma add_diet_adds_to_summary_witness :
  in_name tofu = Some "Tofu" /\ store_ok store_up = true /\
  (current_calories
     (show_statistics_with_chatbot store_up 1 (add_diet store_up 1 tofu two_users).2).1
   == current_calories (show_statistics_with_chatbot store_up 1 two_users).1 + 76)%Q.
Proof.
  split; [reflexivity|]. split; [reflexivity|].
  exact (proj1 (add_diet_adds_to_summary store_up store_up 1 tofu "Tofu" two_users
                  eq_refl eq_refl eq_refl)).
Defined.

(** ** After a reset *)

Lemma filter_owner_of_others {A} (owner : A -> Z) (uid : Z) (rows : list A) :
  List.filter (fun row => Z.eqb (owner row) uid)
              (List.filter (fun row => negb (Z.eqb (owner row) uid)) rows) = [].
Proof.
  induction rows as [|row rest IH]; simpl; [reflexivity|].
  destruct (Z.eqb (owner row) uid) eqn:E; simpl; [exact IH|].
  rewrite E. exact IH.
Qed.

(** X8.  After a reset that commits, the user has no meals and no manual
    meals, every total of the summary is 0 and a backup holds two empty
    lists.  The in-memory translation cache is not cleared: a translation
    memoised before the reset is still served afterwards, and the call
    does not store its row again. *)
Theorem after_reset env env' uid w :
  store_ok env = true -> store_ok env' = true ->
  let w' := (reset_database_tables env uid w).2 in
  (get_diets env' uid w').1 = [] /\
  (get_manual_meals env' uid w').1 = [] /\
  (show_statistics_with_chatbot env' uid w').1 = mkSummary 0 0 0 0 /\
  (backup_data env' uid "json" w').1 = Some (mkBackupDoc (Some []) (Some [])) /\
  (forall env_t text barcode value shown,
      ko_memo w !! (text, barcode) = Some (value, shown) ->
      let r := translate_to_korean_cached env_t text barcode w' in
      r.1 = value /\ product_translations (db r.2) = ∅).
Proof.
  intros Hok Hok'. cbv zeta.
  unfold reset_database_tables, show_statistics_with_chatbot, backup_data,
    get_diets, get_manual_meals.
  rewrite Hok, Hok'. cbn.
  unfold owned_meal, owned_manual.
  rewrite (filter_owner_of_others meal_user_id), (filter_owner_of_others manual_user_id).
  repeat split.
  all: unfold translate_to_korean_cached; cbn; rewrite H; reflexivity.
Qed.

Lemma after_reset_witness :
  store_ok store_up = true /\
  (get_diets store_up 1 (reset_database_tables store_up 1 two_users).2).1 = [] /\
  ko_memo two_users !! ("Milk", Some "880") = Some ("우유", []) /\
  (translate_to_korean_cached translator_down "Milk" (Some "880")
     (reset_database_tables store_up 1 two_users).2).1 = "우유".
Proof.
  assert (Hmemo : ko_memo two_users !! ("Milk", Some "880") = Some ("우유", []))
    by (vm_compute; reflexivity).
  split; [reflexivity|].
  pose proof (after_reset store_up store_up 1 two_users eq_refl eq_refl)
    as (Hdiets & _ & _ & _ & Hserved).
  split; [exact Hdiets|]. split; [exact Hmemo|].
  exact (proj1 (Hserved translator_down "Milk" (Some "880") "우유" [] Hmemo)).
Defined.

(** ** Restoring *)

Lemma add_meal_entries_appends uid entries :
  forall d d', add_meal_entries uid entries d = inr d' ->
  exists added,
    d' = set_meals (meals d ++ added) d /\ length added = length entries /\
    Forall (fun m => meal_user_id m = uid) added.
Proof.
  induction entries as [|meal rest IH]; intros d d'; cbn [add_meal_entries].
  - intros [= <-]. exists []. rewrite set_meals_same. repeat split. constructor.
  - destruct (entry_name meal) as [name|]; [|discriminate].
    destruct (entry_date meal) as [text|]; [|discriminate].
    destruct (strptime text) as [date|]; [|discriminate].
    intros H. destruct (IH _ _ H) as (added & -> & Hlen & Hown).
    eexists (_ :: added). split; [|split].
    + unfold insert_meal, set_meals. cbn [meals users manual_meals product_translations].
      rewrite <- app_assoc. reflexivity.
    + simpl. rewrite Hlen. reflexivity.
    + constructor; [reflexivity|exact Hown].
Qed.

Lemma add_manual_entries_appends uid entries :
  forall d d', add_manual_entries uid entries d = inr d' ->
  exists added,
    d' = set_manual_meals (manual_meals d ++ added) d /\ length added = length entries /\
    Forall (fun m => manual_user_id m = uid) added.
Proof.
  induction entries as [|meal rest IH]; intros d d'; cbn [add_manual_entries].
  - intros [= <-]. exists []. rewrite set_manual_meals_same. repeat split. constructor.
  - destruct (manual_entry_name meal) as [name|]; [|discriminate].
    destruct (manual_entry_date meal) as [text|]; [|discriminate].
    destruct (strptime text) as [date|]; [|discriminate].
    intros H. destruct (IH _ _ H) as (added & -> & Hlen & Hown).
    eexists (_ :: added). split; [|split].
    + unfold insert_manual_meal, set_manual_meals.
      cbn [meals users manual_meals product_translations].
      rewrite <- app_assoc. reflexivity.
    + simpl. rewrite Hlen. reflexivity.
    + constructor; [reflexivity|exact Hown].
Qed.

(** X9.  [restore_data] is all or nothing and only ever adds.  Either it
    commits and asks for a rerun: then every entry of the file has become
    one new row of the restoring user, placed after the rows that were
    there, which are all kept, and the users and translations are
    untouched.  Or it returns [False] with an error shown, and the store is
    exactly as before -- also when the failing entry came after valid ones. *)
Theorem restore_all_or_nothing env uid file format w :
  let r := restore_data env uid file format w in
  (r.1 = Rerun /\
   exists data added madded,
     file = JsonDoc data /\
     meals (db r.2) = (meals (db w) ++ added)%list /\
     manual_meals (db r.2) = (manual_meals (db w) ++ madded)%list /\
     length added = length (default [] (doc_meals data)) /\
     length madded = length (default [] (doc_manual_meals data)) /\
     Forall (fun m => meal_user_id m = uid) added /\
     Forall (fun m => manual_user_id m = uid) madded /\
     users (db r.2) = users (db w) /\
     product_translations (db r.2) = product_translations (db w))
  \/
  (r.1 = Result false /\ db r.2 = db w /\
   exists m, notices r.2 = (notices w ++ [st_error m])%list).
Proof.
  cbv zeta. unfold restore_data.
  destruct (format =? "json")%string; [|right; repeat split; eauto].
  destruct file as [|data]; [right; repeat split; eauto|].
  destruct (add_meal_entries uid (default [] (doc_meals data)) (db w)) as [e|d1] eqn:E1;
    cbn [bind]; [right; repeat split; eauto|].
  destruct (add_manual_entries uid (default [] (doc_manual_meals data)) d1)
    as [e|d2] eqn:E2; cbn [bind]; [right; repeat split; eauto|].
  destruct (store_ok env); [|right; repeat split; eauto].
  left. split; [reflexivity|].
  destruct (add_meal_entries_appends _ _ _ _ E1) as (added & -> & Hlen & Hown).
  destruct (add_manual_entries_appends _ _ _ _ E2) as (madded & -> & Hmlen & Hmown).
  exists data, added, madded. cbn. repeat split; assumption.
Qed.

Lemma filter_old_then_added {A} (owner : A -> Z) (uid : Z) (old added : list A) :
  Forall (fun row => owner row = uid) added ->
  List.filter (fun row => Z.eqb (owner row) uid) (old ++ added)
  = (List.filter (fun row => Z.eqb (owner row) uid) old ++ added)%list.
Proof.
  intros Hadded. rewrite List.filter_app. f_equal.
  induction Hadded as [|row rest Hrow _ IH]; simpl; [reflexivity|].
  rewrite Hrow, Z.eqb_refl, IH. reflexivity.
Qed.

(** X10.  Restoring a backup never replaces what the receiving user
    already has: after it, the user's meals are the former ones followed by
    the meals of the backup (names, nutrition values and timestamps as in
    the backup), and likewise for manual meals.  Restoring one's own backup
    therefore stores every meal a second time. *)
Theorem restore_appends_backup env_b env_r uid uid' w w' :
  store_ok env_b = true -> store_ok env_r = true ->
  (forall m, In m (meals (db w)) -> meal_user_id m = uid ->
             portable (meal_date m) = true) ->
  (forall m, In m (manual_meals (db w)) -> manual_user_id m = uid ->
             portable (manual_date m) = true) ->
  exists backup,
    (backup_data env_b uid "json" w).1 = Some backup /\
    let r := restore_data env_r uid' (JsonDoc backup) "json" w' in
    r.1 = Rerun /\
    map meal_content (get_diets env_r uid' r.2).1
    = (map meal_content (get_diets env_r uid' w').1 ++
       map meal_content (get_diets env_b uid w).1)%list /\
    map manual_content (get_manual_meals env_r uid' r.2).1
    = (map manual_content (get_manual_meals env_r uid' w').1 ++
       map manual_content (get_manual_meals env_b uid w).1)%list.
Proof.
  intros Hb Hr Hdates Hmdates.
  unfold backup_data, get_diets, get_manual_meals. rewrite Hb, Hr. simpl.
  eexists. split; [reflexivity|].
  unfold restore_data. simpl.
  set (rows := List.filter (owned_meal uid) (meals (db w))).
  set (mrows := List.filter (owned_manual uid) (manual_meals (db w))).
  assert (Hrows : forall m, In m rows -> portable (meal_date m) = true).
  { intros m Hin. apply List.filter_In in Hin. destruct Hin as [Hin Hown].
    apply Z.eqb_eq in Hown. exact (Hdates m Hin Hown). }
  assert (Hmrows : forall m, In m mrows -> portable (manual_date m) = true).
  { intros m Hin. apply List.filter_In in Hin. destruct Hin as [Hin Hown].
    apply Z.eqb_eq in Hown. exact (Hmdates m Hin Hown). }
  destruct (add_meal_entries_of_backup uid' rows Hrows (db w'))
    as (added & Hrun & Hcontent & Howner).
  rewrite Hrun. simpl.
  destruct (add_manual_entries_of_backup uid' mrows Hmrows
              (set_meals (meals (db w') ++ added) (db w')))
    as (madded & Hmrun & Hmcontent & Hmowner).
  rewrite Hmrun. simpl. rewrite Hr. simpl.
  split; [reflexivity|]. split.
  - unfold owned_meal.
    rewrite (filter_old_then_added meal_user_id uid' _ added Howner).
    rewrite List.map_app, Hcontent. reflexivity.
  - unfold owned_manual.
    rewrite (filter_old_then_added manual_user_id uid' _ madded Hmowner).
    rewrite List.map_app, Hmcontent. reflexivity.
Qed.

Lemma restore_appends_backup_witness :
  store_ok store_up = true /\
  (forall m, In m (meals (db two_users)) -> meal_user_id m = 1%Z ->
             portable (meal_date m) = true) /\
  exists backup,
    (backup_data store_up 1 "json" two_users).1 = Some backup /\
    (restore_data store_up 2 (JsonDoc backup) "json" two_users).1 = Rerun.
Proof.
  assert (Hmeals : forall m, In m (meals (db two_users)) -> meal_user_id m = 1%Z ->
                             portable (meal_date m) = true).
  { intros m Hin _. vm_compute in Hin. destruct Hin as [<-|[<-|[]]]; reflexivity. }
  assert (Hmanual : forall m, In m (manual_meals (db two_users)) ->
                              manual_user_id m = 1%Z -> portable (manual_date m) = true).
  { intros m Hin _. vm_compute in Hin. destruct Hin as [<-|[<-|[]]]; reflexivity. }
  split; [reflexivity|]. split; [exact Hmeals|].
  destruct (restore_appends_backup store_up store_up 1 2 two_users two_users
              eq_refl eq_refl Hmeals Hmanual) as (backup & Hbackup & Hrerun & _).
  exists backup. split; [exact Hbackup|exact Hrerun].
Defined.

(** ** Accounts and logging in *)

Lemma create_user_succeeds env name pw w :
  (create_user env name pw w).1 = true ->
  store_ok env = true /\ List.find (has_username name) (users (db w)) = None /\
  db (create_user env name pw w).2 = insert_user name (bcrypt_hash env pw) (db w).
Proof.
  unfold create_user. destruct (store_ok env); [|discriminate].
  destruct (List.find (has_username name) (users (db w))); [discriminate|].
  repeat split.
Qed.

Lemma find_user_by_fresh_id (us : list User) (new : User) :
  user_id new = next_id (map user_id us) ->
  List.find (has_user_id (user_id new)) (us ++ [new]) = Some new.
Proof.
  intros Hid. rewrite find_after_none.
  - simpl. unfold has_user_id. rewrite Z.eqb_refl. reflexivity.
  - destruct (List.find _ us) as [u|] eqn:E; [|reflexivity].
    apply List.find_some in E. destruct E as [Hin Hu].
    apply Z.eqb_eq in Hu. exfalso. apply (next_id_is_fresh (map user_id us)).
    rewrite <- Hid, <- Hu. apply List.in_map, Hin.
Qed.

(** X11.  After a sign-up that succeeded, logging in with the same name and
    password succeeds -- in [app.py] and through [auth/login.py] alike --
    provided bcrypt accepts the password against the hash it produced; the
    id returned is the new row's id, and [get_user] on it gives the row
    with that username and the hash (not the password) stored. *)
Theorem signup_then_login env lenv name pw w :
  (create_user env name pw w).1 = true ->
  login_store_ok lenv = true ->
  bcrypt_checkpw lenv pw (bcrypt_hash env pw) = Some true ->
  let d := db (create_user env name pw w).2 in
  let id := next_id (map user_id (users (db w))) in
  login_user lenv name pw d = ((true, login_success, Some id), []) /\
  DataLogin.login lenv name pw d = (true, DataLogin.logged_in_text, Some id) /\
  (get_user true id d).1 = Some (mkUser id name (bcrypt_hash env pw)).
Proof.
  intros Hcreated Hok Hcheck. cbv zeta.
  destruct (create_user_succeeds env name pw w Hcreated) as (_ & Hfind & ->).
  unfold login_user, DataLogin.login, DataLogin.login_user, get_user, insert_user.
  cbn [users]. rewrite Hok.
  rewrite (find_after_none _ _ _ Hfind). cbn [List.find].
  assert (Hn : forall id hashed, has_username name (mkUser id name hashed) = true)
    by (intros; apply String.eqb_refl).
  rewrite Hn. cbn [password user_id]. rewrite Hcheck.
  repeat split.
  apply (find_user_by_fresh_id (users (db w))
           (mkUser (next_id (map user_id (users (db w)))) name (bcrypt_hash env pw))).
  reflexivity.
Qed.

Lemma signup_then_login_witness :
  (create_user store_up "sora" "pw3" two_users).1 = true /\
  bcrypt_checkpw bcrypt_like "pw3" (bcrypt_hash store_up "pw3") = Some true /\
  login_user bcrypt_like "sora" "pw3" (db (create_user store_up "sora" "pw3" two_users).2)
  = ((true, login_success, Some 3%Z), []).
Proof.
  split; [reflexivity|]. split; [reflexivity|].
  exact (proj1 (signup_then_login store_up bcrypt_like "sora" "pw3" two_users
                  eq_refl eq_refl eq_refl)).
Defined.

(** X12.  [login_user] of [app.py] answers an unknown username exactly as
    it answers a known username with a wrong password: same flag, same
    message, no id, nothing displayed.  The function of
    [data/database.py] tells the two cases apart by its message. *)
Theorem login_hides_unknown_username lenv unknown known pw d user :
  login_store_ok lenv = true ->
  List.find (has_username unknown) (users d) = None ->
  List.find (has_username known) (users d) = Some user ->
  bcrypt_checkpw lenv pw (password user) = Some false ->
  login_user lenv unknown pw d = login_user lenv known pw d /\
  login_user lenv unknown pw d = ((false, login_invalid, None), []) /\
  DataLogin.login_user lenv unknown pw d <> DataLogin.login_user lenv known pw d.
Proof.
  intros Hok Hunknown Hknown Hcheck.
  unfold login_user, DataLogin.login_user. rewrite Hok, Hunknown, Hknown, Hcheck.
  repeat split. discriminate.
Qed.

Lemma login_hides_unknown_username_witness :
  List.find (has_username "nobody") (users (db two_users)) = None /\
  List.find (has_username "mina") (users (db two_users))
  = Some (mkUser 1 "mina" "$2b$12$pw1") /\
  login_user bcrypt_like "nobody" "guess" (db two_users)
  = login_user bcrypt_like "mina" "guess" (db two_users).
Proof.
  split; [reflexivity|]. split; [reflexivity|].
  exact (proj1 (login_hides_unknown_username bcrypt_like "nobody" "mina" "guess"
                  (db two_users) (mkUser 1 "mina" "$2b$12$pw1")
                  eq_refl eq_refl eq_refl eq_refl)).
Defined.

(** X13.  Both login functions succeed in exactly the same cases and return
    the same id: when the store answers, a row carries the username and
    bcrypt accepts the password against that row's hash; the id is that
    row's.  In every other case both return no id. *)
Theorem login_succeeds_iff lenv name pw d :
  let '((ok, _, id), _) := login_user lenv name pw d in
  let '(ok', _, id') := DataLogin.login lenv name pw d in
  ok = ok' /\ id = id' /\
  (ok = true <->
   login_store_ok lenv = true /\
   exists user, List.find (has_username name) (users d) = Some user /\
                bcrypt_checkpw lenv pw (password user) = Some true /\
                id = Some (user_id user)) /\
  (ok = false -> id = None).
Proof.
  unfold login_user, DataLogin.login, DataLogin.login_user.
  destruct (login_store_ok lenv).
  2:{ repeat split; try discriminate. intros [H _]. discriminate. }
  destruct (List.find (has_username name) (users d)) as [user|].
  2:{ repeat split; try discriminate. intros (_ & u & H & _). discriminate. }
  destruct (bcrypt_checkpw lenv pw (password user)) as [[|]|] eqn:Hcheck.
  - repeat split; try discriminate. exists user. repeat split. exact Hcheck.
  - repeat split; try discriminate. intros (_ & u & [= <-] & H & _). congruence.
  - repeat split; try discriminate. intros (_ & u & [= <-] & H & _). congruence.
Qed.

(** X14.  [handle_signup] either creates the account, sends the user to the
    login page and asks for a rerun, or -- whenever [create_user] returns
    [False] -- stays on the page, creates nothing and reports that the
    username already exists.  The second case includes a store failure for
    a username that is free. *)
Theorem handle_signup_outcomes env name pw w s :
  let r := handle_signup env name pw w s in
  (store_ok env = true /\ List.find (has_username name) (users (db w)) = None ->
     r = (Reruns, (create_user env name pw w).2, <["page" := SStr "login"]> s,
          [(LvSuccess, signup_done)]) /\
     exists user, In user (users (db r.1.1.2)) /\ username user = name)
  /\
  (store_ok env = false \/ List.find (has_username name) (users (db w)) <> None ->
     r.1.1.1 = Continues /\ r.1.2 = s /\ r.2 = [(LvError, username_taken)] /\
     users (db r.1.1.2) = users (db w))
  /\
  (store_ok env = false ->
     notices r.1.1.2 = (notices w ++ [st_error MsgUserCreateError])%list).
Proof.
  cbv zeta. unfold handle_signup, create_user.
  destruct (store_ok env).
  - destruct (List.find (has_username name) (users (db w))) as [u|] eqn:Hfind.
    + split; [intros [_ Hnone]; discriminate|].
      split; [intros _; repeat split|discriminate].
    + split; [|split].
      * intros _. split; [reflexivity|]. cbn.
        eexists. split; [apply List.in_or_app; right; left; reflexivity|reflexivity].
      * intros [Hf|Hf]; [discriminate|congruence].
      * discriminate.
  - split; [intros [Hf _]; discriminate|].
    split; [intros _; repeat split|intros _; reflexivity].
Qed.

Lemma handle_signup_outcomes_witness :
  store_ok store_up = true /\
  List.find (has_username "mina") (users (db two_users)) <> None /\
  (handle_signup store_up "mina" "other" two_users ∅).1.1.1 = Continues /\
  users (db (handle_signup store_up "mina" "other" two_users ∅).1.1.2)
  = users (db two_users).
Proof.
  assert (Htaken : List.find (has_username "mina") (users (db two_users)) <> None)
    by discriminate.
  split; [reflexivity|]. split; [exact Htaken|].
  pose proof (proj1 (proj2 (handle_signup_outcomes store_up "mina" "other" two_users ∅))
                (or_intror Htaken)) as (Hstays & _ & _ & Husers).
  split; [exact Hstays|exact Husers].
Defined.

(** ** Session state *)

Lemma lookup_after_deletes (keys : list string) (s : gmap string session_value)
    (k : string) :
  fold_left (fun s key => delete key s) keys s !! k
  = if bool_decide (k ∈ keys) then None else s !! k.
Proof.
  revert s. induction keys as [|key rest IH]; intros s; cbn [fold_left].
  - rewrite bool_decide_eq_false_2; [reflexivity|apply not_elem_of_nil].
  - rewrite IH. destruct (decide (k = key)) as [->|Hne].
    + rewrite lookup_delete_eq.
      rewrite (bool_decide_eq_true_2 (key ∈ key :: rest)) by apply list_elem_of_here.
      destruct (bool_decide (key ∈ rest)); reflexivity.
    + rewrite lookup_delete_ne by congruence.
      destruct (decide (k ∈ rest)) as [Hin|Hnotin].
      * rewrite !bool_decide_eq_true_2; [reflexivity|apply list_elem_of_further, Hin|exact Hin].
      * rewrite !bool_decide_eq_false_2; [reflexivity| |exact Hnotin].
        intros H. apply elem_of_cons in H. destruct H; congruence.
Qed.

Lemma key_is_listed (s : gmap string session_value) (k : string) v :
  s !! k = Some v -> In k (map fst (map_to_list s)).
Proof.
  intros H. apply List.in_map_iff. exists (k, v). split; [reflexivity|].
  apply list_elem_of_In. apply elem_of_map_to_list. exact H.
Qed.

Lemma lookup_reset_session_state (s : gmap string session_value) (k : string) :
  reset_session_state s !! k
  = if bool_decide (k ∈ kept_keys) then s !! k else None.
Proof.
  unfold reset_session_state. rewrite lookup_after_deletes.
  destruct (decide (k ∈ kept_keys)) as [Hkept|Hnot].
  - rewrite (bool_decide_eq_true_2 _ Hkept).
    rewrite bool_decide_eq_false_2; [reflexivity|].
    intros Hin. apply list_elem_of_In, List.filter_In in Hin. destruct Hin as [_ Hin].
    rewrite (bool_decide_eq_true_2 _ Hkept) in Hin. discriminate.
  - rewrite (bool_decide_eq_false_2 _ Hnot).
    destruct (s !! k) as [v|] eqn:Hk.
    + rewrite bool_decide_eq_true_2; [reflexivity|].
      apply list_elem_of_In, List.filter_In. split; [exact (key_is_listed s k v Hk)|].
      rewrite (bool_decide_eq_false_2 _ Hnot). reflexivity.
    + destruct (bool_decide _); reflexivity.
Qed.

(** X15.  [reset_session_state] keeps the four identity entries
    ([logged_in], [username], [user_id], [page]) with their values and
    removes every other entry, whatever its key. *)
Theorem reset_session_state_keeps (s : gmap string session_value) :
  (forall k, k ∈ kept_keys -> reset_session_state s !! k = s !! k) /\
  (forall k, k ∉ kept_keys -> reset_session_state s !! k = None).
Proof.
  split; intros k Hk; rewrite lookup_reset_session_state.
  - rewrite (bool_decide_eq_true_2 _ Hk). reflexivity.
  - rewrite (bool_decide_eq_false_2 _ Hk). reflexivity.
Qed.

Lemma reset_session_state_keeps_witness :
  ("page" ∈ kept_keys) /\ ("confirm_reset" ∉ kept_keys) /\
  reset_session_state (<["confirm_reset" := SBool true]> (<["page" := SStr "main"]> ∅))
    !! "page" = Some (SStr "main") /\
  reset_session_state (<["confirm_reset" := SBool true]> (<["page" := SStr "main"]> ∅))
    !! "confirm_reset" = None.
Proof.
  assert (Hkept : "page" ∈ kept_keys) by (apply list_elem_of_In; do 3 right; left; reflexivity).
  assert (Hnot : "confirm_reset" ∉ kept_keys).
  { intros Hin. apply list_elem_of_In in Hin.
    destruct Hin as [H|[H|[H|[H|[]]]]]; discriminate H. }
  split; [exact Hkept|]. split; [exact Hnot|].
  pose proof (reset_session_state_keeps
                (<["confirm_reset" := SBool true]> (<["page" := SStr "main"]> ∅)))
    as (Hkeeps & Hremoves).
  split.
  - rewrite (Hkeeps "page" Hkept). rewrite lookup_insert_ne by discriminate.
    apply lookup_insert_eq.
  - exact (Hremoves "confirm_reset" Hnot).
Defined.

Lemma lookup_set_if_absent key v (s : gmap string session_value) (k : string) :
  set_if_absent key v s !! k
  = match s !! k with
    | Some x => Some x
    | None => if decide (k = key) then Some v else None
    end.
Proof.
  unfold set_if_absent. destruct (s !! key) as [x|] eqn:Hkey.
  - destruct (s !! k) as [y|] eqn:Hk; [reflexivity|].
    destruct (decide (k = key)) as [->|]; [congruence|reflexivity].
  - destruct (decide (k = key)) as [->|Hne].
    + rewrite lookup_insert_eq, Hkey. reflexivity.
    + rewrite lookup_insert_ne by congruence. destruct (s !! k); reflexivity.
Qed.

Lemma lookup_after_defaults (defaults : list (string * session_value))
    (s : gmap string session_value) (k : string) :
  fold_left (fun s kv => set_if_absent kv.1 kv.2 s) defaults s !! k
  = match s !! k with
    | Some x => Some x
    | None => (list_to_map defaults : gmap string session_value) !! k
    end.
Proof.
  revert s. induction defaults as [|[key v] rest IH]; intros s; simpl.
  - rewrite lookup_empty. destruct (s !! k); reflexivity.
  - rewrite IH, lookup_set_if_absent. destruct (s !! k) as [x|]; [reflexivity|].
    destruct (decide (k = key)) as [->|Hne].
    + rewrite lookup_insert_eq. reflexivity.
    + rewrite lookup_insert_ne by congruence. reflexivity.
Qed.

Lemma lookup_initialize_app (s : gmap string session_value) (k : string) :
  initialize_app s !! k
  = match s !! k with
    | Some x => Some x
    | None => (list_to_map app_defaults : gmap string session_value) !! k
    end.
Proof. apply lookup_after_defaults. Qed.

(** X16.  [initialize_app] never overwrites an entry that is present, gives
    each of its ten keys the default when the key is absent, touches no
    other key, and running it again changes nothing. *)
Theorem initialize_app_fills_defaults (s : gmap string session_value) :
  (forall k v, s !! k = Some v -> initialize_app s !! k = Some v) /\
  (forall k v, In (k, v) app_defaults -> s !! k = None ->
               initialize_app s !! k = Some v) /\
  (forall k, ~ In k (map fst app_defaults) -> initialize_app s !! k = s !! k) /\
  initialize_app (initialize_app s) = initialize_app s.
Proof.
  split; [|split; [|split]].
  - intros k v Hk. rewrite lookup_initialize_app, Hk. reflexivity.
  - intros k v Hin Hk. rewrite lookup_initialize_app, Hk.
    simpl in Hin.
    repeat (destruct Hin as [[= <- <-]|Hin]; [vm_compute; reflexivity|]).
    destruct Hin.
  - intros k Hnot. rewrite lookup_initialize_app. destruct (s !! k); [reflexivity|].
    apply not_elem_of_list_to_map_1. intros Hin. apply Hnot.
    apply list_elem_of_In. rewrite <- list_fmap_fst_eq_map in Hin || exact Hin.
  - apply map_eq. intros k. rewrite (lookup_initialize_app (initialize_app s)).
    rewrite lookup_initialize_app. destruct (s !! k); [reflexivity|].
    destruct (list_to_map app_defaults !! k); reflexivity.
Qed.

Lemma initialize_app_fills_defaults_witness :
  initialize_app (<["page" := SStr "login"]> ∅) !! "page" = Some (SStr "login") /\
  initialize_app (<["page" := SStr "login"]> ∅) !! "api_foods_page_size"
  = Some (SInt 10).
Proof.
  pose proof (initialize_app_fills_defaults (<["page" := SStr "login"]> ∅))
    as (Hkept & Hfilled & _).
  split.
  - apply Hkept. reflexivity.
  - apply Hfilled; [|reflexivity]. do 8 right. left. reflexivity.
Defined.

Lemma default_entries :
  (list_to_map app_defaults : gmap string session_value) !! "logged_in"
    = Some (SBool false) /\
  (list_to_map app_defaults : gmap string session_value) !! "page"
    = Some (SStr "start") /\
  (list_to_map app_defaults : gmap string session_value) !! "chatbot_messages"
    = Some (SList []).
Proof. repeat split; vm_compute; reflexivity. Qed.

Lemma main_screen_from_entries (s : gmap string session_value) :
  (main s).1 =
  let logged_in := default (SBool false) (s !! "logged_in") in
  let page := default (SStr "start") (s !! "page") in
  if py_truthy logged_in then MainApp
  else if is_text (Some page) "login" then LoginForm
  else if is_text (Some page) "signup" then SignupPage
  else if is_text (Some page) "start" then StartPage
  else NoScreen.
Proof.
  destruct default_entries as (Hli & Hpg & _).
  unfold main. rewrite !lookup_initialize_app, Hli, Hpg.
  destruct (s !! "logged_in") as [li|]; destruct (s !! "page") as [pg|]; simpl.
  1,2: destruct (py_truthy li); simpl; [reflexivity|].
  1,3: destruct pg as [| text | | | |]; try reflexivity;
       destruct (text =? "login")%string; [reflexivity|];
       destruct (text =? "signup")%string; [reflexivity|];
       destruct (text =? "start")%string; reflexivity.
  all: reflexivity.
Qed.

(** X17.  Which page [main] draws depends only on the [logged_in] and
    [page] entries.  Hence: a session without entries starts on the start
    page; after [logout] the next run draws the start page; after a
    [handle_login] that succeeded it draws the application, with the
    username and id of the account in the session; and
    [reset_session_state] does not change the page drawn, so clearing the
    data does not log the user out. *)
Theorem pages_drawn :
  (main ∅).1 = StartPage /\
  (forall s, (main (logout s).1.2).1 = StartPage) /\
  (forall lenv name pw d s message id,
      (login_user lenv name pw d).1 = (true, message, Some id) ->
      let s' := (handle_login lenv name pw d s).1.2 in
      (main s').1 = MainApp /\
      s' !! "username" = Some (SStr name) /\ s' !! "user_id" = Some (SInt id)) /\
  (forall s, (main (reset_session_state s)).1 = (main s).1).
Proof.
  split; [reflexivity|]. split; [|split].
  - intros s. rewrite main_screen_from_entries. unfold logout. cbn.
    rewrite !lookup_insert_ne by discriminate. rewrite lookup_insert_eq. cbn.
    rewrite lookup_insert_ne by discriminate. rewrite lookup_insert_eq. reflexivity.
  - intros lenv name pw d s message id Hlogin. cbv zeta.
    unfold handle_login. destruct (login_user lenv name pw d) as [[[ok msg] uid] shown].
    cbn in Hlogin. injection Hlogin as -> -> ->. cbn.
    rewrite main_screen_from_entries. cbn.
    rewrite !lookup_insert_ne by discriminate. rewrite !lookup_insert_eq. cbn.
    repeat split.
    + rewrite lookup_insert_ne by discriminate. rewrite lookup_insert_ne by discriminate.
      apply lookup_insert_eq.
    + rewrite lookup_insert_ne by discriminate. apply lookup_insert_eq.
  - intros s. rewrite !main_screen_from_entries, !lookup_reset_session_state.
    reflexivity.
Qed.

Lemma pages_drawn_witness :
  (login_user bcrypt_like "mina" "pw1" (db two_users)).1 = (true, login_success, Some 1%Z) /\
  (main (handle_login bcrypt_like "mina" "pw1" (db two_users) ∅).1.2).1 = MainApp.
Proof.
  split; [reflexivity|].
  exact (proj1 (proj1 (proj2 (proj2 pages_drawn)) bcrypt_like "mina" "pw1" (db two_users)
                  ∅ login_success 1%Z eq_refl)).
Defined.

(** ** Chatbot page *)

Lemma defaults_give_message_list (s : gmap string session_value) :
  initialize_app s !! "chatbot_messages"
  = Some (default (SList []) (s !! "chatbot_messages")).
Proof.
  destruct default_entries as (_ & _ & Hcm).
  rewrite lookup_initialize_app, Hcm. destruct (s !! "chatbot_messages"); reflexivity.
Qed.

Lemma chatbot_page_entries (s : gmap string session_value) :
  set_if_absent "chatbot_messages" (SList [ChatMessage greeting])
    (set_if_absent "confirm_reset" (SBool false) (initialize_app s))
  = set_if_absent "confirm_reset" (SBool false) (initialize_app s) /\
  set_if_absent "confirm_reset" (SBool false) (initialize_app s) !! "chatbot_messages"
  = Some (default (SList []) (s !! "chatbot_messages")).
Proof.
  assert (H : set_if_absent "confirm_reset" (SBool false) (initialize_app s)
              !! "chatbot_messages"
              = Some (default (SList []) (s !! "chatbot_messages"))).
  { rewrite lookup_set_if_absent, defaults_give_message_list. reflexivity. }
  split; [|exact H]. unfold set_if_absent at 1. rewrite H. reflexivity.
Qed.

Lemma shown_messages_of_messages history :
  shown_messages (map ChatMessage history) = ret history.
Proof.
  induction history as [|msg rest IH]; cbn [map shown_messages]; [reflexivity|].
  rewrite IH. reflexivity.
Qed.

Lemma chatbot_tab_without_input provider (s : gmap string session_value) bot :
  (chatbot_tab provider None s bot).1.2
  = set_if_absent "chatbot_messages" (SList [ChatMessage greeting]) s.
Proof.
  unfold chatbot_tab. cbn [truthy].
  destruct (set_if_absent "chatbot_messages" (SList [ChatMessage greeting]) s
              !! "chatbot_messages") as [[b|[|c text]|z| |info|items]|];
    try reflexivity.
  destruct (shown_messages items); reflexivity.
Qed.

(** X18.  On the chatbot page every question is sent to the completion
    service as a two-message conversation -- the system prompt and the
    question -- whatever the history shown on the page: the [Chatbot] is
    built anew on each run of the script.  The history kept in the session
    grows by the question and by the reply; a rate-limit or other provider
    error is turned into a text and stored as that reply. *)
Theorem chatbot_page_sends_two_messages provider text history
    (s : gmap string session_value) :
  text <> "" ->
  default (SList []) (s !! "chatbot_messages") = SMessages history ->
  let sent := [mkChatMessage "system" "You are a helpful counseling assistant.";
               mkChatMessage "user" text] in
  let r := chatbot_page_run provider (Some text) s in
  match provider "gpt-3.5-turbo" sent with
  | Uncaught e =>
      r.1.1 = raise e /\
      r.1.2 !! "chatbot_messages"
      = Some (SMessages (history ++ [mkChatMessage "user" text]))
  | _ =>
      exists reply,
        get_openai_response provider (new_chatbot []) sent = ret reply /\
        r.1.1 = ret tt /\
        r.1.2 !! "chatbot_messages"
        = Some (SMessages (history ++ [mkChatMessage "user" text;
                                       mkChatMessage "assistant" reply])) /\
        current_session r.2 = (sent ++ [mkChatMessage "assistant" reply])%list
  end.
Proof.
  intros Htext Hhistory. cbv zeta. unfold chatbot_page_run, chatbot_tab.
  destruct (chatbot_page_entries s) as [-> Hlist].
  rewrite Hlist, Hhistory. unfold SMessages. cbv beta iota.
  rewrite shown_messages_of_messages. unfold ret at 1. cbv beta iota.
  rewrite (truthy_nonempty text Htext).
  unfold chat, get_openai_response. rewrite (truthy_nonempty text Htext). cbn.
  destruct (provider "gpt-3.5-turbo" _) as [reply| |e|e]; cbn.
  - exists reply. rewrite lookup_insert_eq, <- app_assoc, List.map_app. repeat split.
  - eexists. rewrite lookup_insert_eq, <- app_assoc, List.map_app. repeat split.
  - eexists. rewrite lookup_insert_eq, <- app_assoc, List.map_app. repeat split.
  - rewrite lookup_insert_eq, List.map_app. repeat split.
Qed.

Lemma chatbot_page_sends_two_messages_witness :
  "How much protein?" <> "" /\
  (chatbot_page_run echo_provider (Some "How much protein?") ∅).1.2 !! "chatbot_messages"
  = Some (SMessages [mkChatMessage "user" "How much protein?";
                     mkChatMessage "assistant" "How much protein?"]).
Proof.
  assert (Htext : "How much protein?" <> "") by discriminate.
  split; [exact Htext|].
  assert (Hnew : default (SList []) ((∅ : gmap string session_value) !! "chatbot_messages")
                 = SMessages []) by (rewrite lookup_empty; reflexivity).
  pose proof (chatbot_page_sends_two_messages echo_provider "How much protein?" [] ∅
                Htext Hnew) as H.
  hnf in H. destruct H as (reply & Hreply & _ & Hstored & _).
  injection Hreply as <-. exact Hstored.
Defined.

(** X19.  The greeting of [chatbot_tab] is never put into the session by a
    run of the script: [initialize_app] has already stored an empty
    list, so the page opens with the stored history (empty for a new
    session) and, without a question, leaves it as it is. *)
Theorem greeting_is_never_stored provider (s : gmap string session_value) :
  (chatbot_page_run provider None s).1.2 !! "chatbot_messages"
  = Some (default (SList []) (s !! "chatbot_messages")) /\
  (s !! "chatbot_messages" = None ->
   (chatbot_page_run provider None s).1.2 !! "chatbot_messages" = Some (SMessages []) /\
   (chatbot_tab provider None s (new_chatbot [])).1.2 !! "chatbot_messages"
   = Some (SMessages [greeting])).
Proof.
  unfold chatbot_page_run. rewrite !chatbot_tab_without_input.
  destruct (chatbot_page_entries s) as [-> Hlist].
  split; [exact Hlist|]. intros Habsent. split.
  - rewrite Hlist, Habsent. reflexivity.
  - unfold set_if_absent. rewrite Habsent. apply lookup_insert_eq.
Qed.

Lemma greeting_is_never_stored_witness :
  (∅ : gmap string session_value) !! "chatbot_messages" = None /\
  (chatbot_page_run echo_provider None ∅).1.2 !! "chatbot_messages" = Some (SMessages []).
Proof.
  split; [reflexivity|].
  exact (proj1 (proj2 (greeting_is_never_stored echo_provider ∅) eq_refl)).
Defined.

(** ** Food search: the first outcome that is not a transport failure *)

Lemma backoff_delay_not_negative (b : Q) attempt :
  (0 <= b)%Q -> Qle_bool 0 (backoff_delay b attempt) = true.
Proof.
  intros Hb. apply Qle_bool_iff. unfold backoff_delay.
  apply Qmult_le_0_compat; [exact Hb|].
  change 0%Q with (inject_Z 0). rewrite <- Zle_Qle. apply Z.pow_nonneg. lia.
Qed.

Lemma search_attempts_after_failures net max_retries (b : Q) k :
  (0 <= b)%Q ->
  forall first rest w,
    (forall attempt, first <= attempt < first + k ->
                     exists e, net attempt = TransportFailure e) ->
    search_attempts net max_retries b (seq first k ++ rest) w
    = search_attempts net max_retries b rest
        (after_failed_attempts max_retries b (seq first k) w).
Proof.
  intros Hb. induction k as [|k IH]; intros first rest w Hfail; [reflexivity|].
  cbn [seq app search_attempts].
  destruct (Hfail first ltac:(lia)) as [e ->].
  rewrite (backoff_delay_not_negative b first Hb).
  rewrite IH by (intros attempt Ha; apply Hfail; lia). reflexivity.
Qed.

Lemma attempts_split k n : k < n -> seq 0 n = (seq 0 k ++ k :: seq (S k) (n - S k))%list.
Proof.
  intros Hk. replace n with (k + S (n - S k)) at 1 by lia.
  rewrite List.seq_app. reflexivity.
Qed.

(** X20.  If the first [k] attempts meet transport failures and attempt
    [k] (still within [max_retries]) is answered, [search_food] returns the
    products of that answer after [k + 1] requests and [k] sleeps of
    [backoff_factor * 2^attempt] seconds, having shown the [k] retry
    notices and no failure notice. *)
Theorem search_succeeds_after_failures env net query max_retries (b : Q) w k data :
  (0 <= b)%Q -> k < max_retries ->
  (forall attempt, attempt < k -> exists e, net attempt = TransportFailure e) ->
  net k = Response data ->
  let r := search_food env net query max_retries b w in
  r.1 = ret (default [] (products data)) /\
  requests_sent r.2 = requests_sent w + k + 1 /\
  slept r.2 = (slept w ++ map (backoff_delay b) (seq 0 k))%list /\
  notices r.2 =
    (notices (translate_query env query w).2 ++
     map (fun attempt => st_error (MsgApiRetry (attempt + 1) max_retries)) (seq 0 k))%list.
Proof.
  intros Hb Hk Hfail Hanswer. cbv zeta. unfold search_food.
  pose proof (translate_query_effects env query w) as (Hreq0 & Hslept0 & _).
  destruct (translate_query env query w) as [translated_query w2]; cbn [fst snd] in *.
  rewrite (attempts_split k max_retries Hk).
  rewrite search_attempts_after_failures; [|exact Hb|intros a Ha; apply Hfail; lia].
  cbn [search_attempts]. rewrite Hanswer. cbn [fst snd].
  destruct (after_failed_attempts_effects max_retries b (seq 0 k) w2)
    as (Hreq & Hslept & Hnotes & _ & _).
  cbn [requests_sent slept notices count_request].
  rewrite Hreq, Hslept, Hnotes, Hreq0, Hslept0, length_seq.
  repeat split. lia.
Qed.

Lemma search_succeeds_after_failures_witness :
  (0 <= default_backoff_factor)%Q /\ 2 < default_max_retries /\
  answers_third_time 2 = Response (mkSearchData (Some [chicken_breast])) /\
  (search_food translator_up answers_third_time "닭가슴살" default_max_retries
               default_backoff_factor initial_world).1 = ret [chicken_breast] /\
  requests_sent (search_food translator_up answers_third_time "닭가슴살"
                             default_max_retries default_backoff_factor initial_world).2
  = 3.
Proof.
  assert (Hb : (0 <= default_backoff_factor)%Q) by discriminate.
  assert (Hk : 2 < default_max_retries) by (unfold default_max_retries; lia).
  assert (Hfail : forall attempt, attempt < 2 ->
                    exists e, answers_third_time attempt = TransportFailure e).
  { intros attempt Ha. exists Timeout. unfold answers_third_time.
    destruct (Nat.ltb_spec attempt 2); [reflexivity|lia]. }
  split; [exact Hb|]. split; [exact Hk|]. split; [reflexivity|].
  pose proof (search_succeeds_after_failures translator_up answers_third_time "닭가슴살"
                default_max_retries default_backoff_factor initial_world 2
                (mkSearchData (Some [chicken_breast])) Hb Hk Hfail eq_refl)
    as (Hfound & Hrequests & _).
  split; [exact Hfound|exact Hrequests].
Defined.

(** X21.  An HTTP error (or a body that is not JSON) is never retried: if
    it comes at attempt [k] after [k] transport failures, no further
    request is made and no further sleep; the error is shown, then the
    failure notice, and the result is the empty list. *)
Theorem search_aborts_on_http_error env net query max_retries (b : Q) w k :
  (0 <= b)%Q -> k < max_retries ->
  (forall attempt, attempt < k -> exists e, net attempt = TransportFailure e) ->
  net k = HTTPError \/ net k = BodyNotJson ->
  let r := search_food env net query max_retries b w in
  r.1 = ret [] /\
  requests_sent r.2 = requests_sent w + k + 1 /\
  slept r.2 = (slept w ++ map (backoff_delay b) (seq 0 k))%list /\
  notices r.2 =
    (notices (translate_query env query w).2 ++
     map (fun attempt => st_error (MsgApiRetry (attempt + 1) max_retries)) (seq 0 k) ++
     [st_error (match net k with HTTPError => MsgHttpError | _ => MsgUnexpected end);
      st_error MsgSearchFailed])%list.
Proof.
  intros Hb Hk Hfail Habort. cbv zeta. unfold search_food.
  pose proof (translate_query_effects env query w) as (Hreq0 & Hslept0 & _).
  destruct (translate_query env query w) as [translated_query w2]; cbn [fst snd] in *.
  rewrite (attempts_split k max_retries Hk).
  rewrite search_attempts_after_failures; [|exact Hb|intros a Ha; apply Hfail; lia].
  cbn [search_attempts].
  destruct (after_failed_attempts_effects max_retries b (seq 0 k) w2)
    as (Hreq & Hslept & Hnotes & _ & _).
  destruct Habort as [-> | ->]; cbn [fst snd requests_sent slept notices show count_request].
  all: rewrite Hreq, Hslept, Hnotes, Hreq0, Hslept0, length_seq, <- !app_assoc.
  all: repeat split; lia.
Qed.

Lemma search_aborts_on_http_error_witness :
  (0 <= default_backoff_factor)%Q /\ 1 < default_max_retries /\
  refuses_second_time 1 = HTTPError /\
  (search_food translator_up refuses_second_time "닭가슴살" default_max_retries
               default_backoff_factor initial_world).1 = ret [] /\
  requests_sent (search_food translator_up refuses_second_time "닭가슴살"
                             default_max_retries default_backoff_factor initial_world).2
  = 2.
Proof.
  assert (Hb : (0 <= default_backoff_factor)%Q) by discriminate.
  assert (Hk : 1 < default_max_retries) by (unfold default_max_retries; lia).
  assert (Hfail : forall attempt, attempt < 1 ->
                    exists e, refuses_second_time attempt = TransportFailure e).
  { intros attempt Ha. exists Timeout. unfold refuses_second_time.
    destruct (Nat.ltb_spec attempt 1); [reflexivity|lia]. }
  split; [exact Hb|]. split; [exact Hk|]. split; [reflexivity|].
  pose proof (search_aborts_on_http_error translator_up refuses_second_time "닭가슴살"
                default_max_retries default_backoff_factor initial_world 1
                Hb Hk Hfail (or_introl eq_refl))
    as (Hfound & Hrequests & _).
  split; [exact Hfound|exact Hrequests].
Defined.

(** X22.  With a negative [backoff_factor] the first transport failure does
    not lead to a retry: [time.sleep] refuses the negative delay and its
    [ValueError] leaves [search_food], after one request and the first
    retry notice, without any sleep and without the failure notice. *)
Theorem search_raises_on_negative_backoff env net query max_retries (b : Q) w e :
  (b < 0)%Q -> 0 < max_retries -> net 0 = TransportFailure e ->
  let r := search_food env net query max_retries b w in
  r.1 = raise ValueError /\
  requests_sent r.2 = requests_sent w + 1 /\
  slept r.2 = slept w /\
  notices r.2 =
    (notices (translate_query env query w).2 ++
     [st_error (MsgApiRetry 1 max_retries)])%list.
Proof.
  intros Hb Hn Hfail. cbv zeta. unfold search_food.
  pose proof (translate_query_effects env query w) as (Hreq0 & Hslept0 & _).
  destruct (translate_query env query w) as [translated_query w2]; cbn [fst snd] in *.
  destruct max_retries as [|n]; [lia|]. cbn [seq search_attempts]. rewrite Hfail.
  assert (Hneg : Qle_bool 0 (backoff_delay b 0) = false).
  { destruct (Qle_bool 0 (backoff_delay b 0)) eqn:E; [|reflexivity].
    apply Qle_bool_iff in E. unfold backoff_delay in E.
    change (inject_Z (2 ^ Z.of_nat 0)) with 1%Q in E. rewrite Qmult_1_r in E.
    exfalso. apply (Qlt_irrefl 0). eapply Qle_lt_trans; eassumption. }
  rewrite Hneg. cbn [fst snd requests_sent slept notices show count_request].
  rewrite Hreq0, Hslept0. repeat split. lia.
Qed.

Lemma search_raises_on_negative_backoff_witness :
  (- (3 # 10) < 0)%Q /\ 0 < default_max_retries /\
  (search_food translator_up always_reset "닭가슴살" default_max_retries
               (- (3 # 10)) initial_world).1 = raise ValueError.
Proof.
  assert (Hb : (- (3 # 10) < 0)%Q) by reflexivity.
  assert (Hn : 0 < default_max_retries) by (unfold default_max_retries; lia).
  split; [exact Hb|]. split; [exact Hn|].
  exact (proj1 (search_raises_on_negative_backoff translator_up always_reset "닭가슴살"
                  default_max_retries (- (3 # 10)) initial_world ConnectionError
                  Hb Hn eq_refl)).
Defined.

(** ** The product listing *)

Lemma listing_record_fields env product w :
  let d := (listing_record env product w).1 in
  display_barcode d = default no_barcode (code product) /\
  display_manufacturer d = respace no_manufacturer (brands product) /\
  display_categories d = respace no_category (categories product).
Proof.
  cbv zeta. unfold listing_record.
  destruct (negb (default no_barcode (code product) =? no_barcode)%string);
    destruct (truthy (product_name_KR product));
    destruct (truthy (product_name product)); cbn [fst snd]; auto.
  all: match goal with
       | |- context [translate_to_korean_cached ?e ?t ?b ?w] =>
           destruct (translate_to_korean_cached e t b w)
       | |- context [translate_to_korean_cached_text ?e ?t ?w] =>
           destruct (translate_to_korean_cached_text e t w)
       end; cbn; auto.
Qed.

Lemma listing_record_requests env product w :
  requests_sent (listing_record env product w).2 = requests_sent w.
Proof.
  unfold listing_record.
  assert (H : forall text barcode,
             requests_sent (translate_to_korean_cached env text barcode w).2
             = requests_sent w).
  { intros text barcode. unfold translate_to_korean_cached, translate_to_korean.
    destruct (ko_memo w !! (text, barcode)) as [[value shown]|]; [reflexivity|].
    unfold translate_to_korean_try.
    destruct (truthy barcode); [destruct (query_ok env)|]; cbn; try reflexivity.
    - destruct (product_translations (db w) !! s); cbn; [reflexivity|].
      destruct (translator_reply env text); cbn; [|reflexivity].
      destruct (commit_ok env); reflexivity.
    - destruct (translator_reply env text); reflexivity. }
  destruct (negb (default no_barcode (code product) =? no_barcode)%string);
    destruct (truthy (product_name_KR product));
    destruct (truthy (product_name product)); cbn [fst snd]; try reflexivity.
  all: match goal with
       | |- context [translate_to_korean_cached ?e ?t ?b ?w] =>
           pose proof (H t b) as Hr;
           destruct (translate_to_korean_cached e t b w)
       | |- context [translate_to_korean_cached_text ?e ?t ?w] =>
           pose proof (proj2 (translate_cached_text_effects e t w)) as Hr;
           destruct (translate_to_korean_cached_text e t w)
       end; exact Hr.
Qed.

Lemma listing_records_fields env products w :
  let r := listing_records env products w in
  map display_barcode r.1 = map (fun p => default no_barcode (code p)) products /\
  map display_manufacturer r.1 = map (fun p => respace no_manufacturer (brands p)) products /\
  map display_categories r.1 = map (fun p => respace no_category (categories p)) products /\
  requests_sent r.2 = requests_sent w.
Proof.
  cbv zeta. revert w. induction products as [|product rest IH]; intros w;
    cbn [listing_records map]; [auto|].
  pose proof (listing_record_fields env product w) as (Hb & Hm & Hc).
  pose proof (listing_record_requests env product w) as Hr.
  destruct (listing_record env product w) as [d w1].
  specialize (IH w1). destruct (listing_records env rest w1) as [ds w2].
  cbn [fst snd map] in *. destruct IH as (IHb & IHm & IHc & IHr).
  rewrite Hb, Hm, Hc, IHb, IHm, IHc, IHr, Hr. auto.
Qed.

(** X23.  When the listing request is answered, [get_api_foods_cached]'s
    body yields one record per product, in the order of the answer: none
    is dropped (a product without a name is listed too), each carries the
    product's code or the no-barcode marker, and its brands and categories
    with ", " between the comma-separated pieces; one request is sent. *)
Theorem listing_keeps_every_product env net page page_size w data :
  net page page_size = Response data ->
  let r := get_api_foods env net page page_size w in
  let listed := default [] (products data) in
  length r.1 = length listed /\
  map display_barcode r.1 = map (fun p => default no_barcode (code p)) listed /\
  map display_manufacturer r.1 = map (fun p => respace no_manufacturer (brands p)) listed /\
  map display_categories r.1 = map (fun p => respace no_category (categories p)) listed /\
  requests_sent r.2 = S (requests_sent w).
Proof.
  intros Hnet. cbv zeta. unfold get_api_foods. rewrite Hnet.
  pose proof (listing_records_fields env (default [] (products data)) (count_request w))
    as (Hb & Hm & Hc & Hr).
  repeat split; try assumption.
  rewrite <- (length_map display_barcode), Hb, length_map. reflexivity.
Qed.

Lemma listing_keeps_every_product_witness :
  one_page [chicken_breast; nameless_product] 1 10
  = Response (mkSearchData (Some [chicken_breast; nameless_product])) /\
  map display_barcode
      (get_api_foods translator_up (one_page [chicken_breast; nameless_product]) 1 10
                     initial_world).1
  = ["123"; "123"] /\
  map display_manufacturer
      (get_api_foods translator_up (one_page [chicken_breast; nameless_product]) 1 10
                     initial_world).1
  = ["Acme, Foods"; "Acme, Foods"].
Proof.
  split; [reflexivity|].
  pose proof (listing_keeps_every_product translator_up
                (one_page [chicken_breast; nameless_product]) 1 10 initial_world
                (mkSearchData (Some [chicken_breast; nameless_product])) eq_refl)
    as (_ & Hcodes & Hbrands & _).
  split; [exact Hcodes|exact Hbrands].
Defined.

Lemma listing_records_localized env products w :
  (forall p, In p products ->
             default no_barcode (code p) <> no_barcode /\
             exists name, truthy (product_name_KR p) = Some name) ->
  (listing_records env products w).2 = w /\
  map (fun d => Some (display_name d)) (listing_records env products w).1
  = map (fun p => truthy (product_name_KR p)) products.
Proof.
  induction products as [|product rest IH]; intros Hall; cbn [listing_records map];
    [auto|].
  destruct (Hall product (or_introl eq_refl)) as (Hcode & name & Hname).
  assert (Hrec : listing_record env product w
                 = (mkDisplay name (default no_barcode (code product))
                      (respace no_manufacturer (brands product))
                      (respace no_category (categories product)), w)).
  { unfold listing_record. apply String.eqb_neq in Hcode. rewrite Hcode, Hname.
    reflexivity. }
  rewrite Hrec. destruct IH as (IHw & IHn); [intros p Hp; apply Hall; right; exact Hp|].
  destruct (listing_records env rest w) as [ds w2]. cbn [fst snd map] in *.
  rewrite IHw, IHn, Hname. auto.
Qed.

(** X24.  A page whose products all carry a code and a pre-localized name
    is listed under those names without any use of the translation cache:
    no call to the translation service, no read or write of the store, no
    notice; the only effect is the request itself. *)
Theorem localized_listing_needs_no_translation env net page page_size w data :
  net page page_size = Response data ->
  (forall p, In p (default [] (products data)) ->
             default no_barcode (code p) <> no_barcode /\
             exists name, truthy (product_name_KR p) = Some name) ->
  let r := get_api_foods env net page page_size w in
  r.2 = count_request w /\
  map (fun d => Some (display_name d)) r.1
  = map (fun p => truthy (product_name_KR p)) (default [] (products data)).
Proof.
  intros Hnet Hall. cbv zeta. unfold get_api_foods. rewrite Hnet.
  apply listing_records_localized, Hall.
Qed.

Lemma localized_listing_needs_no_translation_witness :
  one_page [seoul_milk] 1 10 = Response (mkSearchData (Some [seoul_milk])) /\
  (get_api_foods translator_down (one_page [seoul_milk]) 1 10 initial_world).2
  = count_request initial_world /\
  map (fun d => Some (display_name d))
      (get_api_foods translator_down (one_page [seoul_milk]) 1 10 initial_world).1
  = [Some "서울우유"].
Proof.
  split; [reflexivity|].
  apply (localized_listing_needs_no_translation translator_down (one_page [seoul_milk])
           1 10 initial_world (mkSearchData (Some [seoul_milk])) eq_refl).
  intros p [<-|[]]. split; [discriminate|]. exists "서울우유". reflexivity.
Defined.

Lemma listing_is_memoised env net page page_size w :
  exists shown,
    foods_memo (get_api_foods_cached env net page page_size w).2 !! (page, page_size)
    = Some ((get_api_foods_cached env net page page_size w).1, shown).
Proof.
  unfold get_api_foods_cached.
  destruct (foods_memo w !! (page, page_size)) as [[value shown]|] eqn:Hmemo.
  - exists shown. exact Hmemo.
  - destruct (get_api_foods env net page page_size w) as [value w'].
    eexists. cbn [fst snd foods_memo set_foods_memo]. apply lookup_insert_eq.
Qed.

(** X25.  A page that has been listed once is answered from memory
    afterwards, whatever the services would answer then: the same records,
    no request, no call to the translation service, the store untouched. *)
Theorem listing_is_replayed env net env' net' page page_size w :
  let r1 := get_api_foods_cached env net page page_size w in
  let r2 := get_api_foods_cached env' net' page page_size r1.2 in
  r2.1 = r1.1 /\ requests_sent r2.2 = requests_sent r1.2 /\
  live_calls r2.2 = live_calls r1.2 /\ db r2.2 = db r1.2 /\
  foods_memo r2.2 = foods_memo r1.2.
Proof.
  cbv zeta. destruct (listing_is_memoised env net page page_size w) as [shown Hmemo].
  remember (get_api_foods_cached env net page page_size w) as r1.
  unfold get_api_foods_cached. rewrite Hmemo. cbn [fst snd]. auto.
Qed.

(** X26.  A failed listing is remembered like a successful one: when the
    request for a page not yet in memory fails, the empty list is stored
    for that page, and the next call returns the empty list and shows the
    same error again without sending a request -- also when the service
    would answer by then. *)
Theorem failed_listing_is_remembered env net env' net' page page_size w :
  foods_memo w !! (page, page_size) = None ->
  (forall data, net page page_size <> Response data) ->
  let r1 := get_api_foods_cached env net page page_size w in
  let r2 := get_api_foods_cached env' net' page page_size r1.2 in
  r1.1 = [] /\ r2.1 = [] /\
  requests_sent r1.2 = S (requests_sent w) /\
  requests_sent r2.2 = requests_sent r1.2 /\
  exists error,
    notices r1.2 = (notices w ++ [st_error error])%list /\
    notices r2.2 = (notices w ++ [st_error error; st_error error])%list.
Proof.
  intros Hmemo Hfail. cbv zeta.
  assert (Hfirst : exists error,
            get_api_foods env net page page_size w
            = ([], show [st_error error] (count_request w))).
  { unfold get_api_foods. destruct (net page page_size);
      try (eexists; reflexivity). exfalso. eapply Hfail. reflexivity. }
  destruct Hfirst as [error Hfirst].
  assert (H1 : get_api_foods_cached env net page page_size w
               = ([], set_foods_memo
                        (<[(page, page_size) := ([], [st_error error])]>
                           (foods_memo w))
                        (show [st_error error] (count_request w)))).
  { unfold get_api_foods_cached. rewrite Hmemo, Hfirst.
    cbn [notices show count_request foods_memo].
    rewrite drop_app_length. reflexivity. }
  rewrite H1. cbn [fst snd].
  unfold get_api_foods_cached. cbn [foods_memo set_foods_memo].
  rewrite lookup_insert_eq. cbn. rewrite <- app_assoc.
  repeat split. exists error. split; reflexivity.
Qed.

Lemma failed_listing_is_remembered_witness :
  foods_memo initial_world !! (1, 10) = None /\
  (forall data, listing_refused 1 10 <> Response data) /\
  (get_api_foods_cached translator_up (one_page [chicken_breast]) 1 10
     (get_api_foods_cached translator_up listing_refused 1 10 initial_world).2).1 = [] /\
  requests_sent
    (get_api_foods_cached translator_up (one_page [chicken_breast]) 1 10
       (get_api_foods_cached translator_up listing_refused 1 10 initial_world).2).2 = 1.
Proof.
  assert (Hrefused : forall data, listing_refused 1 10 <> Response data)
    by (intros data; discriminate).
  split; [reflexivity|]. split; [exact Hrefused|].
  pose proof (failed_listing_is_remembered translator_up listing_refused translator_up
                (one_page [chicken_breast]) 1 10 initial_world eq_refl Hrefused)
    as (_ & Hempty & Hfirst & Hsecond & _).
  split; [exact Hempty|]. rewrite Hsecond. exact Hfirst.
Defined.

(** ** The translation table is written once per barcode *)

Lemma translate_try_keeps_translations env text barcode w :
  product_translations (db w)
  ⊆ product_translations (db (translate_to_korean_try env text barcode w).2).
Proof.
  unfold translate_to_korean_try.
  destruct (truthy barcode) as [b|]; [destruct (query_ok env)|]; cbn; try reflexivity.
  - destruct (product_translations (db w) !! b) eqn:Hrow; cbn; [reflexivity|].
    destruct (translator_reply env text); cbn; [|reflexivity].
    destruct (commit_ok env); cbn; [|reflexivity].
    apply insert_subseteq, Hrow.
  - destruct (translator_reply env text); reflexivity.
Qed.

Lemma translate_cached_keeps_translations env text barcode w :
  product_translations (db w)
  ⊆ product_translations (db (translate_to_korean_cached env text barcode w).2).
Proof.
  unfold translate_to_korean_cached, translate_to_korean.
  destruct (ko_memo w !! (text, barcode)) as [[value shown]|]; [reflexivity|].
  pose proof (translate_try_keeps_translations env text barcode w) as H.
  destruct (translate_to_korean_try env text barcode w) as [[e|translation] w'];
    exact H.
Qed.

Lemma listing_record_keeps_translations env product w :
  product_translations (db w)
  ⊆ product_translations (db (listing_record env product w).2).
Proof.
  unfold listing_record.
  destruct (negb (default no_barcode (code product) =? no_barcode)%string);
    destruct (truthy (product_name_KR product));
    destruct (truthy (product_name product)); cbn [fst snd]; try reflexivity.
  all: match goal with
       | |- context [translate_to_korean_cached ?e ?t ?b ?w] =>
           pose proof (translate_cached_keeps_translations e t b w);
           destruct (translate_to_korean_cached e t b w)
       | |- context [translate_to_korean_cached_text ?e ?t ?w] =>
           pose proof (proj1 (translate_cached_text_effects e t w)) as Hdb;
           destruct (translate_to_korean_cached_text e t w); cbn [snd] in *;
           rewrite Hdb; reflexivity
       end; assumption.
Qed.

Lemma listing_records_keep_translations env products w :
  product_translations (db w)
  ⊆ product_translations (db (listing_records env products w).2).
Proof.
  revert w. induction products as [|product rest IH]; intros w; cbn [listing_records];
    [reflexivity|].
  pose proof (listing_record_keeps_translations env product w) as H1.
  destruct (listing_record env product w) as [d w1].
  pose proof (IH w1) as H2.
  destruct (listing_records env rest w1) as [ds w2]. cbn [fst snd] in *.
  etrans; eassumption.
Qed.

Lemma get_api_foods_cached_keeps_translations env net page page_size w :
  product_translations (db w)
  ⊆ product_translations (db (get_api_foods_cached env net page page_size w).2).
Proof.
  unfold get_api_foods_cached.
  destruct (foods_memo w !! (page, page_size)) as [[value shown]|]; [reflexivity|].
  assert (H : product_translations (db w)
              ⊆ product_translations (db (get_api_foods env net page page_size w).2)).
  { unfold get_api_foods. destruct (net page page_size); cbn; try reflexivity.
    apply (listing_records_keep_translations env _ (count_request w)). }
  destruct (get_api_foods env net page page_size w) as [value w']. exact H.
Qed.

Lemma add_meal_entries_translations uid entries d d' :
  add_meal_entries uid entries d = inr d' ->
  product_translations d' = product_translations d.
Proof.
  revert d. induction entries as [|meal rest IH]; intros d; cbn [add_meal_entries].
  - intros [= <-]. reflexivity.
  - destruct (entry_name meal); [|discriminate].
    destruct (entry_date meal) as [text|]; [|discriminate].
    destruct (strptime text); [|discriminate].
    intros H. rewrite (IH _ H). reflexivity.
Qed.

Lemma add_manual_entries_translations uid entries d d' :
  add_manual_entries uid entries d = inr d' ->
  product_translations d' = product_translations d.
Proof.
  revert d. induction entries as [|meal rest IH]; intros d; cbn [add_manual_entries].
  - intros [= <-]. reflexivity.
  - destruct (manual_entry_name meal); [|discriminate].
    destruct (manual_entry_date meal) as [text|]; [|discriminate].
    destruct (strptime text); [|discriminate].
    intros H. rewrite (IH _ H). reflexivity.
Qed.

Lemma perform_keeps_translations w op :
  is_reset op = false ->
  product_translations (db w) ⊆ product_translations (db (perform w op)).
Proof.
  destruct op; cbn [perform is_reset]; intros Hop.
  - unfold create_user. destruct (store_ok env); [|reflexivity].
    destruct (List.find (has_username name) (users (db w))); reflexivity.
  - unfold DataDatabase.create_user. destruct (store_ok env); [|reflexivity].
    destruct (List.find (has_username name) (users (db w))); reflexivity.
  - unfold add_diet. destruct (in_name meal); [|reflexivity].
    destruct (store_ok env); reflexivity.
  - unfold add_manual_meal. destruct name; [|reflexivity].
    destruct (store_ok env); reflexivity.
  - unfold delete_meal. destruct (store_ok env); [|reflexivity].
    destruct (List.find _ (meals (db w))); reflexivity.
  - unfold delete_manual_meal. destruct (store_ok env); [|reflexivity].
    destruct (List.find _ (manual_meals (db w))); reflexivity.
  - discriminate.
  - unfold restore_data. destruct (format =? "json")%string; [|reflexivity].
    destruct file as [|data]; [reflexivity|].
    destruct (add_meal_entries uid (default [] (doc_meals data)) (db w)) as [e|d1] eqn:E1;
      [reflexivity|].
    cbn [bind].
    destruct (add_manual_entries uid (default [] (doc_manual_meals data)) d1)
      as [e|d2] eqn:E2; [reflexivity|].
    cbn [bind]. destruct (store_ok env); [|reflexivity].
    cbn. rewrite (add_manual_entries_translations _ _ _ _ E2),
      (add_meal_entries_translations _ _ _ _ E1). reflexivity.
  - unfold backup_data. destruct (store_ok env); [|reflexivity].
    destruct (format =? "json")%string; reflexivity.
  - unfold show_statistics_with_chatbot, get_diets. destruct (store_ok env); reflexivity.
  - apply translate_cached_keeps_translations.
  - apply get_api_foods_cached_keeps_translations.
  - rewrite search_food_db. reflexivity.
Qed.

(** X27.  Only the reset removes or changes a stored translation: through
    any sequence of the other operations (translating the product under
    another text, listing, searching, adding, deleting, restoring a
    backup, signing up) the row of a barcode keeps its text. *)
Theorem stored_translation_outlives_all_but_reset ops w barcode translated_name :
  (forall op, In op ops -> is_reset op = false) ->
  product_translations (db w) !! barcode = Some translated_name ->
  product_translations (db (run ops w)) !! barcode = Some translated_name.
Proof.
  revert w. induction ops as [|op rest IH]; intros w Hops Hrow; cbn [run fold_left];
    [exact Hrow|].
  apply (IH (perform w op)); [intros op' Hin; apply Hops; right; exact Hin|].
  eapply lookup_weaken; [exact Hrow|].
  apply perform_keeps_translations, Hops. left. reflexivity.
Qed.

Lemma stored_translation_outlives_all_but_reset_witness :
  product_translations (db two_users) !! "880" = Some "우유" /\
  product_translations
    (db (run [TranslateKorean translator_up "Chicken Breast" (Some "880");
              DeleteMeal store_up 2 2;
              ListFoods translator_up (one_page [seoul_milk; chicken_breast]) 1 10]
             two_users)) !! "880" = Some "우유".
Proof.
  assert (Hrow : product_translations (db two_users) !! "880" = Some "우유")
    by (vm_compute; reflexivity).
  split; [exact Hrow|].
  apply stored_translation_outlives_all_but_reset; [|exact Hrow].
  intros op [<-|[<-|[<-|[]]]]; reflexivity.
Defined.

(** X28.  One call of [translate_to_korean_cached] adds at most the row of
    its own barcode, holding the text it returns; without a barcode (or
    with the empty one) the table is left as it is. *)
Theorem translation_adds_only_own_row env text barcode w b :
  let r := translate_to_korean_cached env text barcode w in
  product_translations (db w) !! b = None ->
  (product_translations (db r.2) !! b = None \/
   (barcode = Some b /\ b <> "" /\ product_translations (db r.2) !! b = Some r.1)).
Proof.
  cbv zeta. intros Hrow.
  unfold translate_to_korean_cached, translate_to_korean, translate_to_korean_try.
  destruct (ko_memo w !! (text, barcode)) as [[value shown]|]; [left; exact Hrow|].
  destruct barcode as [[|c rest]|]; cbn [truthy].
  - cbn. destruct (translator_reply env text); cbn; left; exact Hrow.
  - destruct (query_ok env); cbn; [|left; exact Hrow].
    destruct (product_translations (db w) !! String c rest) eqn:Hown; cbn;
      [left; exact Hrow|].
    destruct (translator_reply env text) as [translation|]; cbn; [|left; exact Hrow].
    destruct (commit_ok env); cbn; [|left; exact Hrow].
    destruct (decide (String c rest = b)) as [<-|Hne].
    + right. rewrite lookup_insert_eq. repeat split. discriminate.
    + left. rewrite lookup_insert_ne by exact Hne. exact Hrow.
  - cbn. destruct (translator_reply env text); cbn; left; exact Hrow.
Qed.

Lemma translation_adds_only_own_row_witness :
  product_translations (db two_users) !! "123" = None /\
  product_translations
    (db (translate_to_korean_cached translator_up "Chicken Breast" (Some "999")
           two_users).2) !! "123" = None.
Proof.
  assert (Hrow : product_translations (db two_users) !! "123" = None)
    by (vm_compute; reflexivity).
  split; [exact Hrow|].
  destruct (translation_adds_only_own_row translator_up "Chicken Breast" (Some "999")
              two_users "123" Hrow) as [Hnone|(Hsame & _)];
    [exact Hnone|discriminate Hsame].
Defined.

(** ** The query translation of the food search *)

(** X29.  The translation of a search query is memoised together with its
    outcome: a second search for the same query makes no further call to
    the translation service and sends the same text, whatever the service
    would answer then -- also when the first answer was a failure that
    left the query untranslated. *)
Theorem query_translation_is_replayed env env' text w :
  let r1 := translate_to_english_cached env text w in
  let r2 := translate_to_english_cached env' text r1.2 in
  r2.1 = r1.1 /\ live_calls r2.2 = live_calls r1.2 /\
  (en_memo w !! text = None -> translator_reply env text = None ->
   r1.1 = text /\ r2.1 = text /\
   notices r2.2 = (notices w ++ [st_error MsgTranslateEnFailed;
                                 st_error MsgTranslateEnFailed])%list).
Proof.
  cbv zeta.
  assert (Hkept : exists shown,
            en_memo (translate_to_english_cached env text w).2 !! text
            = Some ((translate_to_english_cached env text w).1, shown)).
  { unfold translate_to_english_cached, translate_to_english.
    destruct (en_memo w !! text) as [[value shown]|] eqn:E; [exists shown; exact E|].
    destruct (translator_reply env text); eexists; cbn; apply lookup_insert_eq. }
  destruct Hkept as [shown Hkept].
  split; [|split].
  - remember (translate_to_english_cached env text w) as r1.
    unfold translate_to_english_cached. rewrite Hkept. reflexivity.
  - remember (translate_to_english_cached env text w) as r1.
    unfold translate_to_english_cached. rewrite Hkept. reflexivity.
  - intros Hnone Hreply.
    assert (H1 : translate_to_english_cached env text w
                 = (text, set_en_memo
                            (<[text := (text, [st_error MsgTranslateEnFailed])]>
                               (en_memo w))
                            (show [st_error MsgTranslateEnFailed] (count_live_call w)))).
    { unfold translate_to_english_cached, translate_to_english.
      rewrite Hnone, Hreply. reflexivity. }
    rewrite H1. cbn [fst snd]. unfold translate_to_english_cached.
    cbn [en_memo set_en_memo]. rewrite lookup_insert_eq. cbn.
    rewrite <- app_assoc. auto.
Qed.

Lemma query_translation_is_replayed_witness :
  en_memo initial_world !! "닭가슴살" = None /\
  translator_reply translator_down "닭가슴살" = None /\
  (translate_to_english_cached translator_up "닭가슴살"
     (translate_to_english_cached translator_down "닭가슴살" initial_world).2).1
  = "닭가슴살".
Proof.
  split; [reflexivity|]. split; [reflexivity|].
  exact (proj1 (proj2 (proj2 (proj2 (query_translation_is_replayed translator_down
                                       translator_up "닭가슴살" initial_world))
                             eq_refl eq_refl))).
Defined.
